(** * callmeout: daily push counters, the GitHub webhook and the goal sweep

    A shallow embedding of the server of the repository (an Express
    application backed by a Supabase/Postgres store) and the properties
    of its two core operations:

    - [gitwebhook], the handler of [POST /api/gitwebhook], which verifies
      the signature of a GitHub push event and bumps the sender's
      counter of the day;
    - [checkPushGoals], the sweep run every five minutes (by node-cron,
      or through [GET /api/cron]), which posts a reminder or a
      congratulation to the Discord webhook of every due user.

    The sweep of the earlier server file, an anonymous [cron.schedule]
    callback, is embedded next to it as [Legacy.cron_callback].

    The store is explicit state: two tables as lists of rows.  The
    collaborators that can fail (the store client, the HTTP client) are
    driven by an environment record that says which calls succeed, so
    that one function describes every run of the handler.  Console output
    is not modelled. *)

From stdpp Require Import gmap strings list fin_maps.
From Stdlib Require Import ZArith Ascii Lia.

Open Scope string_scope.
Open Scope list_scope.
Open Scope Z_scope.

(** ** The tables

    [users] and [github_counter] as the schema and the queries of the
    server have them.  Ids are BIGINT, counters and goals INT; the server
    only compares and the store only adds one, so [Z] is exact. *)

Module User.
Record t := mk {
  id : Z;
  github_id : Z;
  github_username : string;
  push_goal : Z;
  discord_webhook_url : option string;
  annoy_time : option string
}.
#[global] Instance eq_dec : EqDecision t.
Proof. solve_decision. Defined.
End User.

Module Counter.
Record t := mk {
  id : Z;
  user_id : Z;
  date : string;
  push_counter : Z;
  is_job_done : bool
}.
#[global] Instance eq_dec : EqDecision t.
Proof. solve_decision. Defined.
End Counter.

Record Store := mkStore {
  users : list User.t;
  github_counter : list Counter.t
}.

(** The exceptions the two operations can raise. [AxiosError] is the
    rejection of [axios.post]. *)
Inductive JsError := TypeError | RangeError | SyntaxError | AxiosError.

#[global] Instance JsError_eq_dec : EqDecision JsError.
Proof. solve_decision. Defined.

(** How an [async] function ends: its promise resolves, or it rejects
    with the exception that escaped it. *)
Inductive Completion := Resolved | Rejected (e : JsError).

#[global] Instance Completion_eq_dec : EqDecision Completion.
Proof. solve_decision. Defined.

(** ** The sweep: [checkPushGoals] *)

(** What the sweep does to the outside, in order: the [update] of
    [is_job_done] issued on a counter row, and the [axios.post] to a
    user's [discord_webhook_url].  A post is recorded with the row of the
    user it is made for (the url is a field of it), whether or not the
    delivery then succeeds. *)
Inductive Event :=
| EvSetJobDone (counter_id : Z)
| EvPost (user : User.t) (content : string).

#[global] Instance Event_eq_dec : EqDecision Event.
Proof. solve_decision. Defined.

Definition congratulation : string :=
  "Congratulations! You have achieved your *git push* goal for today 🎉".
Definition reminder : string := "push kar bc".

(** The collaborators during one sweep.  The store client never throws:
    a failed query resolves to [{data: null, error}].  [update_ok i] and
    [post_ok i] are the fate of the calls made for the user at index [i]
    of the batch. *)
Record SweepEnv := mkSweepEnv {
  users_query_ok : bool;
  counters_query_ok : bool;
  update_ok : nat -> bool;
  post_ok : nat -> bool
}.

(** [.not('discord_webhook_url','is',null).not('annoy_time','is',null)
     .lte('annoy_time', now)]: the filter runs in the store; as the spec
    has it, the times are zero-padded "HH:MM" strings compared in
    lexicographic order. *)
Definition due (now : string) (u : User.t) : bool :=
  match User.discord_webhook_url u, User.annoy_time u with
  | Some _, Some t => String.leb t now
  | _, _ => false
  end.

Definition select_due_users (now : string) (s : Store) : list User.t :=
  List.filter (due now) (users s).

(** [.eq('date', today).in('user_id', users.map(u => u.id))] *)
Definition counter_selected (today : string) (ids : list Z) (c : Counter.t) : bool :=
  bool_decide (Counter.date c = today) && bool_decide (Counter.user_id c ∈ ids).

Definition select_counters (today : string) (ids : list Z) (s : Store)
  : list Counter.t :=
  List.filter (counter_selected today ids) (github_counter s).

(** The second query of the sweep; [data] is [null] ([None]) when it
    fails. *)
Definition fetch_counters (ok : bool) (today : string) (batch : list User.t)
    (s : Store) : option (list Counter.t) :=
  if ok then Some (select_counters today (map User.id batch) s) else None.

(** [new Map(counters?.map(c => [c.user_id, c]))]: a later pair replaces
    an earlier one with the same key; [counters] is [null] when the query
    failed, and the map is then empty. *)
Definition counterMap (counters : option (list Counter.t)) : gmap Z Counter.t :=
  match counters with
  | None => ∅
  | Some rows => foldl (fun m c => <[Counter.user_id c := c]> m) ∅ rows
  end.

(** [update({is_job_done: true}).eq('id', id)] *)
Definition set_job_done (c : Counter.t) : Counter.t :=
  Counter.mk (Counter.id c) (Counter.user_id c) (Counter.date c)
             (Counter.push_counter c) true.

Definition update_is_job_done (cid : Z) (rows : list Counter.t) : list Counter.t :=
  map (fun c => if decide (Counter.id c = cid) then set_job_done c else c) rows.

(** [counter?.is_job_done] as a condition *)
Definition already_notified (counter : option Counter.t) : bool :=
  match counter with
  | Some c => Counter.is_job_done c
  | None => false
  end.

(** [counter?.push_counter || 0] *)
Definition pushCount (counter : option Counter.t) : Z :=
  match counter with
  | Some c => if Counter.push_counter c =? 0 then 0 else Counter.push_counter c
  | None => 0
  end.

(** [pushCount >= user.push_goal] *)
Definition goalMet (counter : option Counter.t) (user : User.t) : bool :=
  User.push_goal user <=? pushCount counter.

(** [goalMet && counter]: the counter when the goal is met, a falsy value
    otherwise ([None] for both [false] and [undefined]). *)
Definition goalMet_and_counter (goalMet : bool) (counter : option Counter.t)
  : option Counter.t :=
  if goalMet then counter else None.

(** [await supabase.from('github_counter').update(...).eq('id', id)]:
    the result is not looked at; a call the store refuses changes
    nothing. *)
Definition supabase_update (env : SweepEnv) (idx : nat) (cid : Z)
    (rows : list Counter.t) : list Counter.t :=
  if update_ok env idx then update_is_job_done cid rows else rows.

(** [await axios.post(user.discord_webhook_url, ...)]: [true] when the
    promise resolves. *)
Definition axios_post (env : SweepEnv) (idx : nat) (url : option string) : bool :=
  match url with
  | Some _ => post_ok env idx
  | None => false
  end.

(** [for (const user of users) { ... }], from index [idx] on.  The result
    is the table, the events in order, and how the loop ended: an
    [axios.post] that rejects is not caught, so it ends the loop and
    the function. *)
Fixpoint sweep_loop (env : SweepEnv) (cm : gmap Z Counter.t) (idx : nat)
    (batch : list User.t) (rows : list Counter.t)
  : list Counter.t * list Event * Completion :=
  match batch with
  | [] => (rows, [], Resolved)
  | user :: rest =>
      let counter := cm !! User.id user in
      if already_notified counter then sweep_loop env cm (S idx) rest rows
      else
        let goalMet := goalMet counter user in
        let '(rows1, ev1) :=
          match goalMet_and_counter goalMet counter with
          | Some c =>
              (supabase_update env idx (Counter.id c) rows,
               [EvSetJobDone (Counter.id c)])
          | None => (rows, [])
          end in
        let ev2 := EvPost user (if goalMet then congratulation else reminder) in
        if axios_post env idx (User.discord_webhook_url user) then
          let '(rows2, evs, c) := sweep_loop env cm (S idx) rest rows1 in
          (rows2, ev1 ++ ev2 :: evs, c)
        else (rows1, ev1 ++ [ev2], Rejected AxiosError)
  end.

Record SweepResult := mkSweepResult {
  store_after : Store;
  trace : list Event;
  completion : Completion
}.

(** [async function checkPushGoals()]. [today] and [now] are what the
    two [new Date()] expressions give: the date and the "HH:MM" time of
    the run. *)
Definition checkPushGoals (env : SweepEnv) (today now : string) (s : Store)
  : SweepResult :=
  if negb (users_query_ok env) then mkSweepResult s [] Resolved
  else
    let batch := select_due_users now s in
    match batch with
    | [] => mkSweepResult s [] Resolved
    | _ :: _ =>
        let counters := fetch_counters (counters_query_ok env) today batch s in
        let '(rows, evs, c) :=
          sweep_loop env (counterMap counters) 0 batch (github_counter s) in
        mkSweepResult (mkStore (users s) rows) evs c
    end.

(** ** The sweep of the earlier server file

    The second server file of the repository schedules its sweep as an
    anonymous callback of [cron.schedule].  It selects the counter rows
    of the day that are not done, each with the user it belongs to, where
    [checkPushGoals] selects the users that are due. *)

Module Legacy.

Definition congratulation : string :=
  "Congratulations! You have acheived your *git push* goal for today".

(** The collaborators during one run: the one query, and the calls made
    for the item at an index. *)
Record CronEnv := mkCronEnv {
  query_ok : bool;
  update_ok : nat -> bool;
  post_ok : nat -> bool
}.

(** [.eq('date', today).eq('is_job_done', false)] *)
Definition item_selected (today : string) (c : Counter.t) : bool :=
  bool_decide (Counter.date c = today) && negb (Counter.is_job_done c).

(** [select(`id, push_counter, users(push_goal, discord_webhook_url,
    annoy_time)`)]: the row with the [users] row its [user_id] refers
    to, [null] if there is none. *)
Definition embed_users (s : Store) (c : Counter.t) : Counter.t * option User.t :=
  (c, List.find (fun u => bool_decide (User.id u = Counter.user_id c)) (users s)).

Definition userCronCheck (today : string) (s : Store)
  : list (Counter.t * option User.t) :=
  map (embed_users s) (List.filter (item_selected today) (github_counter s)).

(** [now >= item.users.annoy_time]: the order of strings when
    [annoy_time] is one; against [null] the time of day is compared as a
    number, which it is not, and the comparison is false. *)
Definition time_passed (now : string) (annoy_time : option string) : bool :=
  match annoy_time with
  | Some t => String.leb t now
  | None => false
  end.

Definition axios_post (env : CronEnv) (idx : nat) (url : option string) : bool :=
  match url with
  | Some _ => post_ok env idx
  | None => false
  end.

(** [for (let item of userCronCheck) { ... }] *)
Fixpoint cron_loop (env : CronEnv) (now : string) (idx : nat)
    (items : list (Counter.t * option User.t)) (rows : list Counter.t)
  : list Counter.t * list Event * Completion :=
  match items with
  | [] => (rows, [], Resolved)
  | (item, None) :: rest => (rows, [], Rejected TypeError)
  | (item, Some item_users) :: rest =>
      if User.push_goal item_users <=? Counter.push_counter item then
        let rows1 :=
          if update_ok env idx
          then update_is_job_done (Counter.id item) rows
          else rows in
        let evs1 := [EvSetJobDone (Counter.id item);
                     EvPost item_users congratulation] in
        if axios_post env idx (User.discord_webhook_url item_users) then
          let '(rows2, evs, c) := cron_loop env now (S idx) rest rows1 in
          (rows2, evs1 ++ evs, c)
        else (rows1, evs1, Rejected AxiosError)
      else if time_passed now (User.annoy_time item_users) then
        let evs1 := [EvPost item_users reminder] in
        if axios_post env idx (User.discord_webhook_url item_users) then
          let '(rows2, evs, c) := cron_loop env now (S idx) rest rows in
          (rows2, evs1 ++ evs, c)
        else (rows, evs1, Rejected AxiosError)
      else cron_loop env now (S idx) rest rows
  end.

(** The callback of [cron.schedule('*/5 * * * *', ...)]. [now] is
    ["HH:MM:SS"] here. *)
Definition cron_callback (env : CronEnv) (today now : string) (s : Store)
  : SweepResult :=
  if negb (query_ok env) then mkSweepResult s [] Resolved
  else
    match userCronCheck today s with
    | [] => mkSweepResult s [] Resolved
    | items =>
        let '(rows, evs, c) := cron_loop env now 0 items (github_counter s) in
        mkSweepResult (mkStore (users s) rows) evs c
    end.

End Legacy.

(** ** [GET /api/cron]: the sweep behind an HTTP boundary *)

(** A response: the status, and the text sent (for a JSON body, the
    message in it). *)
Record Response := mkResponse {
  status : Z;
  text : string
}.

#[global] Instance Response_eq_dec : EqDecision Response.
Proof. solve_decision. Defined.

(** A string as a JavaScript condition: [undefined] and [''] are falsy. *)
Definition truthy (v : option string) : bool :=
  match v with
  | Some s => negb (String.eqb s "")
  | None => false
  end.

(** [a || b] *)
Definition js_or (a b : option string) : option string :=
  if truthy a then a else b.

(** The handler of [/api/cron]. [CRON_SECRET] is the environment
    variable, [header] the [x-cron-secret] header and [query] the
    [secret] query parameter.  A sweep that rejects is caught here and
    answered with 500; what it had done before stays done. *)
Definition apiCron (CRON_SECRET header query : option string)
    (env : SweepEnv) (today now : string) (s : Store)
  : Response * SweepResult :=
  let cronSecret := js_or header query in
  if truthy CRON_SECRET && negb (bool_decide (cronSecret = CRON_SECRET))
  then (mkResponse 401 "Unauthorized", mkSweepResult s [] Resolved)
  else
    let r := checkPushGoals env today now s in
    match completion r with
    | Resolved => (mkResponse 200 "Cron job executed successfully", r)
    | Rejected _ => (mkResponse 500 "Cron job failed", r)
    end.

(** ** The webhook: [POST /api/gitwebhook] *)

(** The values [JSON.parse] can return, and [undefined]. Numbers are the
    integers: the only number the handler uses is an account id. *)
#[local] Unset Elimination Schemes.
Inductive JsValue :=
| JsUndefined
| JsNull
| JsBool (b : bool)
| JsNumber (n : Z)
| JsString (s : string)
| JsArray (items : list JsValue)
| JsObject (fields : list (string * JsValue)).
#[local] Set Elimination Schemes.

(** [v.key] for the two keys the handler reads, [sender] and [id], which
    no prototype defines: reading a property of [undefined] or [null]
    throws a TypeError ([None]); an object gives its field, every other
    value [undefined]. *)
Definition js_get (v : JsValue) (key : string) : option JsValue :=
  match v with
  | JsUndefined | JsNull => None
  | JsObject fields =>
      match List.find (fun kv => String.eqb (fst kv) key) fields with
      | Some kv => Some (snd kv)
      | None => Some JsUndefined
      end
  | _ => Some JsUndefined
  end.

(** [pushEvent.sender.id] *)
Definition sender_id (pushEvent : JsValue) : option JsValue :=
  match js_get pushEvent "sender" with
  | Some sender => js_get sender "id"
  | None => None
  end.

(** [Buffer.from(s)]: the UTF-8 bytes of a string whose characters are
    code points below 256 (a header value is decoded as latin1). *)
Definition utf8 (c : ascii) : list Z :=
  let n := Z.of_N (N_of_ascii c) in
  if n <? 128 then [n]
  else [Z.lor 192 (Z.shiftr n 6); Z.lor 128 (Z.land n 63)].

Definition Buffer_from (s : string) : list Z :=
  flat_map utf8 (String.list_ascii_of_string s).

(** [crypto.timingSafeEqual(a, b)]: throws a RangeError ([None]) when the
    two buffers differ in length. *)
Definition timingSafeEqual (a b : list Z) : option bool :=
  if Nat.eqb (length a) (length b) then Some (bool_decide (a = b)) else None.

(** What the handler reads of a request: the signature header, if there
    is one, and the raw body that [express.raw] gives for a JSON content
    type. *)
Record Request := mkRequest {
  X_Hub_Signature_256 : option string;
  body : string
}.

(** The process environment and the store client during one request. *)
Record WebhookEnv := mkWebhookEnv {
  GITWEBHOOK_SECRET : option string;
  user_query_ok : bool;
  rpc_ok : bool
}.

(** How the handler ends: it sends a response, or an exception escapes
    it (the promise of the [async] handler rejects and no response is
    sent by it). *)
Inductive Outcome :=
| Responded (r : Response)
| Threw (e : JsError).

#[global] Instance Outcome_eq_dec : EqDecision Outcome.
Proof. solve_decision. Defined.

(** Modelled from the spec: the SQL function [increment_push_counter]
    behind [supabase.rpc] is not in the sources.  The spec has it
    increment [push_count] by 1 if a row exists for (user, today), else
    create the row with [push_count = 1] and [is_job_done] false, as one
    atomic store operation. *)
Definition counter_of (user_id : Z) (today : string) (c : Counter.t) : bool :=
  bool_decide (Counter.user_id c = user_id) && bool_decide (Counter.date c = today).

Definition bump (c : Counter.t) : Counter.t :=
  Counter.mk (Counter.id c) (Counter.user_id c) (Counter.date c)
             (Counter.push_counter c + 1) (Counter.is_job_done c).

Definition fresh_counter_id (rows : list Counter.t) : Z :=
  1 + foldr Z.max 0 (map Counter.id rows).

Definition increment_push_counter (user_id_in : Z) (today : string)
    (rows : list Counter.t) : list Counter.t :=
  if existsb (counter_of user_id_in today) rows
  then map (fun c => if counter_of user_id_in today c then bump c else c) rows
  else rows ++ [Counter.mk (fresh_counter_id rows) user_id_in today 1 false].

(** A delivery in flight.  The handler touches the store twice, at its
    two [await]s: the user query and the [rpc].  What it runs in between
    is synchronous and reads no shared state, so a delivery is in one of
    three states: not started, waiting for the [rpc] with the row the
    query gave, or ended. *)
Inductive Handler :=
| Received (request : Request)
| AwaitingUpsert (pushData : User.t)
| Finished (o : Outcome).

(** The operations of the core, as steps on the store: a delivery of the
    webhook, a run of [checkPushGoals], a run of the earlier cron
    callback. *)
Inductive Operation :=
| Webhook (env : WebhookEnv) (today : string) (request : Request)
| Sweep (env : SweepEnv) (today now : string)
| LegacySweep (env : Legacy.CronEnv) (today now : string).

(** How far a delivery has got: the number of its [await]s that have
    been answered. *)
Definition stage (h : Handler) : nat :=
  match h with
  | Received _ => 0
  | AwaitingUpsert _ => 1
  | Finished _ => 2
  end.

Definition finished (h : Handler) : bool :=
  match h with
  | Finished _ => true
  | _ => false
  end.

(** [push_count] of (user, date): that of the row, 0 without a row. *)
Definition push_count (user_id : Z) (today : string) (s : Store) : Z :=
  match List.find (counter_of user_id today) (github_counter s) with
  | Some c => Counter.push_counter c
  | None => 0
  end.

Section Webhook.

(** Three functions of the platform are parameters: the digest
    [crypto.createHmac('sha256', secret).update(body).digest('hex')],
    [JSON.parse] ([None] when it throws a SyntaxError), and the [eq]
    filter of the store on the BIGINT column [github_id], which decides
    whether a JavaScript value sent as the filter's operand selects a
    row. *)
Variable hmacSha256Hex : string -> string -> string.
Variable JSON_parse : string -> option JsValue.
Variable pgrst_eq : JsValue -> Z -> bool.

(** [.from('users').select('id').eq('github_id', v).single()]: [data]
    is the row when exactly one matches; no row, several rows or a failed
    query give [data: null] with an error. *)
Definition find_user (env : WebhookEnv) (v : JsValue) (s : Store) : option User.t :=
  if user_query_ok env then
    match List.filter (fun u => pgrst_eq v (User.github_id u)) (users s) with
    | [u] => Some u
    | _ => None
    end
  else None.

(** The handler up to the answer of the user query: either it has ended,
    or it holds [pushData]. *)
Definition gitwebhook_lookup (env : WebhookEnv) (request : Request) (s : Store)
  : Outcome + User.t :=
  match GITWEBHOOK_SECRET env with
  | None => inl (Threw TypeError)
  | Some gitWebhookSecret =>
      let ourSignature :=
        String.append "sha256=" (hmacSha256Hex gitWebhookSecret (body request)) in
      match X_Hub_Signature_256 request with
      | None => inl (Threw TypeError)
      | Some githubSignature =>
          match timingSafeEqual (Buffer_from ourSignature)
                                (Buffer_from githubSignature) with
          | None => inl (Threw RangeError)
          | Some false => inl (Responded (mkResponse 401 "Invalid Signature"))
          | Some true =>
              match JSON_parse (body request) with
              | None => inl (Threw SyntaxError)
              | Some pushEvent =>
                  match sender_id pushEvent with
                  | None => inl (Threw TypeError)
                  | Some v =>
                      match find_user env v s with
                      | None => inl (Responded (mkResponse 404 "User not Found"))
                      | Some pushData => inr pushData
                      end
                  end
              end
          end
      end
  end.

(** The rest of the handler: the [rpc] and the response. [today] is the
    date of the store's clock when the call runs. *)
Definition gitwebhook_upsert (env : WebhookEnv) (today : string)
    (pushData : User.t) (s : Store) : Outcome * Store :=
  if rpc_ok env
  then (Responded (mkResponse 200 "Webhook recieved successfully"),
        mkStore (users s)
                (increment_push_counter (User.id pushData) today (github_counter s)))
  else (Responded (mkResponse 500 "Data not updated"), s).

(** The handler run without interruption. *)
Definition gitwebhook (env : WebhookEnv) (today : string) (request : Request)
    (s : Store) : Outcome * Store :=
  match gitwebhook_lookup env request s with
  | inl o => (o, s)
  | inr pushData => gitwebhook_upsert env today pushData s
  end.

(** The claimed signature is the digest of the body under the shared
    secret. *)
Definition signature_valid (env : WebhookEnv) (request : Request) : Prop :=
  ∃ secret, GITWEBHOOK_SECRET env = Some secret ∧
            X_Hub_Signature_256 request
            = Some (String.append "sha256=" (hmacSha256Hex secret (body request))).

(** A validly signed delivery whose sender is the stored user [u]. *)
Definition delivery_for (env : WebhookEnv) (s : Store) (u : User.t)
    (request : Request) : Prop :=
  signature_valid env request ∧
  ∃ pushEvent v, JSON_parse (body request) = Some pushEvent ∧
                 sender_id pushEvent = Some v ∧
                 find_user env v s = Some u.

(** One delivery advances to its next [await] (or to its end). *)
Definition handler_step (env : WebhookEnv) (today : string) (h : Handler)
    (s : Store) : Handler * Store :=
  match h with
  | Received request =>
      match gitwebhook_lookup env request s with
      | inl o => (Finished o, s)
      | inr pushData => (AwaitingUpsert pushData, s)
      end
  | AwaitingUpsert pushData =>
      let '(o, s') := gitwebhook_upsert env today pushData s in
      (Finished o, s')
  | Finished o => (Finished o, s)
  end.

(** The server with several deliveries in flight: the scheduler picks
    the delivery that runs next. *)
Definition server_step (env : WebhookEnv) (today : string) (i : nat)
    (sys : list Handler * Store) : list Handler * Store :=
  match fst sys !! i with
  | Some h =>
      let '(h', s') := handler_step env today h (snd sys) in
      (<[i := h']> (fst sys), s')
  | None => sys
  end.

Fixpoint run_schedule (env : WebhookEnv) (today : string) (schedule : list nat)
    (sys : list Handler * Store) : list Handler * Store :=
  match schedule with
  | [] => sys
  | i :: rest => run_schedule env today rest (server_step env today i sys)
  end.

(** What the deliveries for one user [u] look like while they run: a
    request not yet looked at, a delivery that holds the row of [u], or a
    delivery answered 200. *)
Definition in_flight_for (env : WebhookEnv) (s0 : Store) (u : User.t)
    (h : Handler) : Prop :=
  match h with
  | Received request => delivery_for env s0 u request
  | AwaitingUpsert pushData => pushData = u
  | Finished o => o = Responded (mkResponse 200 "Webhook recieved successfully")
  end.

(** No update is lost: the counter of the day counts the deliveries that
    have been answered. *)
Definition counted (env : WebhookEnv) (today : string) (s0 : Store) (u : User.t)
    (sys : list Handler * Store) : Prop :=
  users sys.2 = users s0 ∧
  Forall (in_flight_for env s0 u) sys.1 ∧
  push_count (User.id u) today sys.2
  = Z.of_nat (length (List.filter finished sys.1)).

Definition apply_op (op : Operation) (s : Store) : Store :=
  match op with
  | Webhook env today request => snd (gitwebhook env today request s)
  | Sweep env today now => store_after (checkPushGoals env today now s)
  | LegacySweep env today now => store_after (Legacy.cron_callback env today now s)
  end.

Definition apply_ops (ops : list Operation) (s : Store) : Store :=
  foldl (fun s op => apply_op op s) s ops.

End Webhook.

(** The first character of a UTF-8 buffer and the bytes after it, for
    the buffers [Buffer_from] makes. *)
Definition utf8_head (bytes : list Z) : option (ascii * list Z) :=
  match bytes with
  | [] => None
  | b :: rest =>
      if b <? 128 then Some (ascii_of_N (Z.to_N b), rest)
      else
        match rest with
        | b2 :: rest' =>
            Some (ascii_of_N
                    (Z.to_N (Z.lor (Z.shiftl (Z.land b 3) 6) (Z.land b2 63))),
                  rest')
        | [] => None
        end
  end.

(** ** Vocabulary of the statements *)

(** The map the sweep builds from its second query. *)
Definition sweep_counterMap (env : SweepEnv) (today now : string) (s : Store)
  : gmap Z Counter.t :=
  counterMap (fetch_counters (counters_query_ok env) today
                             (select_due_users now s) s).

(** The events the body of the loop produces for one user, given the
    counter the map has for it: nothing for a user already notified,
    else the post, after the flag update when there is one. *)
Definition decision (counter : option Counter.t) (user : User.t) : list Event :=
  if already_notified counter then []
  else
    let goalMet := goalMet counter user in
    match counter with
    | Some c =>
        if goalMet
        then [EvSetJobDone (Counter.id c); EvPost user congratulation]
        else [EvPost user reminder]
    | None => [EvPost user (if goalMet then congratulation else reminder)]
    end.

Definition decisions (cm : gmap Z Counter.t) (batch : list User.t) : list Event :=
  flat_map (fun u => decision (cm !! User.id u) u) batch.

(** The table after the body of the loop has run for one user. *)
Definition rows_after_body (env : SweepEnv) (idx : nat)
    (counter : option Counter.t) (user : User.t) (rows : list Counter.t)
  : list Counter.t :=
  match goalMet_and_counter (goalMet counter user) counter with
  | Some c => supabase_update env idx (Counter.id c) rows
  | None => rows
  end.

(** The body of the loop posts for this user, and the post is
    rejected. *)
Definition post_rejected (env : SweepEnv) (cm : gmap Z Counter.t) (i : nat)
    (u : User.t) : Prop :=
  already_notified (cm !! User.id u) = false ∧
  axios_post env i (User.discord_webhook_url u) = false.

(** The constraints of the schema that the statements rely on:
    [CHECK (push_goal > 0)] on [users] and [UNIQUE (user_id, date)] on
    [github_counter]. *)
Definition counter_key (c : Counter.t) : Z * string :=
  (Counter.user_id c, Counter.date c).

Record schema_ok (s : Store) : Prop := mk_schema_ok {
  push_goal_check : ∀ u, u ∈ users s → 1 ≤ User.push_goal u;
  counter_unique : NoDup (map counter_key (github_counter s))
}.

(** The counter of (user, date) exists and has [is_job_done] set. *)
Definition job_done (user_id : Z) (today : string) (s : Store) : Prop :=
  ∃ c, c ∈ github_counter s ∧ counter_key c = (user_id, today) ∧
       Counter.is_job_done c = true.

(** There is no counter row for (user, date). *)
Definition no_counter (user_id : Z) (today : string) (s : Store) : Prop :=
  ∀ c, c ∈ github_counter s → counter_key c ≠ (user_id, today).

(** A row keeps its identity and its flag can only have been raised. *)
Definition latched (c c' : Counter.t) : Prop :=
  Counter.id c' = Counter.id c ∧ counter_key c' = counter_key c ∧
  (Counter.is_job_done c' = Counter.is_job_done c ∨
   (Counter.is_job_done c = false ∧ Counter.is_job_done c' = true)).

(** Every row of [rows] is still there in [rows'], at the same place,
    with its flag unchanged or raised. *)
Definition latch_kept (rows rows' : list Counter.t) : Prop :=
  ∀ i c, rows !! i = Some c → ∃ c', rows' !! i = Some c' ∧ latched c c'.

(** Every row with this id has its flag set. *)
Definition flagged_id (cid : Z) (rows : list Counter.t) : Prop :=
  ∀ r, r ∈ rows → Counter.id r = cid → Counter.is_job_done r = true.

(** In a trace, every congratulation is right after the flag update of
    the counter the map has for that user. *)
Definition flag_first (cm : gmap Z Counter.t) (tr : list Event) : Prop :=
  ∀ before u after,
    tr = before ++ EvPost u congratulation :: after →
    ∃ c before', cm !! User.id u = Some c ∧
                 before = before' ++ [EvSetJobDone (Counter.id c)].

(** The reading of "a failed delivery does not abort the batch": after a
    rejected post for the user at index [i], the sweep still performs
    the decision (flag update and post) for every user after [i]. *)
Definition continues_after_rejection (env : SweepEnv) (today now : string)
    (s : Store) : Prop :=
  let batch := select_due_users now s in
  let cm := sweep_counterMap env today now s in
  ∀ i u, batch !! i = Some u → post_rejected env cm i u →
  ∀ j u', (i < j)%nat → batch !! j = Some u' →
  ∀ e, e ∈ decision (cm !! User.id u') u' →
       e ∈ trace (checkPushGoals env today now s).

(** The reading of "each sweep sends that user a reminder": every user
    of the store with an endpoint, an [annoy_time] that has passed, a
    positive goal and no counter row for today is posted the reminder by
    the sweep. *)
Definition reminds_every_idle_user
    (sweep : string → string → Store → SweepResult) (today now : string)
    (s : Store) : Prop :=
  ∀ u t, u ∈ users s →
         is_Some (User.discord_webhook_url u) →
         User.annoy_time u = Some t → String.leb t now = true →
         1 ≤ User.push_goal u →
         no_counter (User.id u) today s →
         EvPost u reminder ∈ trace (sweep today now s).

(** The reading of "a user whose [annoy_time] is null never receives any
    message from the sweep". *)
Definition spares_null_annoy_time
    (sweep : string → string → Store → SweepResult) (today now : string)
    (s : Store) : Prop :=
  ∀ u content, u ∈ users s → User.annoy_time u = None →
               EvPost u content ∉ trace (sweep today now s).

(** A run of the sweep that gets to the user [u]: the users query
    answers, the time [t] has passed, and the deliveries to the users
    before [u] in the batch succeed. *)
Definition gets_to (s : Store) (u : User.t) (t : string)
    (run : SweepEnv * string) : Prop :=
  users_query_ok run.1 = true ∧
  String.leb t run.2 = true ∧
  ∀ i, select_due_users run.2 s !! i = Some u →
       ∀ j, (j < i)%nat → post_ok run.1 j = true.

(** Consecutive sweeps of one day, each with its own collaborators and
    time of day. *)
Fixpoint sweeps (today : string) (runs : list (SweepEnv * string)) (s : Store)
  : list SweepResult :=
  match runs with
  | [] => []
  | (env, now) :: rest =>
      let r := checkPushGoals env today now s in
      r :: sweeps today rest (store_after r)
  end.

(** ** Sample data *)

Module Sample.

Definition day : string := "2024-05-01".

Definition alice : User.t :=
  User.mk 1 101 "alice" 1 (Some "https://discord.test/hooks/alice") (Some "08:00").
Definition bob : User.t :=
  User.mk 2 102 "bob" 3 (Some "https://discord.test/hooks/bob") (Some "09:00").
(** carol has signed in but not finished onboarding. *)
Definition carol : User.t :=
  User.mk 3 103 "carol" 1 (Some "https://discord.test/hooks/carol") None.

Definition dave : User.t :=
  User.mk 4 104 "dave" 2 (Some "https://discord.test/hooks/dave") (Some "09:15").

(** Every collaborator answers. *)
Definition calm : SweepEnv :=
  mkSweepEnv true true (fun _ => true) (fun _ => true).

(** The delivery to the user at index [i] is rejected. *)
Definition rejecting (i : nat) : SweepEnv :=
  mkSweepEnv true true (fun _ => true) (fun j => negb (Nat.eqb j i)).

(** The counters query fails. *)
Definition counters_down : SweepEnv :=
  mkSweepEnv true false (fun _ => true) (fun _ => true).

(** Nobody has pushed yet today. *)
Definition morning : Store := mkStore [alice; bob; carol; dave] [].

(** alice has pushed once and has been congratulated; bob has pushed
    three times and has not been looked at yet. *)
Definition afternoon : Store :=
  mkStore [alice; bob; carol; dave]
          [Counter.mk 1 1 day 1 true; Counter.mk 2 2 day 3 false].

(** bob alone. *)
Definition solo : Store := mkStore [bob] [].

(** bob met his goal the day before. *)
Definition next_morning : Store :=
  mkStore [bob] [Counter.mk 1 2 "2024-04-30" 3 true].

(** A row that the CHECK on [push_goal] would refuse. *)
Definition erin : User.t :=
  User.mk 5 105 "erin" 0 (Some "https://discord.test/hooks/erin") (Some "07:00").

Definition unchecked : Store := mkStore [erin] [].

(** carol, who has no [annoy_time], has pushed once for a goal of one. *)
Definition carol_pushed : Store :=
  mkStore [alice; bob; carol; dave] [Counter.mk 7 3 day 1 false].

Definition legacy_calm : Legacy.CronEnv :=
  Legacy.mkCronEnv true (fun _ => true) (fun _ => true).

(** Stand-ins for the platform functions of the webhook: a digest, a
    parser that knows four bodies, and the filter on plain numbers. *)
Definition digest (secret body : string) : string :=
  "9f86d081884c7d659a2feaa0c55ad015a3bf4f1b2b0b822cd15d6c15b0f00a08".

Definition parse (body : string) : option JsValue :=
  if String.eqb body "push by alice"
  then Some (JsObject [("sender", JsObject [("id", JsNumber 101)])])
  else if String.eqb body "push by bob"
  then Some (JsObject [("sender", JsObject [("id", JsNumber 102)])])
  else if String.eqb body "push by a stranger"
  then Some (JsObject [("sender", JsObject [("id", JsNumber 999)])])
  else if String.eqb body "no sender"
  then Some (JsObject [("zen", JsString "Keep it logically awesome.")])
  else None.

Definition id_eq (v : JsValue) (g : Z) : bool :=
  match v with
  | JsNumber n => n =? g
  | _ => false
  end.

Definition listening : WebhookEnv := mkWebhookEnv (Some "s3cret") true true.

(** A claimed signature of the right length that is not the digest. *)
Definition forged : string :=
  "sha256=0000000000000000000000000000000000000000000000000000000000000000".

Definition signed (body : string) : Request :=
  mkRequest (Some (String.append "sha256=" (digest "s3cret" body))) body.

(** bob has pushed twice for a goal of three. *)
Definition midday : Store :=
  mkStore [alice; bob; carol; dave] [Counter.mk 1 2 day 2 false].

(** The store does not answer the user query; the store refuses the
    [rpc]. *)
Definition users_down : WebhookEnv := mkWebhookEnv (Some "s3cret") false true.
Definition rpc_down : WebhookEnv := mkWebhookEnv (Some "s3cret") true false.

(** Stand-ins for the platform functions of the settings: [parseInt]
    on numbers, and a URL check that looks at the scheme. *)
Definition parseInt (v : JsValue) : option Z :=
  match v with
  | JsNumber n => Some n
  | _ => None
  end.

Definition url_ok (s : string) : bool := String.prefix "https://" s.

(** The store refuses every update of a flag, and the delivery to the
    user at index 1 is rejected. *)
Definition store_refuses : SweepEnv :=
  mkSweepEnv true true (fun _ => false) (fun j => negb (Nat.eqb j 1)).

End Sample.

(** ** Vocabulary of the further properties *)

(** The posts made for one user in a trace. *)
Definition is_post_for (u : User.t) (e : Event) : bool :=
  match e with
  | EvPost u' _ => bool_decide (u' = u)
  | EvSetJobDone _ => false
  end.

Definition posts_for (u : User.t) (tr : list Event) : list Event :=
  List.filter (is_post_for u) tr.

(** What a sweep with trace [tr] may have done to a row: nothing, or set
    its flag by an update that is in the trace. *)
Definition flag_change (tr : list Event) (c c' : Counter.t) : Prop :=
  c' = c ∨ (c' = set_job_done c ∧ EvSetJobDone (Counter.id c) ∈ tr).

(** ** The format of [annoy_time]

    [/api/settings] and [/api/onboarding] accept an [annoy_time] only if
    [/^([01]\d|2[0-3]):([0-5]\d)$/] matches it. *)

(** A character class [[lo-hi]]. *)
Definition char_between (lo hi c : ascii) : bool :=
  (N_of_ascii lo <=? N_of_ascii c)%N && (N_of_ascii c <=? N_of_ascii hi)%N.

(** [\d] *)
Definition is_digit (c : ascii) : bool := char_between "0" "9" c.

(** [timeRegex.test(s)] for a string [s] *)
Definition timeRegex_test (s : string) : bool :=
  match s with
  | String h1 (String h2 (String c (String m1 (String m2 EmptyString)))) =>
      ((char_between "0" "1" h1 && is_digit h2)
       || (Ascii.eqb h1 "2" && char_between "0" "3" h2))
      && Ascii.eqb c ":"
      && (char_between "0" "5" m1 && is_digit m2)
  | _ => false
  end.

(** The time of day that the first five characters of a string of the
    form "HH:MM" or "HH:MM:SS" stand for, in minutes since midnight. *)
Definition digit_value (c : ascii) : Z := Z.of_N (N_of_ascii c) - 48.

Definition time_minutes (s : string) : Z :=
  match s with
  | String h1 (String h2 (String _ (String m1 (String m2 _)))) =>
      (10 * digit_value h1 + digit_value h2) * 60
      + (10 * digit_value m1 + digit_value m2)
  | _ => 0
  end.

(** "HH:MM" for an hour and a minute. *)
Definition digit_char (d : Z) : ascii := ascii_of_N (Z.to_N (48 + d)).

Definition format_time (h m : Z) : string :=
  String (digit_char (h / 10)) (String (digit_char (h mod 10))
    (String ":" (String (digit_char (m / 10)) (String (digit_char (m mod 10)) "")))).

(** In a trace of the earlier callback, every congratulation is right
    after the flag update of a counter row of that user for the day. *)
Definition legacy_flag_first (today : string) (s : Store) (tr : list Event) : Prop :=
  ∀ before u after,
    tr = before ++ EvPost u Legacy.congratulation :: after →
    ∃ item before', item ∈ github_counter s ∧
                    counter_key item = (User.id u, today) ∧
                    before = before' ++ [EvSetJobDone (Counter.id item)].

(** ** [POST /api/settings]

    The handler, for a body whose [annoy_time] and
    [discord_webhook_url] are each absent, [null] or a string, which is
    what the settings page sends; [push_goal] is any value, [JsUndefined]
    when the body does not have it. *)

Inductive Field := Undefined | Null | Text (s : string).

Module Body.
Record t := mk {
  push_goal : JsValue;
  annoy_time : Field;
  discord_webhook_url : Field
}.
End Body.

(** [updateData]: a key is [None] when the object does not have it.  The
    number under [push_goal] is [None] when it is NaN; a text column is
    [None] when the value is [null]. *)
Module UpdateData.
Record t := mk {
  push_goal : option (option Z);
  annoy_time : option (option string);
  discord_webhook_url : option (option string)
}.

(** [Object.keys(updateData).length === 0] *)
Definition empty (d : t) : bool :=
  match push_goal d, annoy_time d, discord_webhook_url d with
  | None, None, None => true
  | _, _, _ => false
  end.
End UpdateData.

(** [f !== undefined && f !== null && f !== ''], with the string; it is
    also [f || null] for a field that is not [undefined]. *)
Definition filled (f : Field) : option string :=
  match f with
  | Text s => if String.eqb s "" then None else Some s
  | _ => None
  end.

Definition is_undefined (v : JsValue) : bool :=
  match v with
  | JsUndefined => true
  | _ => false
  end.

(** [request.session.userId] as a condition: [undefined] and [0] are
    falsy. *)
Definition session_user (userId : option Z) : option Z :=
  match userId with
  | Some id => if id =? 0 then None else Some id
  | None => None
  end.

(** The row after [update(updateData)]. *)
Definition update_user (d : UpdateData.t) (u : User.t) : User.t :=
  User.mk (User.id u) (User.github_id u) (User.github_username u)
          (match UpdateData.push_goal d with
           | Some (Some n) => n
           | _ => User.push_goal u
           end)
          (match UpdateData.discord_webhook_url d with
           | Some v => v
           | None => User.discord_webhook_url u
           end)
          (match UpdateData.annoy_time d with
           | Some v => v
           | None => User.annoy_time u
           end).

(** [.from('users').update(updateData).eq('id', userId).select().single()]:
    [None] when the call resolves to an error, either because the store
    refuses the update ([update_ok] is false, or [push_goal], NOT NULL,
    would be NaN, which is sent as [null]), or because the filter does
    not select exactly one row; nothing is written then. *)
Definition users_update (update_ok : bool) (userId : Z) (d : UpdateData.t)
    (s : Store) : option Store :=
  match UpdateData.push_goal d with
  | Some None => None
  | _ =>
      if update_ok then
        match List.filter (fun u => User.id u =? userId) (users s) with
        | [_] =>
            Some (mkStore
                    (map (fun u => if User.id u =? userId then update_user d u else u)
                         (users s))
                    (github_counter s))
        | _ => None
        end
      else None
  end.

Section Settings.

(** Two functions of the platform are parameters: [parseInt(v, 10)]
    ([None] when it is NaN) and whether [new URL(s)] returns rather than
    throws. *)
Variable parseInt : JsValue -> option Z.
Variable URL_valid : string -> bool.

(** [isNaN(goalNum) || goalNum < 1] *)
Definition goal_refused (goalNum : option Z) : bool :=
  match goalNum with
  | None => true
  | Some n => n <? 1
  end.

Definition updateData_of (body : Body.t) : UpdateData.t :=
  UpdateData.mk
    (if is_undefined (Body.push_goal body) then None
     else Some (parseInt (Body.push_goal body)))
    (match Body.annoy_time body with
     | Undefined => None
     | f => Some (filled f)
     end)
    (match Body.discord_webhook_url body with
     | Undefined => None
     | f => Some (filled f)
     end).

Definition apiSettings (userId : option Z) (body : Body.t) (update_ok : bool)
    (s : Store) : Response * Store :=
  match session_user userId with
  | None => (mkResponse 401 "401 Unauthorized", s)
  | Some id =>
      if negb (is_undefined (Body.push_goal body))
         && goal_refused (parseInt (Body.push_goal body))
      then (mkResponse 400 "push_goal must be a positive integer", s)
      else if match filled (Body.annoy_time body) with
              | Some t => negb (timeRegex_test t)
              | None => false
              end
      then (mkResponse 400 "annoy_time must be in HH:MM format (24-hour)", s)
      else if match filled (Body.discord_webhook_url body) with
              | Some url => negb (URL_valid url)
              | None => false
              end
      then (mkResponse 400 "discord_webhook_url must be a valid URL", s)
      else
        let updateData := updateData_of body in
        if UpdateData.empty updateData
        then (mkResponse 400 "No valid fields to update", s)
        else
          match users_update update_ok id updateData s with
          | None => (mkResponse 500 "Failed to update settings", s)
          | Some s' => (mkResponse 200 "Settings updated successfully", s')
          end
  end.

End Settings.

(** What the validation of the settings keeps true of a row: the goal is
    at least 1, the time is a time of the 24-hour clock, and the endpoint
    is a URL. *)
Definition settings_ok (URL_valid : string -> bool) (u : User.t) : Prop :=
  1 ≤ User.push_goal u ∧
  (∀ t, User.annoy_time u = Some t → timeRegex_test t = true) ∧
  (∀ url, User.discord_webhook_url u = Some url → URL_valid url = true).

(** [null] or [''] : what the settings page sends to clear a field. *)
Definition cleared (f : Field) : Prop := f = Null ∨ f = Text "".

(** The delivery of a congratulation for [u] is rejected in the run
    [r]: the run rejects, and that post is the last thing it did. *)
Definition congratulation_rejected (r : SweepResult) (u : User.t) : Prop :=
  completion r = Rejected AxiosError ∧
  last (trace r) = Some (EvPost u congratulation).

(** The reading of "a delivery failure on the goal-met path never causes
    a second congratulatory send for that (user, date) on a later
    sweep": after a run in which the delivery of a congratulation for a
    user is rejected, no later run of that date attempts one for that
    user. *)
Definition no_second_congratulation (env : SweepEnv) (today now : string)
    (s : Store) : Prop :=
  let r := checkPushGoals env today now s in
  ∀ u, congratulation_rejected r u →
       ∀ env' now', EvPost u congratulation
                    ∉ trace (checkPushGoals env' today now' (store_after r)).

(** The user has not met the goal today: the counter of the day, if
    there is one, is below the goal and not done (no counter is a count
    of 0). *)
Definition below_goal (u : User.t) (today : string) (s : Store) : Prop :=
  ∀ c, c ∈ github_counter s → counter_key c = (User.id u, today) →
       Counter.push_counter c < User.push_goal u ∧ Counter.is_job_done c = false.

Section Rounds.

Variable hmacSha256Hex : string -> string -> string.
Variable JSON_parse : string -> option JsValue.
Variable pgrst_eq : JsValue -> Z -> bool.

(** The runs of [checkPushGoals] of one day with what happens in
    between: a round is the operations that come first (deliveries of
    webhooks, other sweeps) and then a run with its own collaborators
    and time of day.  For each round: the store the run starts from, the
    run, and what it does. *)
Fixpoint rounds (today : string)
    (rs : list (list Operation * (SweepEnv * string))) (s : Store)
  : list (Store * (SweepEnv * string) * SweepResult) :=
  match rs with
  | [] => []
  | (ops, run) :: rest =>
      let start := apply_ops hmacSha256Hex JSON_parse pgrst_eq ops s in
      let r := checkPushGoals run.1 today run.2 start in
      (start, run, r) :: rounds today rest (store_after r)
  end.

End Rounds.

(** Membership in a list that is written out. *)
Ltac in_list :=
  repeat first [apply list_elem_of_here | apply list_elem_of_further].

(** * Properties *)

(** ** The loop of the sweep *)

Section SweepLoop.

Context (env : SweepEnv) (cm : gmap Z Counter.t).

Lemma sweep_loop_cons idx user rest rows :
  sweep_loop env cm idx (user :: rest) rows =
  let counter := cm !! User.id user in
  if already_notified counter then sweep_loop env cm (S idx) rest rows
  else
    let rows1 := rows_after_body env idx counter user rows in
    if axios_post env idx (User.discord_webhook_url user) then
      let '(rows2, evs, c) := sweep_loop env cm (S idx) rest rows1 in
      (rows2, decision counter user ++ evs, c)
    else (rows1, decision counter user, Rejected AxiosError).
Proof.
  cbn [sweep_loop]. unfold decision, rows_after_body.
  destruct (already_notified (cm !! User.id user)); [reflexivity|].
  destruct (cm !! User.id user) as [c|];
    destruct (goalMet _ user); cbn [goalMet_and_counter];
    destruct (axios_post env idx _); try reflexivity;
    destruct (sweep_loop env cm (S idx) rest _) as [[? ?] ?]; reflexivity.
Qed.

Lemma decisions_cons user rest :
  decisions cm (user :: rest) = decision (cm !! User.id user) user ++ decisions cm rest.
Proof. reflexivity. Qed.

Lemma decision_skipped user :
  already_notified (cm !! User.id user) = true →
  decision (cm !! User.id user) user = [].
Proof. unfold decision. now intros ->. Qed.

(** When no post is rejected the loop runs through the whole batch. *)
Lemma sweep_loop_resolved batch : ∀ idx rows,
  (∀ j u, batch !! j = Some u → ¬ post_rejected env cm (idx + j) u) →
  (sweep_loop env cm idx batch rows).1.2 = decisions cm batch ∧
  (sweep_loop env cm idx batch rows).2 = Resolved.
Proof.
  induction batch as [|user rest IH]; intros idx rows Hok; [done|].
  rewrite sweep_loop_cons, decisions_cons. cbn zeta.
  assert (Hrest : ∀ j u, rest !! j = Some u →
                         ¬ post_rejected env cm (S idx + j) u).
  { intros j u Hj. replace (S idx + j)%nat with (idx + S j)%nat by lia.
    apply Hok. exact Hj. }
  destruct (already_notified (cm !! User.id user)) eqn:Hdone.
  - rewrite decision_skipped by exact Hdone. apply IH, Hrest.
  - destruct (axios_post env idx _) eqn:Hpost.
    + specialize (IH (S idx) (rows_after_body env idx (cm !! User.id user) user rows) Hrest).
      destruct (sweep_loop env cm (S idx) rest _) as [[rows2 evs] c].
      cbn in *. destruct IH as [-> ->]. done.
    + exfalso. apply (Hok 0%nat user); [done|].
      split; [exact Hdone|]. now rewrite Nat.add_0_r.
Qed.

(** The first rejected post ends the loop: the trace is made of the
    decisions for the users up to that one, and of nothing else. *)
Lemma sweep_loop_rejected batch : ∀ idx rows i u,
  batch !! i = Some u →
  post_rejected env cm (idx + i) u →
  (∀ j u', (j < i)%nat → batch !! j = Some u' →
           ¬ post_rejected env cm (idx + j) u') →
  (sweep_loop env cm idx batch rows).1.2 = decisions cm (take (S i) batch) ∧
  (sweep_loop env cm idx batch rows).2 = Rejected AxiosError.
Proof.
  induction batch as [|user rest IH]; intros idx rows i u Hi Hrej Hbefore; [done|].
  rewrite sweep_loop_cons. cbn zeta.
  destruct i as [|i].
  - cbn in Hi. injection Hi as ->. destruct Hrej as [Hdone Hpost].
    rewrite Nat.add_0_r in Hpost. rewrite Hdone, Hpost. cbn.
    now rewrite app_nil_r.
  - cbn in Hi. change (take (S (S i)) (user :: rest)) with (user :: take (S i) rest).
    rewrite decisions_cons.
    assert (Hrej' : post_rejected env cm (S idx + i) u).
    { now replace (S idx + i)%nat with (idx + S i)%nat by lia. }
    assert (Hbefore' : ∀ j u', (j < i)%nat → rest !! j = Some u' →
                               ¬ post_rejected env cm (S idx + j) u').
    { intros j u' Hj Hu'. replace (S idx + j)%nat with (idx + S j)%nat by lia.
      apply Hbefore; [lia | exact Hu']. }
    destruct (already_notified (cm !! User.id user)) eqn:Hdone.
    + rewrite decision_skipped by exact Hdone. now apply (IH _ _ i u).
    + destruct (axios_post env idx _) eqn:Hpost.
      * specialize (IH (S idx) (rows_after_body env idx (cm !! User.id user) user rows)
                       i u Hi Hrej' Hbefore').
        destruct (sweep_loop env cm (S idx) rest _) as [[rows2 evs] c].
        cbn in *. destruct IH as [-> ->]. done.
      * exfalso. apply (Hbefore 0%nat user); [lia | done |].
        split; [exact Hdone|]. now rewrite Nat.add_0_r.
Qed.

(** In every run the trace is the decisions for a prefix of the batch. *)
Lemma sweep_loop_prefix batch : ∀ idx rows,
  ∃ k, (sweep_loop env cm idx batch rows).1.2 = decisions cm (take k batch).
Proof.
  induction batch as [|user rest IH]; intros idx rows; [by exists 0%nat|].
  rewrite sweep_loop_cons. cbn zeta.
  destruct (already_notified (cm !! User.id user)) eqn:Hdone.
  - destruct (IH (S idx) rows) as [k Hk]. exists (S k).
    cbn [take]. rewrite decisions_cons, decision_skipped by exact Hdone. exact Hk.
  - destruct (axios_post env idx _).
    + destruct (IH (S idx) (rows_after_body env idx (cm !! User.id user) user rows))
        as [k Hk].
      destruct (sweep_loop env cm (S idx) rest _) as [[rows2 evs] c].
      exists (S k). cbn in *. now rewrite Hk.
    + exists 1%nat. cbn. now rewrite app_nil_r.
Qed.

End SweepLoop.

(** ** The sweep as a whole *)

Lemma checkPushGoals_users_query_failed env today now s :
  users_query_ok env = false →
  checkPushGoals env today now s = mkSweepResult s [] Resolved.
Proof. unfold checkPushGoals. now intros ->. Qed.

(** Past the first query, the sweep is the loop over the due users. *)
Lemma checkPushGoals_loop env today now s :
  users_query_ok env = true →
  let l := sweep_loop env (sweep_counterMap env today now s) 0
                      (select_due_users now s) (github_counter s) in
  trace (checkPushGoals env today now s) = l.1.2 ∧
  completion (checkPushGoals env today now s) = l.2 ∧
  users (store_after (checkPushGoals env today now s)) = users s ∧
  github_counter (store_after (checkPushGoals env today now s)) = l.1.1.
Proof.
  intros Hok. unfold checkPushGoals, sweep_counterMap. rewrite Hok. cbn [negb].
  destruct (select_due_users now s) as [|u batch] eqn:Hbatch; [done|].
  destruct (sweep_loop _ _ _ _ _) as [[rows evs] c]. done.
Qed.

(** C1, as the sweep behaves: the first rejected delivery ends the sweep.
    If the post for the user at index [i] of the batch is the first one
    to be rejected, the sweep has performed the decisions (flag updates
    and posts) for the users up to and including [i], in order, and
    nothing for the users after [i]; [checkPushGoals] rejects. *)
Theorem sweep_ends_at_first_rejection env today now s i u :
  let batch := select_due_users now s in
  let cm := sweep_counterMap env today now s in
  users_query_ok env = true →
  batch !! i = Some u →
  post_rejected env cm i u →
  (∀ j u', (j < i)%nat → batch !! j = Some u' → ¬ post_rejected env cm j u') →
  trace (checkPushGoals env today now s) = decisions cm (take (S i) batch) ∧
  completion (checkPushGoals env today now s) = Rejected AxiosError.
Proof.
  intros batch cm Hok Hi Hrej Hbefore.
  destruct (checkPushGoals_loop env today now s Hok) as (-> & -> & _).
  apply (sweep_loop_rejected env cm batch 0%nat (github_counter s) i u);
    assumption.
Qed.

Lemma sweep_ends_at_first_rejection_witness :
  trace (checkPushGoals (Sample.rejecting 1) Sample.day "09:30" Sample.morning)
  = [EvPost Sample.alice reminder; EvPost Sample.bob reminder] ∧
  completion (checkPushGoals (Sample.rejecting 1) Sample.day "09:30" Sample.morning)
  = Rejected AxiosError.
Proof.
  apply (sweep_ends_at_first_rejection (Sample.rejecting 1) Sample.day "09:30"
           Sample.morning 1%nat Sample.bob).
  - reflexivity.
  - reflexivity.
  - split; reflexivity.
  - intros j u' Hj Hu' [_ Hpost].
    destruct j as [|j]; [|lia].
    injection Hu' as <-. vm_compute in Hpost. discriminate.
Defined.

(** C1 as claimed fails: alice's delivery is rejected and bob, who is due
    and comes after her in the batch, is not sent his reminder. *)
Lemma sweep_does_not_continue_after_rejection :
  ¬ continues_after_rejection (Sample.rejecting 0) Sample.day "09:30" Sample.morning.
Proof.
  intros H.
  specialize (H 0%nat Sample.alice eq_refl (conj eq_refl eq_refl)
                1%nat Sample.bob ltac:(lia) eq_refl
                (EvPost Sample.bob reminder)).
  assert (Hin : EvPost Sample.bob reminder ∈ [EvPost Sample.alice reminder]).
  { apply H. vm_compute. left. }
  apply list_elem_of_singleton in Hin. discriminate.
Qed.


Lemma apiCron_unauthorised CRON_SECRET header query env today now s :
  truthy CRON_SECRET = true → js_or header query ≠ CRON_SECRET →
  apiCron CRON_SECRET header query env today now s
  = (mkResponse 401 "Unauthorized", mkSweepResult s [] Resolved).
Proof.
  intros Hset Hne. unfold apiCron.
  by rewrite Hset, bool_decide_eq_false_2.
Qed.

(** ** The counter map *)

Lemma counterMap_fold_lookup rows : ∀ (m : gmap Z Counter.t) k c,
  foldl (fun m c => <[Counter.user_id c := c]> m) m rows !! k = Some c →
  (c ∈ rows ∧ Counter.user_id c = k) ∨ m !! k = Some c.
Proof.
  induction rows as [|r rows IH]; intros m k c H; cbn in H; [by right|].
  apply IH in H as [[Hin Hk] | H].
  - left. split; [by apply list_elem_of_further | exact Hk].
  - destruct (decide (Counter.user_id r = k)) as [Heq | Hne].
    + rewrite Heq, lookup_insert_eq in H. injection H as <-.
      left. split; [apply list_elem_of_here | exact Heq].
    + rewrite lookup_insert_ne in H by exact Hne. by right.
Qed.

Lemma counterMap_fold_is_Some rows : ∀ (m : gmap Z Counter.t) k,
  (is_Some (m !! k) ∨ ∃ c, c ∈ rows ∧ Counter.user_id c = k) →
  is_Some (foldl (fun m c => <[Counter.user_id c := c]> m) m rows !! k).
Proof.
  induction rows as [|r rows IH]; intros m k H; cbn.
  - destruct H as [H | (c & Hin & _)]; [exact H|]. by apply not_elem_of_nil in Hin.
  - apply IH.
    destruct (decide (Counter.user_id r = k)) as [Heq | Hne].
    + left. rewrite Heq, lookup_insert_eq. by eexists.
    + destruct H as [H | (c & Hin & Hk)].
      * left. by rewrite lookup_insert_ne.
      * apply elem_of_cons in Hin as [-> | Hin]; [done|].
        right. by exists c.
Qed.

Lemma counterMap_lookup_Some rows k c :
  counterMap (Some rows) !! k = Some c → c ∈ rows ∧ Counter.user_id c = k.
Proof.
  intros H. apply counterMap_fold_lookup in H as [H | H]; [exact H|].
  by rewrite lookup_empty in H.
Qed.

Lemma counterMap_lookup_is_Some rows k c :
  c ∈ rows → Counter.user_id c = k → is_Some (counterMap (Some rows) !! k).
Proof. intros Hin Hk. apply counterMap_fold_is_Some. right. by exists c. Qed.

Lemma elem_of_select_due_users now s u :
  u ∈ select_due_users now s ↔ u ∈ users s ∧ due now u = true.
Proof.
  unfold select_due_users. rewrite !list_elem_of_In. apply filter_In.
Qed.

Lemma elem_of_select_counters today ids s c :
  c ∈ select_counters today ids s ↔
  c ∈ github_counter s ∧ Counter.date c = today ∧ Counter.user_id c ∈ ids.
Proof.
  unfold select_counters, counter_selected.
  rewrite !list_elem_of_In, filter_In, andb_true_iff, !bool_decide_eq_true.
  by rewrite !list_elem_of_In.
Qed.

(** A counter the sweep finds for a user is a row of the store, of that
    user and of today. *)
Lemma sweep_counter_in_store env today now s k c :
  sweep_counterMap env today now s !! k = Some c →
  c ∈ github_counter s ∧ counter_key c = (k, today).
Proof.
  unfold sweep_counterMap, fetch_counters.
  destruct (counters_query_ok env).
  - intros H. apply counterMap_lookup_Some in H as [Hin Hk].
    apply elem_of_select_counters in Hin as (Hin & Hdate & _).
    unfold counter_key. by rewrite Hk, Hdate.
  - cbn. by rewrite lookup_empty.
Qed.

(** When the counters query answers, the sweep finds the counter of every
    due user who has one today. *)
Lemma sweep_counter_found env today now s u c :
  counters_query_ok env = true →
  u ∈ select_due_users now s →
  c ∈ github_counter s →
  counter_key c = (User.id u, today) →
  is_Some (sweep_counterMap env today now s !! User.id u).
Proof.
  intros Hok Hu Hc Hkey. unfold sweep_counterMap, fetch_counters. rewrite Hok.
  injection Hkey as Hid Hdate.
  apply (counterMap_lookup_is_Some _ _ c); [|exact Hid].
  apply elem_of_select_counters. split; [exact Hc|]. split; [exact Hdate|].
  rewrite Hid. apply list_elem_of_fmap. by exists u.
Qed.

Lemma sweep_counter_none env today now s k :
  no_counter k today s → sweep_counterMap env today now s !! k = None.
Proof.
  intros Hno. destruct (sweep_counterMap env today now s !! k) as [c|] eqn:H; [|done].
  apply sweep_counter_in_store in H as [Hin Hkey]. by destruct (Hno c Hin).
Qed.

(** With [UNIQUE (user_id, date)] a key names one row. *)
Lemma counter_key_inj rows c c' :
  NoDup (map counter_key rows) → c ∈ rows → c' ∈ rows →
  counter_key c = counter_key c' → c = c'.
Proof.
  intros Hnd Hc Hc' Hkey.
  apply list_elem_of_lookup in Hc as [i Hi], Hc' as [j Hj].
  assert (i = j) as ->.
  { apply (NoDup_lookup _ i j (counter_key c) Hnd).
    - by rewrite list_lookup_fmap, Hi.
    - by rewrite list_lookup_fmap, Hj, Hkey. }
  congruence.
Qed.

(** ** Where the events of a sweep come from *)

Lemma elem_of_decisions cm batch e :
  e ∈ decisions cm batch ↔ ∃ u, u ∈ batch ∧ e ∈ decision (cm !! User.id u) u.
Proof.
  unfold decisions. rewrite list_elem_of_In, in_flat_map.
  split; intros (u & Hu & He); exists u; by rewrite ?list_elem_of_In in *.
Qed.

Lemma trace_event_origin env today now s e :
  e ∈ trace (checkPushGoals env today now s) →
  ∃ u, u ∈ select_due_users now s ∧
       e ∈ decision (sweep_counterMap env today now s !! User.id u) u.
Proof.
  destruct (users_query_ok env) eqn:Hok.
  - destruct (checkPushGoals_loop env today now s Hok) as (-> & _).
    destruct (sweep_loop_prefix env (sweep_counterMap env today now s)
                (select_due_users now s) 0%nat (github_counter s)) as [k ->].
    intros He. apply elem_of_decisions in He as (u & Hu & He).
    exists u. split; [|exact He].
    apply elem_of_take in Hu as (i & Hu & _).
    by apply list_elem_of_lookup_2 in Hu.
  - rewrite checkPushGoals_users_query_failed by exact Hok.
    intros He. by apply not_elem_of_nil in He.
Qed.

(** The posts of a decision are for the user the decision is about. *)
Lemma decision_post counter user u content :
  EvPost u content ∈ decision counter user → u = user.
Proof.
  unfold decision.
  destruct (already_notified counter); [by intros ?%not_elem_of_nil|].
  destruct counter as [c|]; [destruct (goalMet _ user)|]; intros H;
    repeat (apply elem_of_cons in H as [H | H]; [congruence|]);
    by apply elem_of_nil in H.
Qed.

Lemma due_annoy_time now u : due now u = true → is_Some (User.annoy_time u).
Proof.
  unfold due. destruct (User.discord_webhook_url u); [|done].
  destruct (User.annoy_time u); [by eexists|done].
Qed.

(** ** What the sweep does to the counters *)

Lemma latched_refl c : latched c c.
Proof. unfold latched. auto. Qed.

Lemma latched_trans c1 c2 c3 : latched c1 c2 → latched c2 c3 → latched c1 c3.
Proof.
  unfold latched. intros (Hid & Hkey & Hflag) (Hid' & Hkey' & Hflag').
  split; [congruence|]. split; [congruence|].
  destruct (Counter.is_job_done c1), (Counter.is_job_done c2),
    (Counter.is_job_done c3); intuition congruence.
Qed.

Lemma latched_set_job_done c : latched c (set_job_done c).
Proof.
  unfold latched. cbn. split; [done|]. split; [done|].
  destruct (Counter.is_job_done c); auto.
Qed.

Lemma latched_flag c c' :
  latched c c' → Counter.is_job_done c = true → Counter.is_job_done c' = true.
Proof. intros (_ & _ & [-> | [? ?]]); congruence. Qed.

Lemma Forall2_latched_refl rows : Forall2 latched rows rows.
Proof. induction rows; constructor; auto using latched_refl. Qed.

Lemma Forall2_latched_trans rows1 rows2 rows3 :
  Forall2 latched rows1 rows2 → Forall2 latched rows2 rows3 →
  Forall2 latched rows1 rows3.
Proof.
  intros H. revert rows3.
  induction H; intros rows3 H'; inversion H'; subst; constructor;
    eauto using latched_trans.
Qed.

Lemma Forall2_latched_keys rows rows' :
  Forall2 latched rows rows' → map counter_key rows' = map counter_key rows.
Proof.
  induction 1 as [|c c' rows rows' (_ & Hkey & _) _ IH]; [done|].
  cbn. by rewrite Hkey, IH.
Qed.

Lemma update_is_job_done_latched cid rows :
  Forall2 latched rows (update_is_job_done cid rows).
Proof.
  induction rows as [|c rows IH]; cbn; constructor; [|exact IH].
  destruct (decide _); auto using latched_refl, latched_set_job_done.
Qed.

Lemma rows_after_body_latched env idx counter user rows :
  Forall2 latched rows (rows_after_body env idx counter user rows).
Proof.
  unfold rows_after_body, supabase_update.
  destruct (goalMet_and_counter _ counter); [destruct (update_ok env idx)|];
    auto using Forall2_latched_refl, update_is_job_done_latched.
Qed.

Lemma sweep_loop_latched env cm batch : ∀ idx rows,
  Forall2 latched rows (sweep_loop env cm idx batch rows).1.1.
Proof.
  induction batch as [|user rest IH]; intros idx rows.
  - apply Forall2_latched_refl.
  - rewrite sweep_loop_cons. cbn zeta.
    destruct (already_notified _); [apply IH|].
    pose proof (rows_after_body_latched env idx (cm !! User.id user) user rows) as H1.
    destruct (axios_post env idx _); [|exact H1].
    specialize (IH (S idx) (rows_after_body env idx (cm !! User.id user) user rows)).
    destruct (sweep_loop env cm (S idx) rest _) as [[rows2 evs] c].
    cbn in *. eauto using Forall2_latched_trans.
Qed.

(** The sweep leaves [users] alone, adds and removes no counter row, and
    can only raise flags. *)
Lemma checkPushGoals_store env today now s :
  users (store_after (checkPushGoals env today now s)) = users s ∧
  Forall2 latched (github_counter s)
          (github_counter (store_after (checkPushGoals env today now s))).
Proof.
  destruct (users_query_ok env) eqn:Hok.
  - destruct (checkPushGoals_loop env today now s Hok) as (_ & _ & -> & ->).
    split; [done | apply sweep_loop_latched].
  - rewrite checkPushGoals_users_query_failed by exact Hok.
    split; [done | apply Forall2_latched_refl].
Qed.

Lemma update_is_job_done_flagged cid rows :
  flagged_id cid (update_is_job_done cid rows).
Proof.
  intros r Hr Hid. unfold update_is_job_done in Hr.
  apply list_elem_of_fmap in Hr as (c & -> & _).
  destruct (decide (Counter.id c = cid)); [done|]. contradiction.
Qed.

Lemma flagged_id_latched cid rows rows' :
  Forall2 latched rows rows' → flagged_id cid rows → flagged_id cid rows'.
Proof.
  intros H Hflag r' Hr' Hid.
  apply list_elem_of_lookup in Hr' as [i Hi].
  destruct (Forall2_lookup_r _ _ _ _ _ H Hi) as (r & Hr & Hl).
  apply (latched_flag r r' Hl). apply Hflag.
  - by apply list_elem_of_lookup_2 in Hr.
  - destruct Hl as (<- & _). exact Hid.
Qed.

Lemma latch_kept_refl rows : latch_kept rows rows.
Proof. intros i c Hi. exists c. auto using latched_refl. Qed.

Lemma latch_kept_trans rows1 rows2 rows3 :
  latch_kept rows1 rows2 → latch_kept rows2 rows3 → latch_kept rows1 rows3.
Proof.
  intros H12 H23 i c Hi.
  destruct (H12 i c Hi) as (c2 & Hi2 & Hl2).
  destruct (H23 i c2 Hi2) as (c3 & Hi3 & Hl3).
  exists c3. eauto using latched_trans.
Qed.

Lemma latch_kept_Forall2 rows rows' :
  Forall2 latched rows rows' → latch_kept rows rows'.
Proof. intros H i c Hi. by apply (Forall2_lookup_l _ _ _ _ _ H Hi). Qed.

Lemma latch_kept_app rows new : latch_kept rows (rows ++ new).
Proof.
  intros i c Hi. exists c. split; [|apply latched_refl].
  by apply lookup_app_l_Some.
Qed.

Lemma job_done_latch_kept uid today s s' :
  latch_kept (github_counter s) (github_counter s') →
  job_done uid today s → job_done uid today s'.
Proof.
  intros H (c & Hc & Hkey & Hflag).
  apply list_elem_of_lookup in Hc as [i Hi].
  destruct (H i c Hi) as (c' & Hc' & Hl).
  exists c'. split; [by apply list_elem_of_lookup_2 in Hc'|].
  destruct Hl as (Hid & Hkey' & Hf). split; [congruence|].
  destruct Hf as [-> | [_ ?]]; done.
Qed.

(** ** The order of the flag update and the congratulation *)

Lemma congratulation_not_reminder : congratulation ≠ reminder.
Proof. discriminate. Qed.

(** With a positive goal, a user without counter has not met it. *)
Lemma goalMet_no_counter user :
  1 ≤ User.push_goal user → goalMet None user = false.
Proof. unfold goalMet, pushCount. intros H. apply Z.leb_gt. lia. Qed.

(** The three shapes of a decision for a user with a positive goal. *)
Lemma decision_cases counter user :
  1 ≤ User.push_goal user →
  (already_notified counter = true ∧ decision counter user = []) ∨
  (∃ c, counter = Some c ∧ already_notified counter = false ∧
        goalMet counter user = true ∧
        decision counter user
        = [EvSetJobDone (Counter.id c); EvPost user congratulation]) ∨
  (already_notified counter = false ∧ goalMet counter user = false ∧
   decision counter user = [EvPost user reminder]).
Proof.
  intros Hgoal. unfold decision.
  destruct (already_notified counter) eqn:Hdone; [by left|]. right.
  destruct counter as [c|].
  - destruct (goalMet (Some c) user) eqn:Hmet; [left; by exists c | by right].
  - right. by rewrite goalMet_no_counter.
Qed.

Lemma flag_first_nil cm : flag_first cm [].
Proof. intros [|? ?] u after H; discriminate. Qed.

Lemma flag_first_reminder cm user tr :
  flag_first cm tr → flag_first cm (EvPost user reminder :: tr).
Proof.
  intros IH [|b before] u after H; cbn in H.
  - assert (Hmsg : reminder = congratulation) by congruence.
    by destruct congratulation_not_reminder.
  - assert (Htr : tr = before ++ EvPost u congratulation :: after) by congruence.
    destruct (IH _ _ _ Htr) as (c & before' & Hc & ->).
    exists c, (b :: before'). done.
Qed.

Lemma flag_first_congratulation cm user c tr :
  cm !! User.id user = Some c →
  flag_first cm tr →
  flag_first cm (EvSetJobDone (Counter.id c) :: EvPost user congratulation :: tr).
Proof.
  intros Hc IH [|b0 [|b1 before]] u after H; cbn in H.
  - discriminate.
  - assert (user = u) as <- by congruence.
    assert (b0 = EvSetJobDone (Counter.id c)) as -> by congruence.
    exists c, []. done.
  - assert (Htr : tr = before ++ EvPost u congratulation :: after) by congruence.
    destruct (IH _ _ _ Htr) as (c' & before' & Hc' & ->).
    exists c', (b0 :: b1 :: before'). done.
Qed.

Lemma decisions_flag_first cm batch :
  (∀ u, u ∈ batch → 1 ≤ User.push_goal u) → flag_first cm (decisions cm batch).
Proof.
  induction batch as [|user rest IH]; intros Hgoal; [apply flag_first_nil|].
  rewrite decisions_cons.
  assert (IH' : flag_first cm (decisions cm rest)).
  { apply IH. intros u Hu. apply Hgoal. by apply list_elem_of_further. }
  destruct (decision_cases (cm !! User.id user) user) as
    [[_ ->] | [(c & Hc & _ & _ & ->) | (_ & _ & ->)]].
  - apply Hgoal, list_elem_of_here.
  - exact IH'.
  - by apply flag_first_congratulation.
  - by apply flag_first_reminder.
Qed.

Lemma select_due_users_goal now s :
  (∀ u, u ∈ users s → 1 ≤ User.push_goal u) →
  ∀ u, u ∈ select_due_users now s → 1 ≤ User.push_goal u.
Proof. intros H u [Hu _]%elem_of_select_due_users. by apply H. Qed.

Lemma trace_flag_first env today now s :
  (∀ u, u ∈ users s → 1 ≤ User.push_goal u) →
  flag_first (sweep_counterMap env today now s)
             (trace (checkPushGoals env today now s)).
Proof.
  intros Hgoal. destruct (users_query_ok env) eqn:Hok.
  - destruct (checkPushGoals_loop env today now s Hok) as (-> & _).
    destruct (sweep_loop_prefix env (sweep_counterMap env today now s)
                (select_due_users now s) 0%nat (github_counter s)) as [k ->].
    apply decisions_flag_first. intros u (i & Hu & _)%elem_of_take.
    apply list_elem_of_lookup_2 in Hu.
    by apply (select_due_users_goal now s).
  - rewrite checkPushGoals_users_query_failed by exact Hok.
    apply flag_first_nil.
Qed.

(** Why the CHECK matters: with a goal of 0 the goal is met without a
    counter row, and the congratulation is posted with no flag to set,
    sweep after sweep. *)
Example goal_zero_congratulated_without_row :
  map trace (sweeps Sample.day [(Sample.calm, "08:05"); (Sample.calm, "08:10")]
                    Sample.unchecked)
  = [[EvPost Sample.erin congratulation]; [EvPost Sample.erin congratulation]].
Proof. reflexivity. Qed.

(** ** The flag once the congratulation has been attempted *)

Lemma body_sets_flag env idx counter user rows :
  1 ≤ User.push_goal user →
  EvPost user congratulation ∈ decision counter user →
  update_ok env idx = true →
  ∃ c, counter = Some c ∧
       flagged_id (Counter.id c) (rows_after_body env idx counter user rows).
Proof.
  intros Hgoal He Hok.
  destruct (decision_cases counter user Hgoal) as
    [[_ Hd] | [(c & -> & _ & Hmet & _) | (_ & _ & Hd)]].
  - rewrite Hd in He. by apply not_elem_of_nil in He.
  - exists c. split; [done|].
    unfold rows_after_body, supabase_update. rewrite Hmet, Hok. cbn.
    apply update_is_job_done_flagged.
  - rewrite Hd in He. apply list_elem_of_singleton in He.
    assert (congratulation = reminder) by congruence.
    by destruct congratulation_not_reminder.
Qed.

Lemma sweep_loop_sets_flag env cm batch : ∀ idx rows u,
  1 ≤ User.push_goal u →
  EvPost u congratulation ∈ (sweep_loop env cm idx batch rows).1.2 →
  (∀ j, batch !! j = Some u → update_ok env (idx + j) = true) →
  ∃ c, cm !! User.id u = Some c ∧
       flagged_id (Counter.id c) (sweep_loop env cm idx batch rows).1.1.
Proof.
  induction batch as [|user rest IH]; intros idx rows u Hgoal He Hok.
  { by apply not_elem_of_nil in He. }
  assert (Hok' : ∀ j, rest !! j = Some u → update_ok env (S idx + j) = true).
  { intros j Hj. replace (S idx + j)%nat with (idx + S j)%nat by lia.
    by apply Hok. }
  rewrite sweep_loop_cons in He |- *. cbn zeta in He |- *.
  destruct (already_notified (cm !! User.id user)) eqn:Hdone; [by apply IH|].
  pose proof (sweep_loop_latched env cm rest (S idx)
    (rows_after_body env idx (cm !! User.id user) user rows)) as Hlatch.
  assert (Hhere : EvPost u congratulation ∈ decision (cm !! User.id user) user →
    ∃ c, cm !! User.id u = Some c ∧
         flagged_id (Counter.id c)
           (rows_after_body env idx (cm !! User.id user) user rows)).
  { intros Hd. pose proof (decision_post _ _ _ _ Hd) as ->.
    apply body_sets_flag; [done | done |].
    rewrite <- (Nat.add_0_r idx). by apply Hok. }
  destruct (axios_post env idx _).
  - specialize (IH (S idx) (rows_after_body env idx (cm !! User.id user) user rows) u).
    destruct (sweep_loop env cm (S idx) rest _) as [[rows2 evs] c].
    cbn in *. apply elem_of_app in He as [He | He].
    + destruct (Hhere He) as (c' & Hc' & Hflag).
      exists c'. split; [done|]. by apply (flagged_id_latched _ _ _ Hlatch).
    + by apply IH.
  - cbn in *. by apply Hhere.
Qed.

(** Once a sweep has attempted the congratulation of a user and the store
    has accepted the update made for that user, the counter of the day
    has its flag set, whatever became of the delivery. *)
Lemma sweep_sets_flag env today now s u :
  (∀ u, u ∈ users s → 1 ≤ User.push_goal u) →
  EvPost u congratulation ∈ trace (checkPushGoals env today now s) →
  (∀ i, select_due_users now s !! i = Some u → update_ok env i = true) →
  job_done (User.id u) today (store_after (checkPushGoals env today now s)).
Proof.
  intros Hgoal He Hok.
  destruct (trace_event_origin _ _ _ _ _ He) as (u' & Hu' & Hd).
  apply decision_post in Hd as ->.
  destruct (users_query_ok env) eqn:Hq;
    [|rewrite checkPushGoals_users_query_failed in He by exact Hq;
      by apply not_elem_of_nil in He].
  destruct (checkPushGoals_loop env today now s Hq) as (Htr & _ & _ & Hrows).
  rewrite Htr in He. unfold job_done. rewrite Hrows.
  destruct (sweep_loop_sets_flag env (sweep_counterMap env today now s)
              (select_due_users now s) 0%nat (github_counter s) u')
    as (c & Hc & Hflag); [by apply (select_due_users_goal now s) | done | done |].
  apply sweep_counter_in_store in Hc as [Hin Hkey].
  apply list_elem_of_lookup in Hin as [i Hi].
  destruct (Forall2_lookup_l _ _ _ _ _
              (sweep_loop_latched env (sweep_counterMap env today now s)
                 (select_due_users now s) 0%nat (github_counter s)) Hi)
    as (c' & Hc' & Hid & Hkey' & _).
  apply list_elem_of_lookup_2 in Hc'.
  exists c'. split; [exact Hc'|]. split; [congruence|]. by apply Hflag.
Qed.

(** ** A sweep over a counter that is done *)

(** When the counters query answers, a due user whose counter of the day
    is done is skipped. *)
Lemma done_user_skipped env today now s u :
  NoDup (map counter_key (github_counter s)) →
  counters_query_ok env = true →
  u ∈ select_due_users now s →
  job_done (User.id u) today s →
  already_notified (sweep_counterMap env today now s !! User.id u) = true.
Proof.
  intros Hnd Hok Hu (c & Hc & Hkey & Hflag).
  destruct (sweep_counter_found env today now s u c Hok Hu Hc Hkey) as [c' Hc'].
  rewrite Hc'. cbn.
  apply sweep_counter_in_store in Hc' as [Hin' Hkey'].
  assert (c' = c) as -> by (apply (counter_key_inj (github_counter s)); congruence).
  exact Hflag.
Qed.

Lemma no_message_when_done env today now s uid :
  NoDup (map counter_key (github_counter s)) →
  counters_query_ok env = true →
  job_done uid today s →
  ∀ u content, User.id u = uid →
    EvPost u content ∉ trace (checkPushGoals env today now s).
Proof.
  intros Hnd Hok Hdone u content <- (u' & Hu' & Hd)%trace_event_origin.
  pose proof (decision_post _ _ _ _ Hd) as ->.
  rewrite decision_skipped in Hd by (by apply done_user_skipped).
  by apply not_elem_of_nil in Hd.
Qed.

(** A counter that is done is never congratulated again, even by a sweep
    whose counters query fails: such a sweep takes the user for one
    without pushes. *)
Lemma no_congratulation_when_done env today now s uid :
  schema_ok s →
  job_done uid today s →
  ∀ u, User.id u = uid →
    EvPost u congratulation ∉ trace (checkPushGoals env today now s).
Proof.
  intros [Hgoal Hnd] Hdone u Hid.
  destruct (counters_query_ok env) eqn:Hok;
    [by apply (no_message_when_done env today now s uid)|].
  intros (u' & Hu' & Hd)%trace_event_origin.
  pose proof (decision_post _ _ _ _ Hd) as ->.
  unfold sweep_counterMap, fetch_counters in Hd. rewrite Hok in Hd.
  cbn in Hd. rewrite lookup_empty in Hd.
  unfold decision in Hd. cbn in Hd.
  rewrite goalMet_no_counter in Hd by (by apply (select_due_users_goal now s)).
  apply list_elem_of_singleton in Hd.
  assert (congratulation = reminder) by congruence.
  by destruct congratulation_not_reminder.
Qed.

(** ** The earlier cron callback *)

Lemma legacy_congratulation_not_reminder : Legacy.congratulation ≠ reminder.
Proof. discriminate. Qed.

Lemma legacy_loop_origin env now items : ∀ idx rows e,
  e ∈ (Legacy.cron_loop env now idx items rows).1.2 →
  ∃ item user,
    (item, Some user) ∈ items ∧
    ((User.push_goal user ≤ Counter.push_counter item ∧
      e ∈ [EvSetJobDone (Counter.id item); EvPost user Legacy.congratulation]) ∨
     (Legacy.time_passed now (User.annoy_time user) = true ∧
      e = EvPost user reminder)).
Proof.
  induction items as [|[item [user|]] rest IH]; intros idx rows e He; cbn in He.
  - by apply elem_of_nil in He.
  - assert (Hrest : ∀ idx rows,
      e ∈ (Legacy.cron_loop env now idx rest rows).1.2 →
      ∃ item' user', (item', Some user') ∈ (item, Some user) :: rest ∧
        ((User.push_goal user' ≤ Counter.push_counter item' ∧
          e ∈ [EvSetJobDone (Counter.id item');
               EvPost user' Legacy.congratulation]) ∨
         (Legacy.time_passed now (User.annoy_time user') = true ∧
          e = EvPost user' reminder))).
    { intros idx' rows' He'. destruct (IH idx' rows' e He') as (i & u & Hin & H).
      exists i, u. split; [by apply list_elem_of_further | exact H]. }
    destruct (User.push_goal user <=? Counter.push_counter item) eqn:Hmet.
    + apply Z.leb_le in Hmet.
      assert (Hhere : e ∈ [EvSetJobDone (Counter.id item);
                           EvPost user Legacy.congratulation] →
        ∃ item' user', (item', Some user') ∈ (item, Some user) :: rest ∧
          ((User.push_goal user' ≤ Counter.push_counter item' ∧
            e ∈ [EvSetJobDone (Counter.id item');
                 EvPost user' Legacy.congratulation]) ∨
           (Legacy.time_passed now (User.annoy_time user') = true ∧
            e = EvPost user' reminder))).
      { intros H. exists item, user. split; [apply list_elem_of_here | by left]. }
      destruct (Legacy.axios_post env idx _); [|by apply Hhere].
      destruct (Legacy.cron_loop env now (S idx) rest _) as [[rows2 evs] c] eqn:Hloop.
      cbn in He. rewrite !elem_of_cons in He.
      destruct He as [He | [He | He]].
      * apply Hhere. rewrite He. apply list_elem_of_here.
      * apply Hhere. rewrite He. apply list_elem_of_further, list_elem_of_here.
      * apply (Hrest (S idx) (if Legacy.update_ok env idx
                              then update_is_job_done (Counter.id item) rows
                              else rows)).
        by rewrite Hloop.
    + destruct (Legacy.time_passed now (User.annoy_time user)) eqn:Hpassed;
        [|by apply (Hrest (S idx) rows)].
      assert (Hhere : e ∈ [EvPost user reminder] →
        ∃ item' user', (item', Some user') ∈ (item, Some user) :: rest ∧
          ((User.push_goal user' ≤ Counter.push_counter item' ∧
            e ∈ [EvSetJobDone (Counter.id item');
                 EvPost user' Legacy.congratulation]) ∨
           (Legacy.time_passed now (User.annoy_time user') = true ∧
            e = EvPost user' reminder))).
      { intros H%list_elem_of_singleton. exists item, user.
        split; [apply list_elem_of_here | by right]. }
      destruct (Legacy.axios_post env idx _); [|by apply Hhere].
      destruct (Legacy.cron_loop env now (S idx) rest rows) as [[rows2 evs] c] eqn:Hloop.
      cbn in He. rewrite elem_of_cons in He.
      destruct He as [He | He].
      * apply Hhere. rewrite He. apply list_elem_of_here.
      * apply (Hrest (S idx) rows). by rewrite Hloop.
  - by apply elem_of_nil in He.
Qed.

(** Every post of the earlier callback is for the user of a counter row
    of the day that is not done. *)
Lemma legacy_post_origin env today now s u content :
  EvPost u content ∈ trace (Legacy.cron_callback env today now s) →
  ∃ item, item ∈ github_counter s ∧
          counter_key item = (User.id u, today) ∧
          Counter.is_job_done item = false ∧
          ((User.push_goal u ≤ Counter.push_counter item ∧
            content = Legacy.congratulation) ∨
           (Legacy.time_passed now (User.annoy_time u) = true ∧
            content = reminder)).
Proof.
  unfold Legacy.cron_callback.
  destruct (Legacy.query_ok env); cbn [negb];
    [|by intros ?%not_elem_of_nil].
  destruct (Legacy.userCronCheck today s) as [|i0 items0] eqn:Hitems;
    [by intros ?%not_elem_of_nil|].
  rewrite <- Hitems. clear Hitems.
  destruct (Legacy.cron_loop env now 0 _ _) as [[rows evs] c] eqn:Hloop. cbn.
  intros He.
  destruct (legacy_loop_origin env now (Legacy.userCronCheck today s) 0%nat
              (github_counter s) (EvPost u content))
    as (item & user & Hin & Hcase); [by rewrite Hloop|].
  unfold Legacy.userCronCheck in Hin.
  apply list_elem_of_fmap in Hin as (item' & Hpair & Hsel).
  unfold Legacy.embed_users in Hpair. injection Hpair as <- Hfind.
  symmetry in Hfind. apply find_some in Hfind as [_ Hid].
  apply bool_decide_eq_true in Hid.
  apply list_elem_of_In, filter_In in Hsel as [Hsel Hok].
  unfold Legacy.item_selected in Hok.
  apply andb_true_iff in Hok as [Hdate%bool_decide_eq_true Hdone%negb_true_iff].
  assert (Hu : user = u ∧
    ((User.push_goal u ≤ Counter.push_counter item ∧
      content = Legacy.congratulation) ∨
     (Legacy.time_passed now (User.annoy_time u) = true ∧ content = reminder))).
  { destruct Hcase as [[Hmet Hev] | [Hpassed Hev]].
    - rewrite !elem_of_cons, elem_of_nil in Hev.
      destruct Hev as [Hev | [Hev | []]]; [discriminate|].
      injection Hev as -> ->. split; [done | by left].
    - injection Hev as -> ->. split; [done | by right]. }
  destruct Hu as [-> Hcontent].
  exists item. split; [by apply list_elem_of_In|].
  split; [unfold counter_key; by rewrite Hid, Hdate|].
  split; [exact Hdone | exact Hcontent].
Qed.

(** The earlier callback never looks at a user without a counter row. *)
Lemma legacy_no_counter_no_message env today now s u content :
  no_counter (User.id u) today s →
  EvPost u content ∉ trace (Legacy.cron_callback env today now s).
Proof.
  intros Hno (item & Hin & Hkey & _)%legacy_post_origin.
  by apply (Hno item).
Qed.

(** Nor at a counter that is done: its query filters them out, and it
    returns when the query fails. *)
Lemma legacy_no_message_when_done env today now s u content :
  NoDup (map counter_key (github_counter s)) →
  job_done (User.id u) today s →
  EvPost u content ∉ trace (Legacy.cron_callback env today now s).
Proof.
  intros Hnd (c & Hc & Hkey & Hflag) (item & Hin & Hkey' & Hdone & _)%legacy_post_origin.
  assert (item = c) as -> by (apply (counter_key_inj (github_counter s)); congruence).
  congruence.
Qed.

Lemma legacy_null_annoy_time_no_reminder env today now s u :
  User.annoy_time u = None →
  EvPost u reminder ∉ trace (Legacy.cron_callback env today now s).
Proof.
  intros Hnull (item & _ & _ & _ & [[_ Hmsg] | [Hpassed _]])%legacy_post_origin.
  - by destruct legacy_congratulation_not_reminder.
  - rewrite Hnull in Hpassed. discriminate.
Qed.

Lemma legacy_loop_latched env now items : ∀ idx rows,
  Forall2 latched rows (Legacy.cron_loop env now idx items rows).1.1.
Proof.
  induction items as [|[item [user|]] rest IH]; intros idx rows; cbn;
    [apply Forall2_latched_refl | | apply Forall2_latched_refl].
  destruct (User.push_goal user <=? Counter.push_counter item).
  - assert (H1 : Forall2 latched rows
                   (if Legacy.update_ok env idx
                    then update_is_job_done (Counter.id item) rows else rows)).
    { destruct (Legacy.update_ok env idx);
        auto using Forall2_latched_refl, update_is_job_done_latched. }
    destruct (Legacy.axios_post env idx _); [|exact H1].
    specialize (IH (S idx) (if Legacy.update_ok env idx
                            then update_is_job_done (Counter.id item) rows
                            else rows)).
    destruct (Legacy.cron_loop env now (S idx) rest _) as [[rows2 evs] c].
    cbn in *. eauto using Forall2_latched_trans.
  - destruct (Legacy.time_passed now (User.annoy_time user)); [|apply IH].
    destruct (Legacy.axios_post env idx _); [|apply Forall2_latched_refl].
    specialize (IH (S idx) rows).
    destruct (Legacy.cron_loop env now (S idx) rest rows) as [[rows2 evs] c].
    exact IH.
Qed.

(** Like [checkPushGoals], the earlier callback leaves [users] alone and
    can only raise flags. *)
Lemma legacy_store env today now s :
  users (store_after (Legacy.cron_callback env today now s)) = users s ∧
  Forall2 latched (github_counter s)
          (github_counter (store_after (Legacy.cron_callback env today now s))).
Proof.
  unfold Legacy.cron_callback.
  destruct (Legacy.query_ok env); cbn [negb];
    [|split; [done | apply Forall2_latched_refl]].
  destruct (Legacy.userCronCheck today s) as [|i0 items0] eqn:Hitems;
    [split; [done | apply Forall2_latched_refl]|].
  pose proof (legacy_loop_latched env now (i0 :: items0) 0%nat (github_counter s))
    as Hl.
  destruct (Legacy.cron_loop env now 0 _ _) as [[rows evs] c]. by split.
Qed.

(** ** The upsert of the webhook *)

Lemma counter_of_key uid today c :
  counter_of uid today c = true ↔ counter_key c = (uid, today).
Proof.
  unfold counter_of, counter_key.
  rewrite andb_true_iff, !bool_decide_eq_true.
  split; [intros [<- <-]; reflexivity | intros [= <- <-]; done].
Qed.

Lemma latched_bump c : latched c (bump c).
Proof. unfold latched. cbn. auto. Qed.

(** The upsert either bumps rows in place or appends the first row of
    the day after the rows there are. *)
Lemma increment_push_counter_cases uid today rows :
  (existsb (counter_of uid today) rows = true ∧
   Forall2 latched rows (increment_push_counter uid today rows)) ∨
  (existsb (counter_of uid today) rows = false ∧
   (∀ c, c ∈ rows → counter_key c ≠ (uid, today)) ∧
   increment_push_counter uid today rows
   = rows ++ [Counter.mk (fresh_counter_id rows) uid today 1 false]).
Proof.
  unfold increment_push_counter.
  destruct (existsb (counter_of uid today) rows) eqn:Hex.
  - left. split; [done|]. clear Hex.
    induction rows as [|c rows IH]; cbn; constructor; [|exact IH].
    destruct (counter_of uid today c); auto using latched_refl, latched_bump.
  - right. split; [done|]. split; [|done].
    intros c Hc Hkey. apply counter_of_key in Hkey.
    assert (existsb (counter_of uid today) rows = true); [|congruence].
    apply existsb_exists. exists c. by rewrite <- list_elem_of_In.
Qed.

Lemma increment_push_counter_latch_kept uid today rows :
  latch_kept rows (increment_push_counter uid today rows).
Proof.
  destruct (increment_push_counter_cases uid today rows)
    as [[_ H] | (_ & _ & ->)];
    auto using latch_kept_Forall2, latch_kept_app.
Qed.

Lemma increment_push_counter_unique uid today rows :
  NoDup (map counter_key rows) →
  NoDup (map counter_key (increment_push_counter uid today rows)).
Proof.
  intros Hnd.
  destruct (increment_push_counter_cases uid today rows)
    as [[_ H] | (_ & Hfresh & ->)].
  - by rewrite (Forall2_latched_keys _ _ H).
  - rewrite map_app. cbn. apply NoDup_app. split; [exact Hnd|].
    split; [|apply NoDup_singleton].
    intros k Hk ->%list_elem_of_singleton.
    apply list_elem_of_fmap in Hk as (c & Hkey & Hc).
    by apply (Hfresh c Hc).
Qed.

Section WebhookTheory.

Variable hmacSha256Hex : string -> string -> string.
Variable JSON_parse : string -> option JsValue.
Variable pgrst_eq : JsValue -> Z -> bool.

#[local] Abbreviation lookup' :=
  (gitwebhook_lookup hmacSha256Hex JSON_parse pgrst_eq).
#[local] Abbreviation handle := (gitwebhook hmacSha256Hex JSON_parse pgrst_eq).
#[local] Abbreviation apply_op' := (apply_op hmacSha256Hex JSON_parse pgrst_eq).
#[local] Abbreviation apply_ops' := (apply_ops hmacSha256Hex JSON_parse pgrst_eq).

(** The handler writes to the store in one place, the [rpc], and only
    when it answers 200. *)
Lemma gitwebhook_store env today request s :
  (handle env today request s).2 = s ∨
  ∃ pushData,
    lookup' env request s = inr pushData ∧
    handle env today request s
    = (Responded (mkResponse 200 "Webhook recieved successfully"),
       mkStore (users s)
               (increment_push_counter (User.id pushData) today (github_counter s))).
Proof.
  unfold gitwebhook.
  destruct (lookup' env request s) as [o | pushData]; [by left|].
  unfold gitwebhook_upsert. destruct (rpc_ok env); [right; by exists pushData | by left].
Qed.

Lemma apply_op_users op s : users (apply_op' op s) = users s.
Proof.
  destruct op as [env today request | env today now | env today now]; cbn.
  - destruct (gitwebhook_store env today request s) as [-> | (? & _ & ->)]; done.
  - apply checkPushGoals_store.
  - apply legacy_store.
Qed.

(** No operation of the core removes a counter row, changes its key, or
    lowers its flag. *)
Lemma apply_op_latch_kept op s :
  latch_kept (github_counter s) (github_counter (apply_op' op s)).
Proof.
  destruct op as [env today request | env today now | env today now]; cbn.
  - destruct (gitwebhook_store env today request s) as [-> | (? & _ & ->)].
    + apply latch_kept_refl.
    + apply increment_push_counter_latch_kept.
  - apply latch_kept_Forall2, checkPushGoals_store.
  - apply latch_kept_Forall2, legacy_store.
Qed.

Lemma apply_op_schema_ok op s : schema_ok s → schema_ok (apply_op' op s).
Proof.
  intros [Hgoal Hnd]. split.
  - by rewrite apply_op_users.
  - destruct op as [env today request | env today now | env today now]; cbn.
    + destruct (gitwebhook_store env today request s) as [-> | (? & _ & ->)];
        [done | by apply increment_push_counter_unique].
    + by rewrite (Forall2_latched_keys _ _
                    (proj2 (checkPushGoals_store env today now s))).
    + by rewrite (Forall2_latched_keys _ _
                    (proj2 (legacy_store env today now s))).
Qed.

Lemma apply_ops_snoc ops op s :
  apply_ops' (ops ++ [op]) s = apply_op' op (apply_ops' ops s).
Proof. unfold apply_ops. by rewrite foldl_app. Qed.

Lemma apply_ops_latch_kept ops s :
  latch_kept (github_counter s) (github_counter (apply_ops' ops s)).
Proof.
  induction ops as [|op ops IH] using rev_ind; [apply latch_kept_refl|].
  rewrite apply_ops_snoc.
  eapply latch_kept_trans; [exact IH | apply apply_op_latch_kept].
Qed.

Lemma apply_ops_schema_ok ops s : schema_ok s → schema_ok (apply_ops' ops s).
Proof.
  intros H. induction ops as [|op ops IH] using rev_ind; [done|].
  rewrite apply_ops_snoc. by apply apply_op_schema_ok.
Qed.

Lemma apply_ops_job_done ops uid today s :
  job_done uid today s → job_done uid today (apply_ops' ops s).
Proof. apply job_done_latch_kept, apply_ops_latch_kept. Qed.

(** C2, as the sweep behaves: in every sweep over a store that meets the
    schema, each congratulation that is attempted comes right after the
    update that sets [is_job_done] on that user's counter of the day has
    been issued and awaited.  The sweep does not look at the result of
    the update; when the store takes it, the flag is set whether or not
    the delivery then fails, and whatever webhooks and sweeps follow, no
    later sweep of that date attempts a congratulation for that user
    again (nor does a later run of the earlier cron callback post
    anything for that user). *)
Theorem flag_set_before_congratulation env today now s u :
  schema_ok s →
  let r := checkPushGoals env today now s in
  (∀ before after,
     trace r = before ++ EvPost u congratulation :: after →
     ∃ c before', c ∈ github_counter s ∧
                  counter_key c = (User.id u, today) ∧
                  before = before' ++ [EvSetJobDone (Counter.id c)]) ∧
  (EvPost u congratulation ∈ trace r →
   (∀ i, select_due_users now s !! i = Some u → update_ok env i = true) →
   job_done (User.id u) today (store_after r) ∧
   ∀ ops now' u',
     User.id u' = User.id u →
     (∀ env', EvPost u' congratulation
              ∉ trace (checkPushGoals env' today now'
                         (apply_ops' ops (store_after r)))) ∧
     (∀ env' content,
        EvPost u' content
        ∉ trace (Legacy.cron_callback env' today now'
                   (apply_ops' ops (store_after r))))).
Proof.
  intros Hschema r. split.
  - intros before after Htr.
    destruct (trace_flag_first env today now s (push_goal_check s Hschema)
                before u after Htr) as (c & before' & Hc & ->).
    apply sweep_counter_in_store in Hc as [Hin Hkey].
    exists c, before'. done.
  - intros He Hok.
    assert (Hdone : job_done (User.id u) today (store_after r)).
    { apply sweep_sets_flag; [apply Hschema | exact He | exact Hok]. }
    split; [exact Hdone|].
    intros ops now' u' Hid.
    assert (Hschema' : schema_ok (apply_ops' ops (store_after r))).
    { apply apply_ops_schema_ok.
      change (store_after r) with (apply_op' (Sweep env today now) s).
      by apply apply_op_schema_ok. }
    assert (Hdone' : job_done (User.id u') today (apply_ops' ops (store_after r))).
    { rewrite Hid. by apply apply_ops_job_done. }
    split.
    + intros env'.
      by apply (no_congratulation_when_done env' today now' _ (User.id u')).
    + intros env' content.
      apply legacy_no_message_when_done; [apply Hschema' | exact Hdone'].
Qed.

End WebhookTheory.

Lemma schema_ok_afternoon : schema_ok Sample.afternoon.
Proof.
  split.
  - intros u Hu. cbn in Hu.
    repeat (apply elem_of_cons in Hu as [-> | Hu]; [cbn; lia|]).
    by apply elem_of_nil in Hu.
  - apply (bool_decide_unpack _). by vm_compute.
Qed.

(** bob has met his goal; the delivery of his congratulation is
    rejected.  The flag is set all the same, and he is not congratulated
    again that day. *)
Lemma flag_set_before_congratulation_witness :
  let r := checkPushGoals (Sample.rejecting 1) Sample.day "09:30" Sample.afternoon in
  trace r = [EvSetJobDone 2; EvPost Sample.bob congratulation] ∧
  completion r = Rejected AxiosError ∧
  job_done 2 Sample.day (store_after r) ∧
  ∀ ops now' u',
    User.id u' = 2 →
    (∀ env', EvPost u' congratulation
             ∉ trace (checkPushGoals env' Sample.day now'
                        (apply_ops Sample.digest Sample.parse Sample.id_eq ops
                                   (store_after r)))) ∧
    (∀ env' content,
       EvPost u' content
       ∉ trace (Legacy.cron_callback env' Sample.day now'
                  (apply_ops Sample.digest Sample.parse Sample.id_eq ops
                             (store_after r)))).
Proof.
  intros r. split; [reflexivity|]. split; [reflexivity|].
  apply (proj2 (flag_set_before_congratulation
                  Sample.digest Sample.parse Sample.id_eq
                  (Sample.rejecting 1) Sample.day "09:30" Sample.afternoon
                  Sample.bob schema_ok_afternoon)).
  - in_list.
  - intros i _. reflexivity.
Defined.

(** C2 as claimed fails when the store refuses the update: bob has met
    his goal, the update of his flag is issued and refused, the delivery
    of his congratulation is rejected, and the next sweep finds the flag
    unset and congratulates him again. *)
Lemma congratulated_again_when_update_fails :
  ¬ no_second_congratulation Sample.store_refuses Sample.day "09:30"
      Sample.afternoon.
Proof.
  intros H.
  apply (H Sample.bob (conj eq_refl eq_refl) Sample.calm "09:35").
  in_list.
Qed.

(** ** The latch and the counters query *)

(** C3, where the sweep breaks it: alice's counter of the day is done,
    and a sweep whose counters query fails posts her a reminder all the
    same.  The error of that query is not looked at and the map of
    counters is empty, so every due user is taken for one without
    pushes (bob, who has met his goal, is reminded too). *)
Theorem done_user_reminded_when_counters_query_fails :
  job_done 1 Sample.day Sample.afternoon ∧
  trace (checkPushGoals Sample.counters_down Sample.day "09:30" Sample.afternoon)
  = [EvPost Sample.alice reminder; EvPost Sample.bob reminder;
     EvPost Sample.dave reminder] ∧
  trace (checkPushGoals Sample.calm Sample.day "09:30" Sample.afternoon)
  = [EvSetJobDone 2; EvPost Sample.bob congratulation;
     EvPost Sample.dave reminder].
Proof.
  split; [|split; reflexivity].
  exists (Counter.mk 1 1 Sample.day 1 true).
  split; [apply list_elem_of_here | done].
Qed.

(** ** Reminders for a user who has not pushed *)

Lemma sweep_loop_reaches env cm batch : ∀ idx rows i u,
  batch !! i = Some u →
  (∀ j u', (j < i)%nat → batch !! j = Some u' →
           ¬ post_rejected env cm (idx + j) u') →
  ∀ e, e ∈ decision (cm !! User.id u) u →
       e ∈ (sweep_loop env cm idx batch rows).1.2.
Proof.
  induction batch as [|user rest IH]; intros idx rows i u Hi Hbefore e He; [done|].
  rewrite sweep_loop_cons. cbn zeta.
  destruct i as [|i].
  - cbn in Hi. injection Hi as ->.
    destruct (already_notified (cm !! User.id u)) eqn:Hdone.
    { rewrite decision_skipped in He by exact Hdone. by apply not_elem_of_nil in He. }
    destruct (axios_post env idx _); [|exact He].
    destruct (sweep_loop env cm (S idx) rest _) as [[rows2 evs] c].
    cbn. apply elem_of_app. by left.
  - cbn in Hi.
    assert (Hbefore' : ∀ j u', (j < i)%nat → rest !! j = Some u' →
                               ¬ post_rejected env cm (S idx + j) u').
    { intros j u' Hj Hu'. replace (S idx + j)%nat with (idx + S j)%nat by lia.
      apply Hbefore; [lia | exact Hu']. }
    destruct (already_notified (cm !! User.id user)) eqn:Hdone.
    { by apply (IH _ _ i u). }
    destruct (axios_post env idx _) eqn:Hpost.
    + specialize (IH (S idx) (rows_after_body env idx (cm !! User.id user) user rows)
                     i u Hi Hbefore' e He).
      destruct (sweep_loop env cm (S idx) rest _) as [[rows2 evs] c].
      cbn in *. apply elem_of_app. by right.
    + exfalso. apply (Hbefore 0%nat user); [lia | done |].
      split; [exact Hdone|]. now rewrite Nat.add_0_r.
Qed.

Lemma due_iff now u :
  due now u = true ↔
  is_Some (User.discord_webhook_url u) ∧
  ∃ t, User.annoy_time u = Some t ∧ String.leb t now = true.
Proof.
  unfold due. destruct (User.discord_webhook_url u) as [url|].
  - destruct (User.annoy_time u) as [t|].
    + split; [intros H; split; [by eexists | by exists t] |].
      by intros [_ (t' & [= <-] & H)].
    + split; [done | by intros [_ (t' & [=] & _)]].
  - split; [done | by intros [[? [=]] _]].
Qed.

(** One sweep that gets to an idle user posts the reminder, and leaves
    the user idle. *)
Lemma reminder_sent today s u t run :
  u ∈ users s →
  is_Some (User.discord_webhook_url u) →
  User.annoy_time u = Some t →
  1 ≤ User.push_goal u →
  no_counter (User.id u) today s →
  gets_to s u t run →
  EvPost u reminder ∈ trace (checkPushGoals run.1 today run.2 s) ∧
  users (store_after (checkPushGoals run.1 today run.2 s)) = users s ∧
  no_counter (User.id u) today (store_after (checkPushGoals run.1 today run.2 s)).
Proof.
  destruct run as [env now]. cbn [fst snd].
  intros Hu Hurl Htime Hgoal Hno (Hq & Hpassed & Hposts). cbn [fst snd] in *.
  destruct (checkPushGoals_store env today now s) as [Husers Hlatch].
  split; [|split; [exact Husers|]].
  - destruct (checkPushGoals_loop env today now s Hq) as (-> & _).
    assert (Hdue : u ∈ select_due_users now s).
    { apply elem_of_select_due_users. split; [exact Hu|].
      apply due_iff. split; [exact Hurl | by exists t]. }
    apply list_elem_of_lookup in Hdue as [i Hi].
    apply (sweep_loop_reaches env _ _ 0%nat _ i u Hi).
    + intros j u' Hj Hu' [_ Hpost]. cbn in Hpost.
      assert (Hdue' : due now u' = true).
      { apply list_elem_of_lookup_2 in Hu'.
        by apply elem_of_select_due_users in Hu' as [_ ?]. }
      apply due_iff in Hdue' as [[url Hurl'] _].
      unfold axios_post in Hpost. rewrite Hurl' in Hpost.
      rewrite (Hposts i Hi j Hj) in Hpost. discriminate.
    + rewrite (sweep_counter_none env today now s _ Hno).
      unfold decision. cbn. rewrite goalMet_no_counter by exact Hgoal.
      apply list_elem_of_here.
  - intros c' Hc' Hkey.
    apply list_elem_of_lookup in Hc' as [i Hi].
    destruct (Forall2_lookup_r _ _ _ _ _ Hlatch Hi) as (c & Hc & _ & Hkey' & _).
    apply (Hno c); [by apply list_elem_of_lookup_2 in Hc | congruence].
Qed.

Lemma gets_to_users s s' u t run :
  users s' = users s → gets_to s u t run → gets_to s' u t run.
Proof.
  intros Husers (Hq & Ht & Hposts). split; [done|]. split; [done|].
  unfold select_due_users in *. by rewrite Husers.
Qed.

(** ** The guard of the flag update *)



(** ** The signature check *)

Lemma utf8_head_utf8 c rest : utf8_head (utf8 c ++ rest) = Some (c, rest).
Proof. destruct c as [[] [] [] [] [] [] [] []]; reflexivity. Qed.

Lemma Buffer_from_String c s :
  Buffer_from (String c s) = utf8 c ++ Buffer_from s.
Proof. reflexivity. Qed.

(** Different strings give different buffers. *)
Lemma Buffer_from_inj s1 : ∀ s2, Buffer_from s1 = Buffer_from s2 → s1 = s2.
Proof.
  induction s1 as [|c1 s1 IH]; intros [|c2 s2] H.
  - reflexivity.
  - apply (f_equal utf8_head) in H.
    rewrite Buffer_from_String, utf8_head_utf8 in H. discriminate.
  - apply (f_equal utf8_head) in H.
    rewrite Buffer_from_String, utf8_head_utf8 in H. discriminate.
  - apply (f_equal utf8_head) in H.
    rewrite !Buffer_from_String, !utf8_head_utf8 in H.
    injection H as -> H. f_equal. by apply IH.
Qed.

Lemma timingSafeEqual_spec a b :
  timingSafeEqual a b =
  if decide (length a = length b) then Some (bool_decide (a = b)) else None.
Proof.
  unfold timingSafeEqual.
  destruct (Nat.eqb_spec (length a) (length b)); by case_decide.
Qed.

Lemma timingSafeEqual_refl a : timingSafeEqual a a = Some true.
Proof.
  rewrite timingSafeEqual_spec. case_decide; [|done].
  by rewrite bool_decide_eq_true_2.
Qed.

(** ** The webhook handler *)

Section HandlerTheory.

Variable hmacSha256Hex : string -> string -> string.
Variable JSON_parse : string -> option JsValue.
Variable pgrst_eq : JsValue -> Z -> bool.

#[local] Abbreviation lookup' :=
  (gitwebhook_lookup hmacSha256Hex JSON_parse pgrst_eq).
#[local] Abbreviation handle := (gitwebhook hmacSha256Hex JSON_parse pgrst_eq).
#[local] Abbreviation valid := (signature_valid hmacSha256Hex).
#[local] Abbreviation ourSignature secret request :=
  (String.append "sha256=" (hmacSha256Hex secret (body request))).

Lemma find_user_users env v s s' :
  users s = users s' → find_user pgrst_eq env v s = find_user pgrst_eq env v s'.
Proof. unfold find_user. by intros ->. Qed.

(** The handler reads the store only through [users]. *)
Lemma gitwebhook_lookup_users env request s s' :
  users s = users s' → lookup' env request s = lookup' env request s'.
Proof.
  intros H. unfold gitwebhook_lookup.
  repeat case_match; try done; rewrite (find_user_users _ _ s s' H) in *; congruence.
Qed.

(** Past a valid signature. *)
Lemma gitwebhook_lookup_valid env request s :
  valid env request →
  lookup' env request s =
  match JSON_parse (body request) with
  | None => inl (Threw SyntaxError)
  | Some pushEvent =>
      match sender_id pushEvent with
      | None => inl (Threw TypeError)
      | Some v =>
          match find_user pgrst_eq env v s with
          | None => inl (Responded (mkResponse 404 "User not Found"))
          | Some pushData => inr pushData
          end
      end
  end.
Proof.
  intros (secret & Hsecret & Hsig). unfold gitwebhook_lookup.
  by rewrite Hsecret, Hsig, timingSafeEqual_refl.
Qed.


(** C6, where the handler breaks it: a claimed signature whose length in
    bytes is not that of ["sha256=" + digest] does not match, and the
    handler answers nothing: [crypto.timingSafeEqual] throws a
    RangeError, which nothing catches.  The store is not touched. *)
Theorem signature_of_other_length_throws env today request s secret githubSignature :
  GITWEBHOOK_SECRET env = Some secret →
  X_Hub_Signature_256 request = Some githubSignature →
  length (Buffer_from githubSignature)
  ≠ length (Buffer_from (ourSignature secret request)) →
  githubSignature ≠ ourSignature secret request ∧
  handle env today request s = (Threw RangeError, s).
Proof.
  intros Hsecret Hsig Hlen. split; [congruence|].
  unfold gitwebhook, gitwebhook_lookup.
  rewrite Hsecret, Hsig, timingSafeEqual_spec.
  case_decide; [congruence | done].
Qed.

(** Whatever the payload, a request whose signature is not valid changes
    nothing in the store; it is answered 401 or it throws. *)
Lemma invalid_signature_no_mutation env today request s :
  ¬ valid env request →
  (handle env today request s).2 = s ∧
  (handle env today request s).1
  ∈ [Responded (mkResponse 401 "Invalid Signature");
     Threw RangeError; Threw TypeError].
Proof.
  intros Hinvalid. unfold gitwebhook, gitwebhook_lookup.
  destruct (GITWEBHOOK_SECRET env) as [secret|] eqn:Hsecret;
    [|split; [done | set_solver]].
  destruct (X_Hub_Signature_256 request) as [githubSignature|] eqn:Hsig;
    [|split; [done | set_solver]].
  rewrite timingSafeEqual_spec. case_decide; [|split; [done | set_solver]].
  case_bool_decide as Heq; [|split; [done | set_solver]].
  apply Buffer_from_inj in Heq. destruct Hinvalid.
  exists secret. split; [done|]. by rewrite Hsig, Heq.
Qed.

(** C7: a validly signed webhook whose sender matches no stored user is
    answered 404 and changes nothing in the store. *)
Theorem unknown_sender_not_found env today request s pushEvent v :
  valid env request →
  JSON_parse (body request) = Some pushEvent →
  sender_id pushEvent = Some v →
  (∀ u, u ∈ users s → pgrst_eq v (User.github_id u) = false) →
  handle env today request s = (Responded (mkResponse 404 "User not Found"), s).
Proof.
  intros Hvalid Hparse Hsender Hnone. unfold gitwebhook.
  rewrite (gitwebhook_lookup_valid env request s Hvalid), Hparse, Hsender.
  assert (Hfind : find_user pgrst_eq env v s = None); [|by rewrite Hfind].
  unfold find_user. destruct (user_query_ok env); [|done].
  assert (Hfilter : List.filter (fun u => pgrst_eq v (User.github_id u)) (users s) = []);
    [|by rewrite Hfilter].
  induction (users s) as [|u us IH]; [done|]. cbn.
  rewrite (Hnone u) by apply list_elem_of_here.
  apply IH. intros u' Hu'. by apply Hnone, list_elem_of_further.
Qed.



End HandlerTheory.

(** The header [sha256=00] against a digest of 64 characters. *)
Lemma signature_of_other_length_throws_witness :
  "sha256=00" ≠ String.append "sha256=" (Sample.digest "s3cret" "push by alice") ∧
  gitwebhook Sample.digest Sample.parse Sample.id_eq Sample.listening Sample.day
             (mkRequest (Some "sha256=00") "push by alice") Sample.morning
  = (Threw RangeError, Sample.morning).
Proof.
  apply (signature_of_other_length_throws Sample.digest Sample.parse Sample.id_eq
           Sample.listening Sample.day
           (mkRequest (Some "sha256=00") "push by alice") Sample.morning
           "s3cret" "sha256=00").
  - reflexivity.
  - reflexivity.
  - vm_compute. discriminate.
Defined.

Lemma unknown_sender_not_found_witness :
  gitwebhook Sample.digest Sample.parse Sample.id_eq Sample.listening Sample.day
             (Sample.signed "push by a stranger") Sample.afternoon
  = (Responded (mkResponse 404 "User not Found"), Sample.afternoon).
Proof.
  apply (unknown_sender_not_found Sample.digest Sample.parse Sample.id_eq
           Sample.listening Sample.day (Sample.signed "push by a stranger")
           Sample.afternoon
           (JsObject [("sender", JsObject [("id", JsNumber 999)])])
           (JsNumber 999)).
  - exists "s3cret". split; reflexivity.
  - reflexivity.
  - reflexivity.
  - intros u Hu. cbn in Hu.
    repeat (apply elem_of_cons in Hu as [-> | Hu]; [reflexivity|]).
    by apply elem_of_nil in Hu.
Defined.







(** ** Concurrent deliveries *)

Lemma counter_of_bump uid today c : counter_of uid today (bump c) = counter_of uid today c.
Proof. reflexivity. Qed.

Lemma find_bumped uid today rows :
  List.find (counter_of uid today)
            (map (fun c => if counter_of uid today c then bump c else c) rows)
  = bump <$> List.find (counter_of uid today) rows.
Proof.
  induction rows as [|c rows IH]; [done|]. cbn.
  destruct (counter_of uid today c) eqn:Hc.
  - by rewrite counter_of_bump, Hc.
  - by rewrite Hc.
Qed.

Lemma find_none_existsb {A} (f : A → bool) l :
  existsb f l = false → List.find f l = None.
Proof.
  induction l as [|x l IH]; [done|]. cbn.
  destruct (f x); [done | exact IH].
Qed.

Lemma find_some_existsb {A} (f : A → bool) l :
  existsb f l = true → is_Some (List.find f l).
Proof.
  induction l as [|x l IH]; [done|]. cbn.
  destruct (f x); [by eexists | exact IH].
Qed.

Lemma find_app_none {A} (f : A → bool) l l' :
  List.find f l = None → List.find f (l ++ l') = List.find f l'.
Proof.
  induction l as [|x l IH]; [done|]. cbn.
  destruct (f x); [done | exact IH].
Qed.

(** The upsert adds exactly one to the count of the day. *)
Lemma push_count_increment uid today us rows :
  push_count uid today (mkStore us (increment_push_counter uid today rows))
  = push_count uid today (mkStore us rows) + 1.
Proof.
  unfold push_count, increment_push_counter. cbn.
  destruct (existsb (counter_of uid today) rows) eqn:Hex.
  - rewrite find_bumped.
    destruct (find_some_existsb _ _ Hex) as [c ->]. reflexivity.
  - pose proof (find_none_existsb _ _ Hex) as Hnone.
    rewrite (find_app_none _ _ _ Hnone), Hnone. cbn.
    unfold counter_of. cbn. by rewrite !bool_decide_eq_true_2.
Qed.

Lemma push_count_no_counter uid today s :
  no_counter uid today s → push_count uid today s = 0.
Proof.
  intros Hno. unfold push_count.
  destruct (List.find (counter_of uid today) (github_counter s)) as [c|] eqn:Hfind;
    [|done].
  apply find_some in Hfind as [Hin Hc].
  apply counter_of_key in Hc. apply list_elem_of_In in Hin.
  by destruct (Hno c Hin).
Qed.

Lemma finished_count_insert hs : ∀ i h h',
  hs !! i = Some h →
  (length (List.filter finished (<[i:=h']> hs)) + (if finished h then 1 else 0)
   = length (List.filter finished hs) + (if finished h' then 1 else 0))%nat.
Proof.
  induction hs as [|h0 hs IH]; intros i h h' Hi; [done|].
  destruct i as [|i]; cbn in Hi |- *.
  - injection Hi as ->. destruct (finished h), (finished h'); cbn; lia.
  - specialize (IH i h h' Hi).
    destruct (finished h0); cbn; [f_equal|]; exact IH.
Qed.

Lemma filter_all_finished hs :
  Forall (fun h => finished h = true) hs → List.filter finished hs = hs.
Proof.
  induction 1 as [|h hs Hh _ IH]; [done|]. cbn. by rewrite Hh, IH.
Qed.

Section ConcurrentDeliveries.

Variable hmacSha256Hex : string -> string -> string.
Variable JSON_parse : string -> option JsValue.
Variable pgrst_eq : JsValue -> Z -> bool.

Context (env : WebhookEnv) (today : string) (s0 : Store) (u : User.t).
Hypothesis rpc_answers : rpc_ok env = true.

#[local] Abbreviation lookup' :=
  (gitwebhook_lookup hmacSha256Hex JSON_parse pgrst_eq).
#[local] Abbreviation for_u :=
  (delivery_for hmacSha256Hex JSON_parse pgrst_eq env s0 u).
#[local] Abbreviation in_flight :=
  (in_flight_for hmacSha256Hex JSON_parse pgrst_eq env s0 u).
#[local] Abbreviation counted' :=
  (counted hmacSha256Hex JSON_parse pgrst_eq env today s0 u).
#[local] Abbreviation step := (server_step hmacSha256Hex JSON_parse pgrst_eq env today).
#[local] Abbreviation run := (run_schedule hmacSha256Hex JSON_parse pgrst_eq env today).

Lemma delivery_for_lookup request s :
  users s = users s0 → for_u request → lookup' env request s = inr u.
Proof.
  intros Husers (Hvalid & pushEvent & v & Hparse & Hsender & Hfind).
  rewrite (gitwebhook_lookup_users _ _ _ env request s s0 Husers).
  by rewrite (gitwebhook_lookup_valid _ _ _ env request s0 Hvalid),
    Hparse, Hsender, Hfind.
Qed.

(** One step of one delivery keeps the count right, moves that delivery
    one stage on, and leaves the others where they are. *)
Lemma server_step_counted i sys :
  counted' sys →
  counted' (step i sys) ∧
  length (step i sys).1 = length sys.1 ∧
  ∀ k h, sys.1 !! k = Some h →
    ∃ h', (step i sys).1 !! k = Some h' ∧
          stage h' = if decide (k = i) then Nat.min 2 (stage h + 1) else stage h.
Proof.
  destruct sys as [hs s]. intros (Husers & Hall & Hcount). cbn in *.
  unfold server_step. cbn [fst snd].
  destruct (hs !! i) as [h|] eqn:Hi.
  2:{ split; [done|]. split; [done|]. intros k h Hk. exists h. split; [done|].
      case_decide; [congruence | done]. }
  assert (Hstages : ∀ h' (s' : Store),
    stage h' = Nat.min 2 (stage h + 1) →
    ∀ k h0, hs !! k = Some h0 →
      ∃ h1, (<[i:=h']> hs, s').1 !! k = Some h1 ∧
            stage h1 = if decide (k = i) then Nat.min 2 (stage h0 + 1) else stage h0).
  { intros h' s' Hstage k h0 Hk. cbn [fst]. case_decide as Hki.
    - subst k. rewrite Hi in Hk. injection Hk as <-.
      exists h'. split; [|exact Hstage].
      apply list_lookup_insert_eq. by apply lookup_lt_Some in Hi.
    - exists h0. split; [|done]. by rewrite list_lookup_insert_ne. }
  pose proof (Forall_lookup_1 _ _ _ _ Hall Hi) as Hh.
  destruct h as [request | pushData | o]; cbn in Hh; unfold handler_step.
  - rewrite (delivery_for_lookup request s Husers Hh).
    split; [|split; [apply length_insert | by apply Hstages]].
    split; [done|]. split; [by apply Forall_insert|]. cbn.
    pose proof (finished_count_insert hs i _ (AwaitingUpsert u) Hi) as Hc.
    cbn in Hc. rewrite Hcount. f_equal. lia.
  - subst pushData. unfold gitwebhook_upsert. rewrite rpc_answers.
    split; [|split; [apply length_insert | by apply Hstages]].
    split; [done|]. split; [by apply Forall_insert|]. cbn.
    rewrite push_count_increment.
    pose proof (finished_count_insert hs i _
      (Finished (Responded (mkResponse 200 "Webhook recieved successfully"))) Hi)
      as Hc.
    cbn in Hc. destruct s as [us rows]. cbn in *. rewrite Hcount. lia.
  - rewrite list_insert_id by exact Hi.
    split; [done|]. split; [done|].
    intros k h0 Hk. exists h0. split; [done|].
    case_decide; [|done]. subst k. rewrite Hi in Hk. by injection Hk as <-.
Qed.

Lemma run_schedule_counted schedule : ∀ sys,
  counted' sys →
  counted' (run schedule sys) ∧
  length (run schedule sys).1 = length sys.1 ∧
  ∀ k h, sys.1 !! k = Some h →
    ∃ h', (run schedule sys).1 !! k = Some h' ∧
          stage h' = Nat.min 2 (stage h + count_occ Nat.eq_dec schedule k).
Proof.
  induction schedule as [|i schedule IH]; intros sys Hsys.
  - split; [done|]. split; [done|]. intros k h Hk. exists h. split; [done|].
    cbn. destruct h; cbn; lia.
  - cbn [run_schedule].
    destruct (server_step_counted i sys Hsys) as (Hsys1 & Hlen1 & Hstage1).
    destruct (IH _ Hsys1) as (Hsys2 & Hlen2 & Hstage2).
    split; [done|]. split; [congruence|].
    intros k h Hk.
    destruct (Hstage1 k h Hk) as (h1 & Hk1 & Hs1).
    destruct (Hstage2 k h1 Hk1) as (h2 & Hk2 & Hs2).
    exists h2. split; [done|]. rewrite Hs2, Hs1. cbn [count_occ].
    destruct (Nat.eq_dec i k) as [-> | Hne]; case_decide; try congruence; lia.
Qed.

(** C8: N validly signed deliveries for one user, on a day for which the
    user has no counter row, run concurrently: whichever delivery the
    scheduler advances at each step, the counter of the day equals the
    number of deliveries answered so far, and once every delivery has
    been given its two steps they are all answered 200 and
    [push_counter] is exactly N. *)
Theorem concurrent_deliveries_counted requests schedule :
  Forall for_u requests →
  no_counter (User.id u) today s0 →
  let final := run schedule (map Received requests, s0) in
  push_count (User.id u) today final.2
  = Z.of_nat (length (List.filter finished final.1)) ∧
  ((∀ i, (i < length requests)%nat →
         (2 ≤ count_occ Nat.eq_dec schedule i)%nat) →
   Forall (fun h =>
             h = Finished (Responded (mkResponse 200 "Webhook recieved successfully")))
          final.1 ∧
   push_count (User.id u) today final.2 = Z.of_nat (length requests)).
Proof.
  intros Hreqs Hno final.
  assert (Hinit : counted' (map Received requests, s0)).
  { split; [done|]. split; cbn.
    - apply Forall_fmap. by apply (Forall_impl _ _ _ Hreqs).
    - rewrite push_count_no_counter by exact Hno.
      clear. induction requests as [|request requests IH]; [done | exact IH]. }
  destruct (run_schedule_counted schedule _ Hinit) as (Hfinal & Hlen & Hstage).
  fold final in Hfinal, Hlen, Hstage. cbn in Hlen. rewrite length_map in Hlen.
  destruct Hfinal as (_ & Hall & Hcount).
  split; [exact Hcount|].
  intros Hfair.
  assert (Hdone : Forall (fun h =>
    h = Finished (Responded (mkResponse 200 "Webhook recieved successfully")))
    final.1).
  { apply Forall_lookup. intros k h' Hk'.
    assert (Hk : (k < length requests)%nat).
    { rewrite <- Hlen. by apply lookup_lt_Some in Hk'. }
    destruct (lookup_lt_is_Some_2 requests k Hk) as [request Hrequest].
    destruct (Hstage k (Received request)) as (h'' & Hk'' & Hs).
    { cbn. by rewrite list_lookup_fmap, Hrequest. }
    rewrite Hk' in Hk''. injection Hk'' as <-.
    specialize (Hfair k Hk). cbn [stage] in Hs.
    pose proof (Forall_lookup_1 _ _ _ _ Hall Hk') as Hh.
    destruct h' as [? | ? | o]; cbn [stage] in Hs; [lia | lia |].
    cbn in Hh. by subst o. }
  split; [exact Hdone|].
  rewrite Hcount, filter_all_finished, Hlen; [done|].
  apply (Forall_impl _ _ _ Hdone). by intros h ->.
Qed.

End ConcurrentDeliveries.

Lemma delivery_for_alice :
  delivery_for Sample.digest Sample.parse Sample.id_eq Sample.listening
               Sample.morning Sample.alice (Sample.signed "push by alice").
Proof.
  split.
  - exists "s3cret". split; reflexivity.
  - exists (JsObject [("sender", JsObject [("id", JsNumber 101)])]), (JsNumber 101).
    repeat split; reflexivity.
Qed.

(** Three deliveries for alice, interleaved: the first is looked up, then
    the second, then the third runs to its end before the other two
    resume. *)
Lemma concurrent_deliveries_counted_witness :
  let requests := [Sample.signed "push by alice"; Sample.signed "push by alice";
                   Sample.signed "push by alice"] in
  let final := run_schedule Sample.digest Sample.parse Sample.id_eq Sample.listening
                            Sample.day [0; 1; 2; 2; 1; 0]%nat
                            (map Received requests, Sample.morning) in
  Forall (fun h =>
            h = Finished (Responded (mkResponse 200 "Webhook recieved successfully")))
         final.1 ∧
  push_count 1 Sample.day final.2 = 3.
Proof.
  intros requests final.
  assert (Hreqs : Forall (delivery_for Sample.digest Sample.parse Sample.id_eq
                            Sample.listening Sample.morning Sample.alice) requests).
  { repeat (apply List.Forall_cons; [exact delivery_for_alice|]).
    apply List.Forall_nil. }
  assert (Hno : no_counter 1 Sample.day Sample.morning).
  { intros c Hc. by apply elem_of_nil in Hc. }
  apply (proj2 (concurrent_deliveries_counted
                  Sample.digest Sample.parse Sample.id_eq Sample.listening
                  Sample.day Sample.morning Sample.alice eq_refl
                  requests [0; 1; 2; 2; 1; 0]%nat Hreqs Hno)).
  intros i Hi. destruct i as [|[|[|i]]]; cbn in *; lia.
Defined.

(** ** Users without [annoy_time] *)

(** C5, as the two sweeps behave: a user whose [annoy_time] is null is
    not selected by [checkPushGoals] and no post of it is for that user,
    whatever the counters and whatever the collaborators do; the earlier
    cron callback posts no reminder for such a user. *)
Theorem null_annoy_time_excluded env env' today now now' s u :
  User.annoy_time u = None →
  (u ∉ select_due_users now s) ∧
  (∀ content, EvPost u content ∉ trace (checkPushGoals env today now s)) ∧
  EvPost u reminder ∉ trace (Legacy.cron_callback env' today now' s).
Proof.
  intros Hnull.
  assert (Hnot : u ∉ select_due_users now s).
  { intros [_ Hdue%due_annoy_time]%elem_of_select_due_users.
    rewrite Hnull in Hdue. by destruct Hdue. }
  split; [exact Hnot|]. split.
  - intros content (u' & Hu' & He)%trace_event_origin.
    apply decision_post in He as ->. by apply Hnot.
  - by apply legacy_null_annoy_time_no_reminder.
Qed.

Lemma null_annoy_time_excluded_witness :
  (Sample.carol ∉ select_due_users "09:30" Sample.carol_pushed) ∧
  (∀ content,
     EvPost Sample.carol content
     ∉ trace (checkPushGoals Sample.calm Sample.day "09:30" Sample.carol_pushed)) ∧
  EvPost Sample.carol reminder
  ∉ trace (Legacy.cron_callback Sample.legacy_calm Sample.day "09:30:00"
             Sample.carol_pushed).
Proof.
  apply (null_annoy_time_excluded Sample.calm Sample.legacy_calm Sample.day
           "09:30" "09:30:00" Sample.carol_pushed Sample.carol).
  reflexivity.
Defined.

(** C5 as claimed fails on the earlier cron callback: carol has no
    [annoy_time]; her counter of the day reaches her goal and the
    callback posts her the congratulation. *)
Lemma legacy_congratulates_null_annoy_time :
  ¬ spares_null_annoy_time (Legacy.cron_callback Sample.legacy_calm)
      Sample.day "09:30:00" Sample.carol_pushed.
Proof.
  intros H.
  apply (H Sample.carol Legacy.congratulation).
  - in_list.
  - reflexivity.
  - in_list.
Qed.

(** C4 as claimed fails.  In [checkPushGoals], bob is due and has no
    counter row, but alice comes before him in the batch and her
    delivery is rejected, so the sweep posts him nothing.  In the
    earlier cron callback, which selects counter rows, a user without a
    counter row is not looked at. *)
Lemma idle_user_not_reminded :
  ¬ reminds_every_idle_user (checkPushGoals (Sample.rejecting 0))
      Sample.day "09:30" Sample.morning ∧
  ¬ reminds_every_idle_user (Legacy.cron_callback Sample.legacy_calm)
      Sample.day "09:30:00" Sample.morning.
Proof.
  assert (Hbob : ∀ sweep now,
    String.leb "09:00" now = true →
    EvPost Sample.bob reminder ∉ trace (sweep Sample.day now Sample.morning) →
    ¬ reminds_every_idle_user sweep Sample.day now Sample.morning).
  { intros sweep now Hnow Hnot H. apply Hnot, (H Sample.bob "09:00").
    - in_list.
    - by eexists.
    - reflexivity.
    - exact Hnow.
    - cbn. lia.
    - intros c Hc. by apply elem_of_nil in Hc. }
  split; (apply Hbob; [reflexivity|]).
  - intros Hin. apply list_elem_of_singleton in Hin. discriminate.
  - intros Hin. by apply elem_of_nil in Hin.
Qed.

(** ** The scenarios of the spec, run *)

(** Goal 3, two pushes, [annoy_time] 09:00: the sweep of 10:00 reminds
    and leaves the flag; after the third push the sweep of 10:05 sets
    the flag and congratulates; the sweep of 10:10 posts nothing. *)
Example scenario_goal_of_three :
  let push := Webhook Sample.listening Sample.day (Sample.signed "push by bob") in
  let run := apply_ops Sample.digest Sample.parse Sample.id_eq in
  let s1 := run [push; push] Sample.solo in
  let r1 := checkPushGoals Sample.calm Sample.day "10:00" s1 in
  let s2 := run [push] (store_after r1) in
  let r2 := checkPushGoals Sample.calm Sample.day "10:05" s2 in
  let r3 := checkPushGoals Sample.calm Sample.day "10:10" (store_after r2) in
  trace r1 = [EvPost Sample.bob reminder] ∧
  github_counter (store_after r1) = [Counter.mk 1 2 Sample.day 2 false] ∧
  trace r2 = [EvSetJobDone 1; EvPost Sample.bob congratulation] ∧
  github_counter (store_after r2) = [Counter.mk 1 2 Sample.day 3 true] ∧
  trace r3 = [].
Proof. repeat split. Qed.

(** Day rollover: the counter of yesterday, done, does not keep today's
    sweep from reminding. *)
Example scenario_day_rollover :
  trace (checkPushGoals Sample.calm Sample.day "10:00" Sample.next_morning)
  = [EvPost Sample.bob reminder].
Proof. reflexivity. Qed.

(** * Further properties *)

(** ** The sweep when every delivery goes through *)

(** When no delivery is rejected, [checkPushGoals] runs through the whole
    batch and resolves: the trace is the decisions for all the due users,
    in the order of the batch, and every due user who is not already
    notified gets a post. *)
Theorem sweep_runs_through env today now s :
  let batch := select_due_users now s in
  let cm := sweep_counterMap env today now s in
  users_query_ok env = true →
  (∀ i u, batch !! i = Some u → ¬ post_rejected env cm i u) →
  trace (checkPushGoals env today now s) = decisions cm batch ∧
  completion (checkPushGoals env today now s) = Resolved ∧
  ∀ u, u ∈ batch → already_notified (cm !! User.id u) = false →
       ∃ content, EvPost u content ∈ trace (checkPushGoals env today now s).
Proof.
  intros batch cm Hok Hposts.
  destruct (checkPushGoals_loop env today now s Hok) as (Htr & Hc & _).
  destruct (sweep_loop_resolved env cm batch 0%nat (github_counter s) Hposts)
    as [Htr' Hc'].
  split; [by rewrite Htr|]. split; [by rewrite Hc|].
  intros u Hu Hnot. rewrite Htr. fold batch cm. rewrite Htr'.
  destruct (decision (cm !! User.id u) u) as [|e d] eqn:Hd.
  { unfold decision in Hd. rewrite Hnot in Hd.
    destruct (cm !! User.id u); [destruct (goalMet _ u)|]; discriminate. }
  exists (if goalMet (cm !! User.id u) u then congratulation else reminder).
  apply elem_of_decisions. exists u. split; [exact Hu|].
  unfold decision. rewrite Hnot.
  destruct (cm !! User.id u); [destruct (goalMet _ u)|]; in_list.
Qed.

Lemma sweep_runs_through_witness :
  trace (checkPushGoals Sample.calm Sample.day "09:30" Sample.afternoon)
  = [EvSetJobDone 2; EvPost Sample.bob congratulation;
     EvPost Sample.dave reminder] ∧
  completion (checkPushGoals Sample.calm Sample.day "09:30" Sample.afternoon)
  = Resolved ∧
  ∀ u, u ∈ select_due_users "09:30" Sample.afternoon →
       already_notified
         (sweep_counterMap Sample.calm Sample.day "09:30" Sample.afternoon
          !! User.id u) = false →
       ∃ content,
         EvPost u content
         ∈ trace (checkPushGoals Sample.calm Sample.day "09:30" Sample.afternoon).
Proof.
  apply (sweep_runs_through Sample.calm Sample.day "09:30" Sample.afternoon).
  - reflexivity.
  - intros i u Hi [_ Hpost].
    destruct i as [|[|[|i]]]; cbn in Hi; [| | |discriminate];
      injection Hi as <-; discriminate.
Defined.

(** ** What a post of the sweep says about the store *)

(** The events of a decision, one by one. *)
Lemma decision_event counter user e :
  e ∈ decision counter user →
  already_notified counter = false ∧
  ((e = EvPost user congratulation ∧ goalMet counter user = true) ∨
   (e = EvPost user reminder ∧ goalMet counter user = false) ∨
   (∃ c, counter = Some c ∧ goalMet counter user = true ∧
         e = EvSetJobDone (Counter.id c))).
Proof.
  unfold decision.
  destruct (already_notified counter); [by intros ?%not_elem_of_nil|].
  intros He. split; [done|].
  destruct counter as [c|]; [destruct (goalMet (Some c) user) eqn:Hmet|].
  - apply elem_of_cons in He as [-> | He]; [right; right; by exists c|].
    apply list_elem_of_singleton in He as ->. by left.
  - apply list_elem_of_singleton in He as ->. right. by left.
  - apply list_elem_of_singleton in He as ->.
    destruct (goalMet None user); [by left | right; by left].
Qed.

Lemma goalMet_counter c user :
  goalMet (Some c) user = (User.push_goal user <=? Counter.push_counter c).
Proof.
  unfold goalMet, pushCount.
  destruct (Z.eqb_spec (Counter.push_counter c) 0) as [-> | _]; reflexivity.
Qed.

(** Every post of [checkPushGoals] is for a stored user who has an
    endpoint and whose [annoy_time] has passed, and it is one of the two
    messages. *)
Theorem posts_only_for_due_users env today now s u content :
  EvPost u content ∈ trace (checkPushGoals env today now s) →
  u ∈ users s ∧
  is_Some (User.discord_webhook_url u) ∧
  (∃ t, User.annoy_time u = Some t ∧ String.leb t now = true) ∧
  (content = congratulation ∨ content = reminder).
Proof.
  intros (u' & Hu' & Hd)%trace_event_origin.
  pose proof (decision_post _ _ _ _ Hd) as ->.
  apply elem_of_select_due_users in Hu' as [Hin Hdue].
  apply due_iff in Hdue as [Hurl Htime].
  split; [exact Hin|]. split; [exact Hurl|]. split; [exact Htime|].
  apply decision_event in Hd as [_ [[He _] | [[He _] | (c & _ & _ & He)]]];
    [left | right | discriminate]; congruence.
Qed.

Lemma posts_only_for_due_users_witness :
  Sample.dave ∈ users Sample.afternoon ∧
  is_Some (User.discord_webhook_url Sample.dave) ∧
  (∃ t, User.annoy_time Sample.dave = Some t ∧ String.leb t "09:30" = true) ∧
  (reminder = congratulation ∨ reminder = reminder).
Proof.
  apply (posts_only_for_due_users Sample.calm Sample.day "09:30" Sample.afternoon
           Sample.dave reminder).
  in_list.
Defined.

(** A congratulation is attempted only for a user whose counter row of
    the day, not yet done, has reached the goal (goals being at least 1,
    as the CHECK of the schema has them). *)
Theorem congratulation_only_when_goal_met env today now s u :
  (∀ u, u ∈ users s → 1 ≤ User.push_goal u) →
  EvPost u congratulation ∈ trace (checkPushGoals env today now s) →
  ∃ c, c ∈ github_counter s ∧
       counter_key c = (User.id u, today) ∧
       Counter.is_job_done c = false ∧
       User.push_goal u ≤ Counter.push_counter c.
Proof.
  intros Hgoal (u' & Hu' & Hd)%trace_event_origin.
  pose proof (decision_post _ _ _ _ Hd) as ->.
  apply decision_event in Hd as [Hnot [[_ Hmet] | [[He _] | (c & _ & _ & He)]]];
    [| | discriminate].
  - destruct (sweep_counterMap env today now s !! User.id u') as [c|] eqn:Hc.
    + exists c. apply sweep_counter_in_store in Hc as [Hin Hkey].
      split; [exact Hin|]. split; [exact Hkey|]. split; [exact Hnot|].
      rewrite goalMet_counter in Hmet. by apply Z.leb_le.
    + rewrite goalMet_no_counter in Hmet; [done|].
      by apply (select_due_users_goal now s).
  - assert (congratulation = reminder) by congruence.
    by destruct congratulation_not_reminder.
Qed.

Lemma congratulation_only_when_goal_met_witness :
  ∃ c, c ∈ github_counter Sample.afternoon ∧
       counter_key c = (2, Sample.day) ∧
       Counter.is_job_done c = false ∧
       3 ≤ Counter.push_counter c.
Proof.
  apply (congratulation_only_when_goal_met Sample.calm Sample.day "09:30"
           Sample.afternoon Sample.bob).
  - apply schema_ok_afternoon.
  - in_list.
Defined.

(** When the counters query answers, a reminder is sent only to a user
    whose counter of the day (if there is one) is below the goal and not
    done. *)
Theorem reminder_only_when_goal_unmet env today now s u :
  counters_query_ok env = true →
  NoDup (map counter_key (github_counter s)) →
  EvPost u reminder ∈ trace (checkPushGoals env today now s) →
  ∀ c, c ∈ github_counter s → counter_key c = (User.id u, today) →
       Counter.push_counter c < User.push_goal u ∧
       Counter.is_job_done c = false.
Proof.
  intros Hok Hnd (u' & Hu' & Hd)%trace_event_origin c Hc Hkey.
  pose proof (decision_post _ _ _ _ Hd) as ->.
  destruct (sweep_counter_found env today now s u' c Hok Hu' Hc Hkey) as [c' Hc'].
  pose proof Hc' as Hstore. apply sweep_counter_in_store in Hstore as [Hin' Hkey'].
  assert (c' = c) as -> by (apply (counter_key_inj (github_counter s)); congruence).
  rewrite Hc' in Hd.
  apply decision_event in Hd as [Hnot [[He _] | [[_ Hmet] | (? & _ & _ & He)]]];
    [| | discriminate].
  - assert (congratulation = reminder) by congruence.
    by destruct congratulation_not_reminder.
  - rewrite goalMet_counter in Hmet. apply Z.leb_gt in Hmet. by split.
Qed.

Lemma reminder_only_when_goal_unmet_witness :
  EvPost Sample.bob reminder
  ∈ trace (checkPushGoals Sample.calm Sample.day "09:30" Sample.midday) ∧
  ∀ c, c ∈ github_counter Sample.midday →
       counter_key c = (User.id Sample.bob, Sample.day) →
       Counter.push_counter c < User.push_goal Sample.bob ∧
       Counter.is_job_done c = false.
Proof.
  split; [in_list|].
  apply (reminder_only_when_goal_unmet Sample.calm Sample.day "09:30"
           Sample.midday Sample.bob).
  - reflexivity.
  - apply (bool_decide_unpack _). by vm_compute.
  - in_list.
Defined.

(** ** One post per user *)

Lemma NoDup_filter {A} (f : A → bool) (l : list A) :
  NoDup l → NoDup (List.filter f l).
Proof.
  induction 1 as [|x l Hx _ IH]; cbn; [constructor|].
  destruct (f x); [|exact IH].
  constructor; [|exact IH].
  intros [Hin _]%list_elem_of_In%filter_In. by apply Hx, list_elem_of_In.
Qed.

Lemma NoDup_take {A} (l : list A) k : NoDup l → NoDup (take k l).
Proof.
  intros H. revert k. induction H as [|x l Hx _ IH]; intros [|k]; cbn;
    try constructor; [|apply IH].
  intros (i & Hi & _)%elem_of_take. by apply Hx, (list_elem_of_lookup_2 _ i).
Qed.

Lemma posts_for_app u tr tr' :
  posts_for u (tr ++ tr') = posts_for u tr ++ posts_for u tr'.
Proof. unfold posts_for. apply List.filter_app. Qed.

Lemma posts_for_decision_other (cm : gmap Z Counter.t) u user :
  user ≠ u → posts_for u (decision (cm !! User.id user) user) = [].
Proof.
  intros Hne. unfold decision.
  destruct (already_notified _); [done|].
  destruct (cm !! User.id user); [destruct (goalMet _ user)|];
    cbn; by rewrite bool_decide_eq_false_2.
Qed.

Lemma posts_for_decision_length (cm : gmap Z Counter.t) u user :
  (length (posts_for u (decision (cm !! User.id user) user)) ≤ 1)%nat.
Proof.
  unfold decision.
  destruct (already_notified _); [cbn; lia|].
  destruct (cm !! User.id user); [destruct (goalMet _ user)|];
    cbn; case_bool_decide; cbn; lia.
Qed.

Lemma posts_for_decisions_absent (cm : gmap Z Counter.t) u batch :
  u ∉ batch → posts_for u (decisions cm batch) = [].
Proof.
  induction batch as [|user rest IH]; intros Hu; [done|].
  rewrite decisions_cons, posts_for_app.
  apply not_elem_of_cons in Hu as [Hne Hu].
  rewrite posts_for_decision_other by congruence. by apply IH.
Qed.

Lemma posts_for_decisions_length (cm : gmap Z Counter.t) u batch :
  NoDup batch → (length (posts_for u (decisions cm batch)) ≤ 1)%nat.
Proof.
  induction 1 as [|user rest Huser _ IH]; [cbn; lia|].
  rewrite decisions_cons, posts_for_app, length_app.
  destruct (decide (user = u)) as [-> | Hne].
  - rewrite (posts_for_decisions_absent cm u rest Huser). cbn.
    pose proof (posts_for_decision_length cm u u). lia.
  - rewrite posts_for_decision_other by exact Hne. exact IH.
Qed.

(** A sweep posts at most once for a user (the rows of [users] being
    distinct): never a reminder and a congratulation, never the same
    message twice. *)
Theorem at_most_one_post_per_user env today now s u :
  NoDup (users s) →
  (length (posts_for u (trace (checkPushGoals env today now s))) ≤ 1)%nat.
Proof.
  intros Hnd. destruct (users_query_ok env) eqn:Hok.
  - destruct (checkPushGoals_loop env today now s Hok) as (-> & _).
    destruct (sweep_loop_prefix env (sweep_counterMap env today now s)
                (select_due_users now s) 0%nat (github_counter s)) as [k ->].
    apply posts_for_decisions_length, NoDup_take, NoDup_filter, Hnd.
  - rewrite checkPushGoals_users_query_failed by exact Hok. cbn. lia.
Qed.

Lemma at_most_one_post_per_user_witness :
  (length (posts_for Sample.bob
             (trace (checkPushGoals Sample.calm Sample.day "09:30"
                                    Sample.afternoon))) ≤ 1)%nat.
Proof.
  apply (at_most_one_post_per_user Sample.calm Sample.day "09:30"
           Sample.afternoon Sample.bob).
  apply (bool_decide_unpack _). by vm_compute.
Defined.

(** ** The store after a sweep *)

Lemma flag_change_refl tr c : flag_change tr c c.
Proof. by left. Qed.

Lemma flag_change_mono tr tr' c c' :
  (∀ e, e ∈ tr → e ∈ tr') → flag_change tr c c' → flag_change tr' c c'.
Proof. intros Hsub [-> | [-> He]]; [by left | right; auto]. Qed.

Lemma flag_change_trans tr c1 c2 c3 :
  flag_change tr c1 c2 → flag_change tr c2 c3 → flag_change tr c1 c3.
Proof.
  intros [-> | [-> He]] [-> | [-> He']]; try (by left); by right.
Qed.

Lemma Forall2_flag_change_refl tr rows : Forall2 (flag_change tr) rows rows.
Proof. induction rows; constructor; auto using flag_change_refl. Qed.

Lemma Forall2_flag_change_trans tr rows1 rows2 rows3 :
  Forall2 (flag_change tr) rows1 rows2 → Forall2 (flag_change tr) rows2 rows3 →
  Forall2 (flag_change tr) rows1 rows3.
Proof.
  intros H. revert rows3.
  induction H; intros rows3 H'; inversion H'; subst; constructor;
    eauto using flag_change_trans.
Qed.

Lemma Forall2_flag_change_mono tr tr' rows rows' :
  (∀ e, e ∈ tr → e ∈ tr') →
  Forall2 (flag_change tr) rows rows' → Forall2 (flag_change tr') rows rows'.
Proof.
  intros Hsub H. induction H; constructor; eauto using flag_change_mono.
Qed.

Lemma update_is_job_done_flag_change tr cid rows :
  EvSetJobDone cid ∈ tr →
  Forall2 (flag_change tr) rows (update_is_job_done cid rows).
Proof.
  intros He. induction rows as [|c rows IH]; cbn; constructor; [|exact IH].
  destruct (decide (Counter.id c = cid)) as [Heq | _]; [|by left].
  right. split; [done | by rewrite Heq].
Qed.

Lemma rows_after_body_flag_change env idx counter user rows :
  already_notified counter = false →
  Forall2 (flag_change (decision counter user)) rows
          (rows_after_body env idx counter user rows).
Proof.
  intros Hnot. unfold rows_after_body, supabase_update, decision. rewrite Hnot.
  destruct counter as [c|]; [destruct (goalMet (Some c) user)|];
    cbn [goalMet_and_counter].
  - destruct (update_ok env idx); [|apply Forall2_flag_change_refl].
    apply update_is_job_done_flag_change. in_list.
  - apply Forall2_flag_change_refl.
  - destruct (goalMet None user); apply Forall2_flag_change_refl.
Qed.

Lemma sweep_loop_flag_change env cm batch : ∀ idx rows,
  Forall2 (flag_change (sweep_loop env cm idx batch rows).1.2) rows
          (sweep_loop env cm idx batch rows).1.1.
Proof.
  induction batch as [|user rest IH]; intros idx rows.
  - apply Forall2_flag_change_refl.
  - rewrite sweep_loop_cons. cbn zeta.
    destruct (already_notified (cm !! User.id user)) eqn:Hnot; [apply IH|].
    pose proof (rows_after_body_flag_change env idx (cm !! User.id user) user
                  rows Hnot) as H1.
    destruct (axios_post env idx _); [|exact H1].
    specialize (IH (S idx) (rows_after_body env idx (cm !! User.id user) user rows)).
    destruct (sweep_loop env cm (S idx) rest _) as [[rows2 evs] c]. cbn in *.
    eapply Forall2_flag_change_trans.
    + eapply Forall2_flag_change_mono; [|exact H1].
      intros e He. apply elem_of_app. by left.
    + eapply Forall2_flag_change_mono; [|exact IH].
      intros e He. apply elem_of_app. by right.
Qed.

(** All that [checkPushGoals] changes in the store is flags: [users] is
    as it was, the counter rows are the same rows in the same order with
    the same counts, and a row whose flag has been set is one the trace
    has the update of. *)
Theorem sweep_changes_only_flags env today now s :
  let r := checkPushGoals env today now s in
  users (store_after r) = users s ∧
  map Counter.push_counter (github_counter (store_after r))
  = map Counter.push_counter (github_counter s) ∧
  Forall2 (flag_change (trace r)) (github_counter s)
          (github_counter (store_after r)).
Proof.
  intros r.
  assert (Hrows : Forall2 (flag_change (trace r)) (github_counter s)
                          (github_counter (store_after r))).
  { subst r. destruct (users_query_ok env) eqn:Hok.
    - destruct (checkPushGoals_loop env today now s Hok) as (-> & _ & _ & ->).
      apply sweep_loop_flag_change.
    - rewrite checkPushGoals_users_query_failed by exact Hok.
      apply Forall2_flag_change_refl. }
  split; [apply checkPushGoals_store|]. split; [|exact Hrows].
  induction Hrows as [|c c' rows rows' Hc _ IH]; [done|].
  cbn. rewrite IH. by destruct Hc as [-> | [-> _]].
Qed.

(** ** The format of [annoy_time] and the order of times *)

Lemma char_between_spec lo hi c :
  char_between lo hi c = true ↔
  Z.of_N (N_of_ascii lo) ≤ Z.of_N (N_of_ascii c) ≤ Z.of_N (N_of_ascii hi).
Proof.
  unfold char_between. rewrite andb_true_iff, !N.leb_le. lia.
Qed.

Lemma digit_char_value c :
  48 ≤ Z.of_N (N_of_ascii c) → digit_char (digit_value c) = c.
Proof.
  intros H. unfold digit_char, digit_value.
  replace (48 + (Z.of_N (N_of_ascii c) - 48)) with (Z.of_N (N_of_ascii c)) by lia.
  by rewrite N2Z.id, ascii_N_embedding.
Qed.

(** What the regular expression lets through, character by character. *)
Lemma timeRegex_test_chars s :
  timeRegex_test s = true →
  ∃ h1 h2 m1 m2,
    s = String h1 (String h2 (String ":" (String m1 (String m2 "")))) ∧
    0 ≤ digit_value h1 ≤ 2 ∧ 0 ≤ digit_value h2 ≤ 9 ∧
    10 * digit_value h1 + digit_value h2 ≤ 23 ∧
    0 ≤ digit_value m1 ≤ 5 ∧ 0 ≤ digit_value m2 ≤ 9.
Proof.
  destruct s as [|h1 [|h2 [|c [|m1 [|m2 [|? ?]]]]]]; try discriminate.
  cbn [timeRegex_test]. unfold is_digit.
  rewrite !andb_true_iff, orb_true_iff, !andb_true_iff, !char_between_spec.
  intros [[Hh Hc%Ascii.eqb_eq] [Hm1 Hm2]]. subst c.
  exists h1, h2, m1, m2. split; [done|].
  unfold digit_value. cbn in Hm1, Hm2.
  destruct Hh as [[Hh1 Hh2] | [Hh1%Ascii.eqb_eq Hh2]].
  - cbn in Hh1, Hh2. lia.
  - subst h1. cbn in Hh2 |- *. lia.
Qed.

Lemma format_time_accepted_nat :
  forallb (fun h => forallb (fun m =>
             timeRegex_test (format_time (Z.of_nat h) (Z.of_nat m))
             && (time_minutes (format_time (Z.of_nat h) (Z.of_nat m))
                 =? 60 * Z.of_nat h + Z.of_nat m))
           (seq 0 60)) (seq 0 24) = true.
Proof. vm_compute. reflexivity. Qed.

Lemma format_time_accepted h m :
  0 ≤ h < 24 → 0 ≤ m < 60 →
  timeRegex_test (format_time h m) = true ∧
  time_minutes (format_time h m) = 60 * h + m.
Proof.
  intros Hh Hm.
  pose proof format_time_accepted_nat as H.
  rewrite forallb_forall in H.
  specialize (H (Z.to_nat h)). rewrite forallb_forall in H.
  specialize (H ltac:(apply in_seq; lia) (Z.to_nat m) ltac:(apply in_seq; lia)).
  rewrite !Z2Nat.id in H by lia.
  apply andb_true_iff in H as [H1 H2%Z.eqb_eq]. done.
Qed.

(** The times the validation of the settings accepts are exactly the
    zero-padded 24-hour times from 00:00 to 23:59: a string passes
    [timeRegex] if and only if it is [format_time h m] for an hour below
    24 and a minute below 60, and it then reads back as that hour and
    minute. *)
Theorem timeRegex_accepts_24h_times s :
  timeRegex_test s = true ↔
  ∃ h m, 0 ≤ h < 24 ∧ 0 ≤ m < 60 ∧ s = format_time h m ∧
         time_minutes s = 60 * h + m.
Proof.
  split.
  - intros (h1 & h2 & m1 & m2 & -> & Hh1 & Hh2 & Hh & Hm1 & Hm2)%timeRegex_test_chars.
    exists (10 * digit_value h1 + digit_value h2),
           (10 * digit_value m1 + digit_value m2).
    split; [lia|]. split; [lia|]. split; [|cbn; lia].
    unfold format_time.
    replace ((10 * digit_value h1 + digit_value h2) / 10) with (digit_value h1)
      by (apply (Z.div_unique _ _ _ (digit_value h2)); lia).
    replace ((10 * digit_value h1 + digit_value h2) mod 10) with (digit_value h2)
      by (apply (Z.mod_unique _ _ (digit_value h1)); lia).
    replace ((10 * digit_value m1 + digit_value m2) / 10) with (digit_value m1)
      by (apply (Z.div_unique _ _ _ (digit_value m2)); lia).
    replace ((10 * digit_value m1 + digit_value m2) mod 10) with (digit_value m2)
      by (apply (Z.mod_unique _ _ (digit_value m1)); lia).
    unfold digit_value in Hh1, Hh2, Hm1, Hm2.
    rewrite !digit_char_value by (unfold digit_value; lia). done.
  - intros (h & m & Hh & Hm & -> & _). by apply format_time_accepted.
Qed.


(** Text order on validated times is the order of the clock, also when
    the later string carries seconds. *)
Lemma leb_validated t hm rest :
  timeRegex_test t = true → timeRegex_test hm = true →
  String.leb t (String.append hm rest) = true ↔ time_minutes t ≤ time_minutes hm.
Proof.
  intros (a1 & a2 & a3 & a4 & -> & Ha1 & Ha2 & _ & Ha3 & Ha4)%timeRegex_test_chars
         (b1 & b2 & b3 & b4 & -> & Hb1 & Hb2 & _ & Hb3 & Hb4)%timeRegex_test_chars.
  unfold String.leb. lazy [String.append].
  cbn [String.compare time_minutes]. unfold Ascii.compare.
  rewrite (N.compare_refl (N_of_ascii ":"%char)).
  unfold digit_value in *.
  destruct (N.compare_spec (N_of_ascii a1) (N_of_ascii b1));
    [|split; [lia | done] | split; [done | lia]].
  destruct (N.compare_spec (N_of_ascii a2) (N_of_ascii b2));
    [|split; [lia | done] | split; [done | lia]].
  destruct (N.compare_spec (N_of_ascii a3) (N_of_ascii b3));
    [|split; [lia | done] | split; [done | lia]].
  destruct (N.compare_spec (N_of_ascii a4) (N_of_ascii b4));
    [|split; [lia | done] | split; [done | lia]].
  destruct rest; (split; [lia | done]).
Qed.

(** [checkPushGoals] selects a user by the clock: for a user with an
    endpoint whose [annoy_time] passed the validation of the settings,
    and a sweep time of the form "HH:MM", the user is in the batch if and
    only if the time of day is not before the user's time. *)
Theorem due_by_the_clock now u url t :
  User.discord_webhook_url u = Some url →
  User.annoy_time u = Some t →
  timeRegex_test t = true →
  timeRegex_test now = true →
  due now u = true ↔ time_minutes t ≤ time_minutes now.
Proof.
  intros Hurl Ht Hvalid Hnow. unfold due. rewrite Hurl, Ht.
  rewrite <- (leb_validated t now "" Hvalid Hnow).
  apply timeRegex_test_chars in Hnow as (b1 & b2 & b3 & b4 & -> & _). done.
Qed.

Lemma due_by_the_clock_witness :
  due "09:30" Sample.dave = true ↔ time_minutes "09:15" ≤ time_minutes "09:30".
Proof.
  apply (due_by_the_clock "09:30" Sample.dave
           (default "" (User.discord_webhook_url Sample.dave)) "09:15");
    reflexivity.
Defined.

(** The earlier sweep compares [now], a time with seconds, with the
    user's [annoy_time] as text; for a validated [annoy_time] and a [now]
    that starts with an "HH:MM" of the 24-hour clock, the reminder branch
    is open if and only if the minute of the day has reached the user's
    time. *)
Theorem legacy_time_passed_by_the_clock hm seconds t :
  timeRegex_test t = true →
  timeRegex_test hm = true →
  Legacy.time_passed (String.append hm seconds) (Some t) = true ↔
  time_minutes t ≤ time_minutes hm.
Proof.
  intros Ht Hhm. unfold Legacy.time_passed. by apply leb_validated.
Qed.

Lemma legacy_time_passed_by_the_clock_witness :
  Legacy.time_passed "09:15:00" (Some "09:15") = true ↔
  time_minutes "09:15" ≤ time_minutes "09:15".
Proof.
  apply (legacy_time_passed_by_the_clock "09:15" ":00" "09:15"); reflexivity.
Defined.


(** ** The webhook handler, case by case *)

Section HandlerOutcomes.

Variable hmacSha256Hex : string -> string -> string.
Variable JSON_parse : string -> option JsValue.
Variable pgrst_eq : JsValue -> Z -> bool.

#[local] Abbreviation lookup_of :=
  (gitwebhook_lookup hmacSha256Hex JSON_parse pgrst_eq).
#[local] Abbreviation handler := (gitwebhook hmacSha256Hex JSON_parse pgrst_eq).
#[local] Abbreviation signed_by := (signature_valid hmacSha256Hex).
#[local] Abbreviation delivery :=
  (delivery_for hmacSha256Hex JSON_parse pgrst_eq).
#[local] Abbreviation received :=
  (Responded (mkResponse 200 "Webhook recieved successfully")).

(** The handler gets hold of a user row only for a delivery that is
    validly signed, parses, names a sender, and whose sender the store
    finds. *)
Lemma gitwebhook_lookup_inr env request s u :
  lookup_of env request s = inr u ↔ delivery env s u request.
Proof.
  split.
  - unfold gitwebhook_lookup. intros H.
    destruct (GITWEBHOOK_SECRET env) as [secret|] eqn:Hsecret; [|discriminate].
    destruct (X_Hub_Signature_256 request) as [githubSignature|] eqn:Hsig;
      [|discriminate].
    rewrite timingSafeEqual_spec in H. case_decide; [|discriminate].
    case_bool_decide as Heq; [|discriminate].
    apply Buffer_from_inj in Heq.
    destruct (JSON_parse (body request)) as [pushEvent|] eqn:Hparse; [|discriminate].
    destruct (sender_id pushEvent) as [v|] eqn:Hsender; [|discriminate].
    destruct (find_user pgrst_eq env v s) as [pushData|] eqn:Hfind; [|discriminate].
    assert (pushData = u) as -> by congruence.
    split.
    + exists secret. split; [done|]. by rewrite Hsig, Heq.
    + by exists pushEvent, v.
  - intros [Hvalid (pushEvent & v & Hparse & Hsender & Hfind)].
    rewrite (gitwebhook_lookup_valid _ _ _ env request s Hvalid).
    by rewrite Hparse, Hsender, Hfind.
Qed.

(** The handler answers 200 exactly for a validly signed delivery whose
    sender is a stored user and whose [rpc] the store accepts; the store
    is then the one the [rpc] leaves, called for that user. *)
Theorem webhook_received_iff env today request s s' :
  handler env today request s = (received, s') ↔
  rpc_ok env = true ∧
  ∃ u, delivery env s u request ∧
       s' = mkStore (users s)
                    (increment_push_counter (User.id u) today (github_counter s)).
Proof.
  unfold gitwebhook. split.
  - destruct (lookup_of env request s) as [o | pushData] eqn:Hlookup.
    + intros H. assert (Ho : o = received) by congruence. subst o.
      unfold gitwebhook_lookup in Hlookup. repeat case_match; discriminate.
    + unfold gitwebhook_upsert. destruct (rpc_ok env); [|discriminate].
      intros H. split; [done|]. exists pushData.
      split; [by apply gitwebhook_lookup_inr | congruence].
  - intros (Hrpc & u & Hdelivery%gitwebhook_lookup_inr & ->).
    rewrite Hdelivery. unfold gitwebhook_upsert. by rewrite Hrpc.
Qed.

(** Whatever else the handler does (401, 404, 500, or an exception that
    nothing catches), it leaves the store as it was. *)
Theorem webhook_store_unchanged_unless_received env today request s :
  let result := gitwebhook hmacSha256Hex JSON_parse pgrst_eq env today request s in
  result.1 ≠ received → result.2 = s.
Proof.
  cbn zeta. unfold gitwebhook.
  destruct (lookup_of env request s) as [o | pushData]; [done|].
  unfold gitwebhook_upsert. by destruct (rpc_ok env).
Qed.

(** A user query that fails is answered like an unknown sender: a
    validly signed delivery with a sender gets 404, also when the sender
    is a stored user, and the store is left as it was. *)
Theorem webhook_user_query_failure env today request s pushEvent v :
  signed_by env request →
  JSON_parse (body request) = Some pushEvent →
  sender_id pushEvent = Some v →
  user_query_ok env = false →
  handler env today request s = (Responded (mkResponse 404 "User not Found"), s).
Proof.
  intros Hvalid Hparse Hsender Hdown. unfold gitwebhook.
  rewrite (gitwebhook_lookup_valid _ _ _ env request s Hvalid), Hparse, Hsender.
  unfold find_user. by rewrite Hdown.
Qed.

(** An [rpc] that fails is answered 500: the delivery of a stored user
    is not counted, and GitHub is told so. *)
Theorem webhook_rpc_failure env today request s u :
  delivery_for hmacSha256Hex JSON_parse pgrst_eq env s u request →
  rpc_ok env = false →
  handler env today request s = (Responded (mkResponse 500 "Data not updated"), s).
Proof.
  intros Hdelivery%gitwebhook_lookup_inr Hrpc. unfold gitwebhook.
  rewrite Hdelivery. unfold gitwebhook_upsert. by rewrite Hrpc.
Qed.

End HandlerOutcomes.

Lemma webhook_store_unchanged_unless_received_witness :
  (gitwebhook Sample.digest Sample.parse Sample.id_eq Sample.listening Sample.day
              (mkRequest (Some Sample.forged) "push by alice") Sample.morning).2
  = Sample.morning.
Proof.
  apply (webhook_store_unchanged_unless_received Sample.digest Sample.parse
           Sample.id_eq Sample.listening Sample.day
           (mkRequest (Some Sample.forged) "push by alice") Sample.morning).
  vm_compute. discriminate.
Defined.

Lemma webhook_user_query_failure_witness :
  gitwebhook Sample.digest Sample.parse Sample.id_eq Sample.users_down Sample.day
             (Sample.signed "push by alice") Sample.morning
  = (Responded (mkResponse 404 "User not Found"), Sample.morning).
Proof.
  apply (webhook_user_query_failure Sample.digest Sample.parse Sample.id_eq
           Sample.users_down Sample.day (Sample.signed "push by alice")
           Sample.morning
           (JsObject [("sender", JsObject [("id", JsNumber 101)])])
           (JsNumber 101)).
  - exists "s3cret". split; reflexivity.
  - reflexivity.
  - reflexivity.
  - reflexivity.
Defined.

Lemma webhook_rpc_failure_witness :
  gitwebhook Sample.digest Sample.parse Sample.id_eq Sample.rpc_down Sample.day
             (Sample.signed "push by alice") Sample.morning
  = (Responded (mkResponse 500 "Data not updated"), Sample.morning).
Proof.
  apply (webhook_rpc_failure Sample.digest Sample.parse Sample.id_eq
           Sample.rpc_down Sample.day (Sample.signed "push by alice")
           Sample.morning Sample.alice).
  - split.
    + exists "s3cret". split; reflexivity.
    + exists (JsObject [("sender", JsObject [("id", JsNumber 101)])]), (JsNumber 101).
      repeat split; reflexivity.
  - reflexivity.
Defined.


(** ** The guard of [/api/cron] *)

(** [/api/cron] turns a caller away exactly when [CRON_SECRET] is set to
    a non-empty string and the secret the caller supplies (the header,
    or the query parameter when the header is absent or empty) is not
    that string.  Nothing is swept then; in every other case, also when
    [CRON_SECRET] is not set, the route runs [checkPushGoals]. *)
Theorem apiCron_unauthorized_iff CRON_SECRET header query env today now s :
  let answer := apiCron CRON_SECRET header query env today now s in
  let refused := truthy CRON_SECRET = true ∧ js_or header query ≠ CRON_SECRET in
  (status answer.1 = 401 ↔ refused) ∧
  (refused → answer.2 = mkSweepResult s [] Resolved) ∧
  (¬ refused → answer.2 = checkPushGoals env today now s).
Proof.
  cbn zeta. unfold apiCron.
  destruct (truthy CRON_SECRET) eqn:Hset; cbn [andb].
  - case_bool_decide as Heq; cbn [negb].
    + split; [|split].
      * destruct (completion (checkPushGoals env today now s)); cbn;
          (split; [discriminate | by intros [_ ?]]).
      * by intros [_ ?].
      * intros _. by destruct (completion (checkPushGoals env today now s)).
    + split; [|split]; [done | done | intros H; by destruct H].
  - split; [|split].
    + destruct (completion (checkPushGoals env today now s)); cbn;
        (split; [discriminate | by intros [? _]]).
    + by intros [? _].
    + intros _. by destruct (completion (checkPushGoals env today now s)).
Qed.

(** The header shadows the query parameter: with [CRON_SECRET] set, a
    caller who sends a non-empty header that is not the secret is turned
    away, also when the query parameter carries the secret. *)
Theorem apiCron_header_shadows_query CRON_SECRET header query env today now s :
  truthy CRON_SECRET = true →
  truthy header = true →
  header ≠ CRON_SECRET →
  apiCron CRON_SECRET header query env today now s
  = (mkResponse 401 "Unauthorized", mkSweepResult s [] Resolved).
Proof.
  intros Hset Hheader Hne. unfold apiCron, js_or.
  by rewrite Hset, Hheader, bool_decide_eq_false_2.
Qed.

Lemma apiCron_header_shadows_query_witness :
  apiCron (Some "k3y") (Some "guess") (Some "k3y") Sample.calm Sample.day "09:30"
          Sample.afternoon
  = (mkResponse 401 "Unauthorized", mkSweepResult Sample.afternoon [] Resolved).
Proof.
  apply (apiCron_header_shadows_query (Some "k3y") (Some "guess") (Some "k3y")
           Sample.calm Sample.day "09:30" Sample.afternoon).
  - reflexivity.
  - reflexivity.
  - discriminate.
Defined.


(** ** The earlier cron callback, message by message *)

Lemma legacy_loop_reminder env now items : ∀ idx rows u,
  EvPost u reminder ∈ (Legacy.cron_loop env now idx items rows).1.2 →
  ∃ item, (item, Some u) ∈ items ∧
          Counter.push_counter item < User.push_goal u ∧
          Legacy.time_passed now (User.annoy_time u) = true.
Proof.
  induction items as [|[item [user|]] rest IH]; intros idx rows u He; cbn in He.
  - by apply elem_of_nil in He.
  - assert (Hrest : ∀ idx rows,
      EvPost u reminder ∈ (Legacy.cron_loop env now idx rest rows).1.2 →
      ∃ item', (item', Some u) ∈ (item, Some user) :: rest ∧
               Counter.push_counter item' < User.push_goal u ∧
               Legacy.time_passed now (User.annoy_time u) = true).
    { intros idx' rows' He'. destruct (IH idx' rows' u He') as (i & Hin & H).
      exists i. split; [by apply list_elem_of_further | exact H]. }
    destruct (User.push_goal user <=? Counter.push_counter item) eqn:Hmet.
    + assert (Hhere : EvPost u reminder
                      ∉ [EvSetJobDone (Counter.id item);
                         EvPost user Legacy.congratulation]).
      { rewrite !elem_of_cons, elem_of_nil. intros [H | [H | []]]; [discriminate|].
        injection H as _ H. by destruct legacy_congratulation_not_reminder. }
      destruct (Legacy.axios_post env idx _); [|by destruct Hhere].
      destruct (Legacy.cron_loop env now (S idx) rest _) as [[rows2 evs] c] eqn:Hloop.
      cbn in He.
      change (EvPost u reminder
              ∈ [EvSetJobDone (Counter.id item);
                 EvPost user Legacy.congratulation] ++ evs) in He.
      apply elem_of_app in He as [He | He]; [by destruct Hhere|].
      apply (Hrest (S idx) (if Legacy.update_ok env idx
                            then update_is_job_done (Counter.id item) rows
                            else rows)).
      by rewrite Hloop.
    + apply Z.leb_gt in Hmet.
      destruct (Legacy.time_passed now (User.annoy_time user)) eqn:Hpassed;
        [|by apply (Hrest (S idx) rows)].
      assert (Hhere : EvPost u reminder ∈ [EvPost user reminder] →
        ∃ item', (item', Some u) ∈ (item, Some user) :: rest ∧
                 Counter.push_counter item' < User.push_goal u ∧
                 Legacy.time_passed now (User.annoy_time u) = true).
      { intros H%list_elem_of_singleton. injection H as ->. exists item.
        split; [apply list_elem_of_here | done]. }
      destruct (Legacy.axios_post env idx _); [|by apply Hhere].
      destruct (Legacy.cron_loop env now (S idx) rest rows) as [[rows2 evs] c] eqn:Hloop.
      cbn in He. rewrite elem_of_cons in He.
      destruct He as [He | He].
      * apply Hhere. rewrite He. apply list_elem_of_here.
      * apply (Hrest (S idx) rows). by rewrite Hloop.
  - by apply elem_of_nil in He.
Qed.

(** The rows the earlier callback looks at. *)
Lemma elem_of_userCronCheck today s item u :
  (item, Some u) ∈ Legacy.userCronCheck today s →
  item ∈ github_counter s ∧ counter_key item = (User.id u, today) ∧
  Counter.is_job_done item = false ∧ u ∈ users s.
Proof.
  unfold Legacy.userCronCheck.
  intros (item' & Hpair & Hsel)%list_elem_of_fmap.
  unfold Legacy.embed_users in Hpair. injection Hpair as <- Hfind.
  symmetry in Hfind. apply find_some in Hfind as [Hu Hid].
  apply bool_decide_eq_true in Hid.
  apply list_elem_of_In, filter_In in Hsel as [Hsel Hok].
  unfold Legacy.item_selected in Hok.
  apply andb_true_iff in Hok as [Hdate%bool_decide_eq_true Hdone%negb_true_iff].
  split; [by apply list_elem_of_In|].
  split; [unfold counter_key; by rewrite Hid, Hdate|].
  split; [exact Hdone | by apply list_elem_of_In].
Qed.

Lemma legacy_trace env today now s :
  trace (Legacy.cron_callback env today now s) = [] ∨
  trace (Legacy.cron_callback env today now s)
  = (Legacy.cron_loop env now 0 (Legacy.userCronCheck today s) (github_counter s)).1.2.
Proof.
  unfold Legacy.cron_callback.
  destruct (Legacy.query_ok env); cbn [negb]; [|by left].
  destruct (Legacy.userCronCheck today s) as [|i0 items0] eqn:Hitems; [by left|].
  right. by destruct (Legacy.cron_loop env now 0 _ _) as [[rows evs] c].
Qed.

(** The earlier callback reminds only a user who has pushed today, but
    less than the goal: a reminder is for the user of a counter row of
    the day that is not done and whose count is below the goal, and the
    user's [annoy_time] is set and not after [now] in the order of
    strings. *)
Theorem legacy_reminder_only_when_goal_unmet env today now s u :
  EvPost u reminder ∈ trace (Legacy.cron_callback env today now s) →
  u ∈ users s ∧
  (∃ item, item ∈ github_counter s ∧
           counter_key item = (User.id u, today) ∧
           Counter.is_job_done item = false ∧
           Counter.push_counter item < User.push_goal u) ∧
  ∃ t, User.annoy_time u = Some t ∧ String.leb t now = true.
Proof.
  intros He.
  destruct (legacy_trace env today now s) as [Htr | Htr]; rewrite Htr in He;
    [by apply elem_of_nil in He|].
  apply legacy_loop_reminder in He as (item & Hin & Hlt & Hpassed).
  apply elem_of_userCronCheck in Hin as (Hrow & Hkey & Hdone & Hu).
  split; [exact Hu|]. split; [by exists item|].
  unfold Legacy.time_passed in Hpassed.
  destruct (User.annoy_time u) as [t|]; [by exists t | discriminate].
Qed.


Lemma legacy_reminder_only_when_goal_unmet_witness :
  Sample.bob ∈ users Sample.midday ∧
  (∃ item, item ∈ github_counter Sample.midday ∧
           counter_key item = (User.id Sample.bob, Sample.day) ∧
           Counter.is_job_done item = false ∧
           Counter.push_counter item < User.push_goal Sample.bob) ∧
  ∃ t, User.annoy_time Sample.bob = Some t ∧ String.leb t "09:30:00" = true.
Proof.
  apply (legacy_reminder_only_when_goal_unmet Sample.legacy_calm Sample.day
           "09:30:00" Sample.midday Sample.bob).
  in_list.
Defined.

Lemma legacy_callback_loop env today now s :
  Legacy.query_ok env = true →
  let r := Legacy.cron_callback env today now s in
  let l := Legacy.cron_loop env now 0 (Legacy.userCronCheck today s)
                            (github_counter s) in
  github_counter (store_after r) = l.1.1 ∧ trace r = l.1.2 ∧ completion r = l.2.
Proof.
  intros Hok. cbn zeta. unfold Legacy.cron_callback. rewrite Hok. cbn [negb].
  destruct (Legacy.userCronCheck today s) as [|i0 items0] eqn:Hitems; [done|].
  by destruct (Legacy.cron_loop env now 0 _ _) as [[rows evs] c].
Qed.

Lemma legacy_loop_flag_first env now items : ∀ idx rows before u after,
  (Legacy.cron_loop env now idx items rows).1.2
  = before ++ EvPost u Legacy.congratulation :: after →
  ∃ item before', (item, Some u) ∈ items ∧
                  before = before' ++ [EvSetJobDone (Counter.id item)].
Proof.
  induction items as [|[item [user|]] rest IH];
    intros idx rows before u after Htr; cbn in Htr.
  - by destruct before.
  - assert (Hrest : ∀ idx rows before0 before1,
      before = before0 ++ before1 →
      (Legacy.cron_loop env now idx rest rows).1.2
      = before1 ++ EvPost u Legacy.congratulation :: after →
      ∃ item' before', (item', Some u) ∈ (item, Some user) :: rest ∧
                       before = before' ++ [EvSetJobDone (Counter.id item')]).
    { intros idx' rows' before0 before1 -> Htr'.
      destruct (IH idx' rows' before1 u after Htr') as (i & b' & Hin & ->).
      exists i, (before0 ++ b'). split; [by apply list_elem_of_further|].
      by rewrite app_assoc. }
    destruct (User.push_goal user <=? Counter.push_counter item).
    + destruct (Legacy.axios_post env idx _).
      * destruct (Legacy.cron_loop env now (S idx) rest _) as [[rows2 evs] c] eqn:Hloop.
        cbn in Htr. destruct before as [|b0 [|b1 before2]]; cbn in Htr.
        -- discriminate.
        -- assert (user = u) as -> by congruence.
           assert (b0 = EvSetJobDone (Counter.id item)) as -> by congruence.
           exists item, []. split; [apply list_elem_of_here | done].
        -- apply (Hrest (S idx) (if Legacy.update_ok env idx
                                 then update_is_job_done (Counter.id item) rows
                                 else rows) [b0; b1] before2); [done|].
           rewrite Hloop. cbn. congruence.
      * cbn in Htr. destruct before as [|b0 [|b1 [|b2 before3]]]; cbn in Htr.
        -- discriminate.
        -- assert (user = u) as -> by congruence.
           assert (b0 = EvSetJobDone (Counter.id item)) as -> by congruence.
           exists item, []. split; [apply list_elem_of_here | done].
        -- discriminate.
        -- discriminate.
    + destruct (Legacy.time_passed now (User.annoy_time user));
        [|by apply (Hrest (S idx) rows [] before)].
      destruct (Legacy.axios_post env idx _).
      * destruct (Legacy.cron_loop env now (S idx) rest rows) as [[rows2 evs] c] eqn:Hloop.
        cbn in Htr. destruct before as [|b0 before1]; cbn in Htr.
        -- assert (reminder = Legacy.congratulation) by congruence.
           by destruct legacy_congratulation_not_reminder.
        -- apply (Hrest (S idx) rows [b0] before1); [done|].
           rewrite Hloop. cbn. congruence.
      * cbn in Htr. destruct before as [|b0 [|b1 before2]]; cbn in Htr.
        -- assert (reminder = Legacy.congratulation) by congruence.
           by destruct legacy_congratulation_not_reminder.
        -- discriminate.
        -- discriminate.
  - by destruct before.
Qed.

(** The earlier callback, too, sets the flag of a row before it
    congratulates: in its trace every congratulation comes right after
    the flag update of a counter row of that user for the day. *)
Theorem legacy_flag_set_before_congratulation env today now s :
  legacy_flag_first today s (trace (Legacy.cron_callback env today now s)).
Proof.
  intros before u after Htr.
  destruct (legacy_trace env today now s) as [Hnil | Hloop].
  - rewrite Hnil in Htr. by destruct before.
  - rewrite Hloop in Htr.
    apply legacy_loop_flag_first in Htr as (item & before' & Hin & ->).
    apply elem_of_userCronCheck in Hin as (Hrow & Hkey & _).
    by exists item, before'.
Qed.

Lemma legacy_loop_flag_change env now items : ∀ idx rows,
  Forall2 (flag_change (Legacy.cron_loop env now idx items rows).1.2) rows
          (Legacy.cron_loop env now idx items rows).1.1.
Proof.
  induction items as [|[item [user|]] rest IH]; intros idx rows; cbn.
  - apply Forall2_flag_change_refl.
  - destruct (User.push_goal user <=? Counter.push_counter item).
    + assert (H1 : Forall2 (flag_change [EvSetJobDone (Counter.id item);
                                         EvPost user Legacy.congratulation])
                     rows (if Legacy.update_ok env idx
                           then update_is_job_done (Counter.id item) rows
                           else rows)).
      { destruct (Legacy.update_ok env idx); [|apply Forall2_flag_change_refl].
        apply update_is_job_done_flag_change. in_list. }
      destruct (Legacy.axios_post env idx _); [|exact H1].
      specialize (IH (S idx) (if Legacy.update_ok env idx
                              then update_is_job_done (Counter.id item) rows
                              else rows)).
      destruct (Legacy.cron_loop env now (S idx) rest _) as [[rows2 evs] c]. cbn in *.
      eapply Forall2_flag_change_trans.
      * eapply Forall2_flag_change_mono; [|exact H1].
        intros e He. rewrite !elem_of_cons, elem_of_nil in He.
        rewrite !elem_of_cons. tauto.
      * eapply Forall2_flag_change_mono; [|exact IH].
        intros e He. rewrite !elem_of_cons. tauto.
    + destruct (Legacy.time_passed now (User.annoy_time user)); [|apply IH].
      destruct (Legacy.axios_post env idx _); [|apply Forall2_flag_change_refl].
      specialize (IH (S idx) rows).
      destruct (Legacy.cron_loop env now (S idx) rest rows) as [[rows2 evs] c]. cbn in *.
      eapply Forall2_flag_change_mono; [|exact IH].
      intros e He. by apply list_elem_of_further.
  - apply Forall2_flag_change_refl.
Qed.

Lemma flag_change_push_counter tr rows rows' :
  Forall2 (flag_change tr) rows rows' →
  map Counter.push_counter rows' = map Counter.push_counter rows.
Proof.
  induction 1 as [|c c' rows rows' Hc _ IH]; [done|].
  cbn. rewrite IH. by destruct Hc as [-> | [-> _]].
Qed.

(** All that the earlier callback changes in the store is flags, as the
    later sweep: [users] is as it was, the counter rows are the same
    rows in the same order with the same counts, and a row whose flag
    has been set is one the trace has the update of. *)
Theorem legacy_changes_only_flags env today now s :
  let r := Legacy.cron_callback env today now s in
  users (store_after r) = users s ∧
  map Counter.push_counter (github_counter (store_after r))
  = map Counter.push_counter (github_counter s) ∧
  Forall2 (flag_change (trace r)) (github_counter s)
          (github_counter (store_after r)).
Proof.
  intros r.
  assert (Hrows : Forall2 (flag_change (trace r)) (github_counter s)
                          (github_counter (store_after r))).
  { subst r. destruct (Legacy.query_ok env) eqn:Hok.
    - destruct (legacy_callback_loop env today now s Hok) as (-> & -> & _).
      apply legacy_loop_flag_change.
    - unfold Legacy.cron_callback. rewrite Hok. apply Forall2_flag_change_refl. }
  split; [apply legacy_store|]. split; [|exact Hrows].
  by apply (flag_change_push_counter (trace r)).
Qed.

Lemma legacy_loop_runs env now items : ∀ idx rows,
  (∀ i, Legacy.post_ok env i = true) →
  (∀ item ou, (item, ou) ∈ items →
     ∃ u, ou = Some u ∧ is_Some (User.discord_webhook_url u)) →
  (Legacy.cron_loop env now idx items rows).2 = Resolved ∧
  ∀ item u, (item, Some u) ∈ items →
    (User.push_goal u ≤ Counter.push_counter item →
     EvPost u Legacy.congratulation
     ∈ (Legacy.cron_loop env now idx items rows).1.2) ∧
    (Counter.push_counter item < User.push_goal u →
     Legacy.time_passed now (User.annoy_time u) = true →
     EvPost u reminder ∈ (Legacy.cron_loop env now idx items rows).1.2).
Proof.
  induction items as [|[item ou] rest IH]; intros idx rows Hpost Hitems.
  - split; [done|]. by intros item u ?%elem_of_nil.
  - destruct (Hitems item ou) as (user & -> & [url Hurl]); [apply list_elem_of_here|].
    assert (Hrest : ∀ item' ou', (item', ou') ∈ rest →
              ∃ u, ou' = Some u ∧ is_Some (User.discord_webhook_url u)).
    { intros item' ou' Hin. by apply (Hitems item' ou'), list_elem_of_further. }
    cbn. rewrite Hurl. cbn [Legacy.axios_post]. rewrite Hpost.
    destruct (User.push_goal user <=? Counter.push_counter item) eqn:Hmet.
    + apply Z.leb_le in Hmet.
      destruct (IH (S idx) (if Legacy.update_ok env idx
                            then update_is_job_done (Counter.id item) rows
                            else rows) Hpost Hrest) as [Hc Hev].
      destruct (Legacy.cron_loop env now (S idx) rest _) as [[rows2 evs] c]. cbn in *.
      split; [exact Hc|]. intros item' u [Heq | Hin]%elem_of_cons.
      * injection Heq as -> ->. split; [intros _; in_list | lia].
      * destruct (Hev item' u Hin) as [H1 H2].
        split; [intros H | intros H H'];
          do 2 apply list_elem_of_further; auto.
    + apply Z.leb_gt in Hmet.
      destruct (Legacy.time_passed now (User.annoy_time user)) eqn:Hpassed.
      * destruct (IH (S idx) rows Hpost Hrest) as [Hc Hev].
        destruct (Legacy.cron_loop env now (S idx) rest rows) as [[rows2 evs] c].
        cbn in *. split; [exact Hc|]. intros item' u [Heq | Hin]%elem_of_cons.
        -- injection Heq as -> ->. split; [lia | intros _ _; in_list].
        -- destruct (Hev item' u Hin) as [H1 H2].
           split; [intros H | intros H H']; apply list_elem_of_further; auto.
      * destruct (IH (S idx) rows Hpost Hrest) as [Hc Hev].
        split; [exact Hc|]. intros item' u [Heq | Hin]%elem_of_cons.
        -- injection Heq as -> ->. split; [lia | congruence].
        -- by apply Hev.
Qed.

(** When its query and every delivery succeed and every user has an
    endpoint, the earlier callback resolves and gets to every counter
    row of the day that is not done: the user is congratulated when the
    count has reached the goal, whatever the time of day and the user's
    [annoy_time], and reminded when it has not and [annoy_time] has
    passed. *)
Theorem legacy_runs_through env today now s :
  Legacy.query_ok env = true →
  (∀ i, Legacy.post_ok env i = true) →
  (∀ c, c ∈ github_counter s → ∃ u, u ∈ users s ∧ User.id u = Counter.user_id c) →
  (∀ u, u ∈ users s → is_Some (User.discord_webhook_url u)) →
  let r := Legacy.cron_callback env today now s in
  completion r = Resolved ∧
  ∀ item u, (item, Some u) ∈ Legacy.userCronCheck today s →
    (User.push_goal u ≤ Counter.push_counter item →
     EvPost u Legacy.congratulation ∈ trace r) ∧
    (Counter.push_counter item < User.push_goal u →
     Legacy.time_passed now (User.annoy_time u) = true →
     EvPost u reminder ∈ trace r).
Proof.
  intros Hok Hpost Hfk Hurl r.
  destruct (legacy_callback_loop env today now s Hok) as (_ & Htr & Hc).
  subst r. rewrite Htr, Hc. apply legacy_loop_runs; [exact Hpost|].
  intros item ou Hin. unfold Legacy.userCronCheck in Hin.
  apply list_elem_of_fmap in Hin as (item' & Hpair & Hsel).
  unfold Legacy.embed_users in Hpair. injection Hpair as <- ->.
  apply list_elem_of_In, filter_In in Hsel as [Hsel _].
  destruct (Hfk item) as (u0 & Hu0 & Hid); [by apply list_elem_of_In|].
  destruct (find _ (users s)) as [u|] eqn:Hfind.
  - exists u. split; [done|]. apply Hurl.
    apply find_some in Hfind as [Hu _]. by apply list_elem_of_In.
  - apply list_elem_of_In in Hu0.
    pose proof (find_none _ _ Hfind u0 Hu0) as Hfalse. cbn beta in Hfalse.
    rewrite bool_decide_eq_true_2 in Hfalse by done. discriminate.
Qed.

Lemma legacy_runs_through_witness :
  let r := Legacy.cron_callback Sample.legacy_calm Sample.day "07:00:00"
                                Sample.afternoon in
  completion r = Resolved ∧
  ∀ item u, (item, Some u) ∈ Legacy.userCronCheck Sample.day Sample.afternoon →
    (User.push_goal u ≤ Counter.push_counter item →
     EvPost u Legacy.congratulation ∈ trace r) ∧
    (Counter.push_counter item < User.push_goal u →
     Legacy.time_passed "07:00:00" (User.annoy_time u) = true →
     EvPost u reminder ∈ trace r).
Proof.
  apply (legacy_runs_through Sample.legacy_calm Sample.day "07:00:00"
           Sample.afternoon).
  - reflexivity.
  - reflexivity.
  - intros c Hc. cbn in Hc.
    apply elem_of_cons in Hc as [-> | Hc]; [exists Sample.alice; split; [in_list | done]|].
    apply elem_of_cons in Hc as [-> | Hc]; [exists Sample.bob; split; [in_list | done]|].
    by apply elem_of_nil in Hc.
  - intros u Hu. cbn in Hu.
    repeat (apply elem_of_cons in Hu as [-> | Hu]; [by eexists|]).
    by apply elem_of_nil in Hu.
Defined.


(** ** The settings *)

Section SettingsTheory.

Variable parseInt : JsValue -> option Z.
Variable URL_valid : string -> bool.

#[local] Abbreviation settings := (apiSettings parseInt URL_valid).
#[local] Abbreviation updateData body := (updateData_of parseInt body).

(** How the handler ends: without a write and with a status that is not
    200, or past every check, with the row of the session's user
    updated. *)
Lemma apiSettings_cases userId body update_ok s :
  ((settings userId body update_ok s).2 = s ∧
   status (settings userId body update_ok s).1 ≠ 200) ∨
  ∃ id,
    session_user userId = Some id ∧
    (is_undefined (Body.push_goal body) = false →
     ∃ n, parseInt (Body.push_goal body) = Some n ∧ 1 ≤ n) ∧
    (∀ t, filled (Body.annoy_time body) = Some t → timeRegex_test t = true) ∧
    (∀ url, filled (Body.discord_webhook_url body) = Some url →
            URL_valid url = true) ∧
    UpdateData.empty (updateData body) = false ∧
    settings userId body update_ok s
    = (mkResponse 200 "Settings updated successfully",
       mkStore (map (fun u => if User.id u =? id
                              then update_user (updateData body) u else u)
                    (users s))
               (github_counter s)).
Proof.
  unfold apiSettings.
  destruct (session_user userId) as [id|]; [|left; by split].
  destruct (negb (is_undefined (Body.push_goal body))
            && goal_refused (parseInt (Body.push_goal body))) eqn:Hgoal;
    [left; by split|].
  destruct (match filled (Body.annoy_time body) with
            | Some t => negb (timeRegex_test t)
            | None => false
            end) eqn:Htime; [left; by split|].
  destruct (match filled (Body.discord_webhook_url body) with
            | Some url => negb (URL_valid url)
            | None => false
            end) eqn:Hurl; [left; by split|].
  cbn zeta.
  destruct (UpdateData.empty (updateData body)) eqn:Hempty; [left; by split|].
  destruct (users_update update_ok id (updateData body) s) as [s'|] eqn:Hupdate;
    [|left; by split].
  right. exists id. split; [done|].
  split; [|split; [|split; [|split; [done|]]]].
  - intros Hdef. rewrite Hdef in Hgoal. cbn in Hgoal.
    destruct (parseInt (Body.push_goal body)) as [n|]; [|discriminate].
    exists n. split; [done|]. cbn in Hgoal. lia.
  - intros t Ht. rewrite Ht in Htime. by apply negb_false_iff in Htime.
  - intros url Hu. rewrite Hu in Hurl. by apply negb_false_iff in Hurl.
  - unfold users_update in Hupdate.
    destruct (UpdateData.push_goal (updateData body)) as [[n|]|];
      [|discriminate|];
      (destruct update_ok; [|discriminate]);
      (destruct (List.filter _ (users s)) as [|u0 [|u1 l]]; [discriminate| |discriminate]);
      congruence.
Qed.

Lemma update_user_settings_ok body u :
  (is_undefined (Body.push_goal body) = false →
   ∃ n, parseInt (Body.push_goal body) = Some n ∧ 1 ≤ n) →
  (∀ t, filled (Body.annoy_time body) = Some t → timeRegex_test t = true) →
  (∀ url, filled (Body.discord_webhook_url body) = Some url →
          URL_valid url = true) →
  settings_ok URL_valid u →
  settings_ok URL_valid (update_user (updateData body) u).
Proof.
  intros Hgoal Htime Hurl (Hg & Ht & Hu). unfold settings_ok, update_user. cbn.
  split; [|split].
  - destruct (is_undefined (Body.push_goal body)); [exact Hg|].
    destruct Hgoal as (n & -> & Hn); done.
  - destruct (Body.annoy_time body) as [| |t0]; [exact Ht | done | exact Htime].
  - destruct (Body.discord_webhook_url body) as [| |url0];
      [exact Hu | done | exact Hurl].
Qed.

(** The validation keeps the rows well formed: if in every row the goal
    is at least 1, the time a time of the 24-hour clock and the endpoint
    a URL, this is so after a call of [/api/settings], whatever the body
    and the answer. *)
Theorem settings_keeps_rows_valid userId body update_ok s :
  (∀ u, u ∈ users s → settings_ok URL_valid u) →
  ∀ u, u ∈ users (settings userId body update_ok s).2 → settings_ok URL_valid u.
Proof.
  intros Hok u.
  destruct (apiSettings_cases userId body update_ok s)
    as [[-> _] | (id & _ & Hgoal & Htime & Hurl & _ & ->)]; [apply Hok|].
  cbn. intros (u0 & -> & Hu0)%list_elem_of_fmap.
  destruct (User.id u0 =? id); [|by apply Hok].
  apply update_user_settings_ok; auto.
Qed.

(** A call that is not answered 200 (no session, a field refused, no
    field at all, a failure of the store) writes nothing. *)
Theorem settings_refused_writes_nothing userId body update_ok s :
  let answer := apiSettings parseInt URL_valid userId body update_ok s in
  status answer.1 ≠ 200 → answer.2 = s.
Proof.
  cbn zeta. intros Hstatus.
  destruct (apiSettings_cases userId body update_ok s)
    as [[Hs _] | (id & _ & _ & _ & _ & _ & Heq)]; [exact Hs|].
  rewrite Heq in Hstatus. by destruct Hstatus.
Qed.

(** The handler writes to the row of the session's user only, and there
    only to the fields the body has: the counters and the rows of other
    users are as they were, no row changes its [id] or its [github_id],
    and a field absent from the body keeps its value. *)
Theorem settings_updates_own_fields userId body update_ok s :
  let s' := (settings userId body update_ok s).2 in
  github_counter s' = github_counter s ∧
  Forall2 (fun u u' =>
             u' = u ∨
             (session_user userId = Some (User.id u) ∧
              User.id u' = User.id u ∧ User.github_id u' = User.github_id u ∧
              (is_undefined (Body.push_goal body) = true →
               User.push_goal u' = User.push_goal u) ∧
              (Body.annoy_time body = Undefined →
               User.annoy_time u' = User.annoy_time u) ∧
              (Body.discord_webhook_url body = Undefined →
               User.discord_webhook_url u' = User.discord_webhook_url u)))
          (users s) (users s').
Proof.
  cbn zeta.
  destruct (apiSettings_cases userId body update_ok s)
    as [[-> _] | (id & Hid & _ & _ & _ & _ & ->)].
  - split; [done|]. induction (users s); constructor; auto.
  - cbn. split; [done|]. induction (users s) as [|u us IH]; constructor; [|exact IH].
    destruct (Z.eqb_spec (User.id u) id) as [<- | _]; [right | by left].
    split; [exact Hid|]. unfold update_user. cbn.
    split; [done|]. split; [done|]. split; [by intros ->|].
    split; by intros ->.
Qed.

(** Clearing [annoy_time] or the endpoint in the settings takes the user
    out of the sweep: after a call answered 200 whose body has [null] or
    [''] for one of the two, [checkPushGoals] posts nothing for the
    session's user, whatever the time of day and the counters. *)
Theorem cleared_settings_silence_sweep userId body update_ok s id :
  status (settings userId body update_ok s).1 = 200 →
  session_user userId = Some id →
  cleared (Body.annoy_time body) ∨ cleared (Body.discord_webhook_url body) →
  ∀ env today now u content,
    User.id u = id →
    EvPost u content
    ∉ trace (checkPushGoals env today now (settings userId body update_ok s).2).
Proof.
  intros Hstatus Hid Hcleared env today now u content Hu.
  destruct (apiSettings_cases userId body update_ok s)
    as [[_ Hne] | (id' & Hid' & _ & _ & _ & _ & Heq)]; [done|].
  assert (id' = id) as -> by congruence.
  rewrite Heq. cbn [snd].
  intros (u' & Hu' & Hd)%trace_event_origin.
  pose proof (decision_post _ _ _ _ Hd) as <-.
  apply elem_of_select_due_users in Hu' as [Hin Hdue].
  cbn in Hin. apply list_elem_of_fmap in Hin as (u0 & Hu0 & _).
  destruct (Z.eqb_spec (User.id u0) id) as [_ | Hne].
  - apply due_iff in Hdue as [[url Hurl] (t & Ht & _)].
    rewrite Hu0 in Hurl, Ht. unfold update_user in Hurl, Ht. cbn in Hurl, Ht.
    destruct Hcleared as [[H | H] | [H | H]]; rewrite H in *; discriminate.
  - congruence.
Qed.

End SettingsTheory.

Lemma settings_keeps_rows_valid_witness :
  status (apiSettings Sample.parseInt Sample.url_ok (Some 2)
            (Body.mk (JsNumber 5) (Text "21:30") Undefined) true
            Sample.morning).1 = 200 ∧
  ∀ u, u ∈ users (apiSettings Sample.parseInt Sample.url_ok (Some 2)
                    (Body.mk (JsNumber 5) (Text "21:30") Undefined) true
                    Sample.morning).2 →
       settings_ok Sample.url_ok u.
Proof.
  split; [reflexivity|].
  apply (settings_keeps_rows_valid Sample.parseInt Sample.url_ok (Some 2)
           (Body.mk (JsNumber 5) (Text "21:30") Undefined) true Sample.morning).
  intros u Hu. cbn in Hu.
  repeat (apply elem_of_cons in Hu as [-> | Hu];
          [split; [cbn; lia | split; intros ? [= <-]; reflexivity]|]).
  by apply elem_of_nil in Hu.
Defined.

Lemma settings_refused_writes_nothing_witness :
  (apiSettings Sample.parseInt Sample.url_ok (Some 2)
     (Body.mk (JsNumber 5) (Text "24:00") Undefined) true Sample.morning).2
  = Sample.morning.
Proof.
  apply (settings_refused_writes_nothing Sample.parseInt Sample.url_ok (Some 2)
           (Body.mk (JsNumber 5) (Text "24:00") Undefined) true Sample.morning).
  vm_compute. discriminate.
Defined.

Lemma cleared_settings_silence_sweep_witness :
  cleared (Text "") ∧
  ∀ env today now u content,
    User.id u = 2 →
    EvPost u content
    ∉ trace (checkPushGoals env today now
               (apiSettings Sample.parseInt Sample.url_ok (Some 2)
                  (Body.mk JsUndefined (Text "") Undefined) true
                  Sample.morning).2).
Proof.
  split; [by right|].
  apply (cleared_settings_silence_sweep Sample.parseInt Sample.url_ok (Some 2)
           (Body.mk JsUndefined (Text "") Undefined) true Sample.morning 2).
  - reflexivity.
  - reflexivity.
  - left. by right.
Defined.


(** ** Reminders until the goal is met *)

Section Reminders.

Variable hmacSha256Hex : string -> string -> string.
Variable JSON_parse : string -> option JsValue.
Variable pgrst_eq : JsValue -> Z -> bool.

#[local] Abbreviation rounds_of := (rounds hmacSha256Hex JSON_parse pgrst_eq).
#[local] Abbreviation ops_run := (apply_ops hmacSha256Hex JSON_parse pgrst_eq).

Lemma apply_ops_users ops s : users (ops_run ops s) = users s.
Proof.
  induction ops as [|op ops IH] using rev_ind; [done|].
  by rewrite apply_ops_snoc, apply_op_users.
Qed.

(** One run that gets to a user who has not met the goal posts the
    reminder. *)
Lemma reminder_sent_below_goal today s u t run :
  u ∈ users s →
  is_Some (User.discord_webhook_url u) →
  User.annoy_time u = Some t →
  1 ≤ User.push_goal u →
  below_goal u today s →
  gets_to s u t run →
  EvPost u reminder ∈ trace (checkPushGoals run.1 today run.2 s).
Proof.
  destruct run as [env now]. cbn [fst snd].
  intros Hu Hurl Htime Hgoal Hbelow (Hq & Hpassed & Hposts). cbn [fst snd] in *.
  destruct (checkPushGoals_loop env today now s Hq) as (-> & _).
  assert (Hdue : u ∈ select_due_users now s).
  { apply elem_of_select_due_users. split; [exact Hu|].
    apply due_iff. split; [exact Hurl | by exists t]. }
  apply list_elem_of_lookup in Hdue as [i Hi].
  apply (sweep_loop_reaches env _ _ 0%nat _ i u Hi).
  - intros j u' Hj Hu' [_ Hpost]. cbn in Hpost.
    assert (Hdue' : due now u' = true).
    { apply list_elem_of_lookup_2 in Hu'.
      by apply elem_of_select_due_users in Hu' as [_ ?]. }
    apply due_iff in Hdue' as [[url Hurl'] _].
    unfold axios_post in Hpost. rewrite Hurl' in Hpost.
    rewrite (Hposts i Hi j Hj) in Hpost. discriminate.
  - destruct (sweep_counterMap env today now s !! User.id u) as [c|] eqn:Hc.
    + destruct (sweep_counter_in_store env today now s _ c Hc) as [Hin Hkey].
      destruct (Hbelow c Hin Hkey) as [Hlt Hflag].
      unfold decision. cbn [already_notified]. rewrite Hflag, goalMet_counter.
      apply Z.leb_gt in Hlt. rewrite Hlt. apply list_elem_of_here.
    + unfold decision. cbn. rewrite goalMet_no_counter by exact Hgoal.
      apply list_elem_of_here.
Qed.

(** C4, as the sweep behaves: a user with an endpoint, an [annoy_time]
    that has passed and a positive goal, who has not met the goal today
    (no counter row for today, or one below the goal and not done), is
    posted the reminder by every run of [checkPushGoals] that gets to
    that user, run after run, whatever deliveries of webhooks and sweeps
    come in between, for as long as the pushes have not met the goal.  A
    run gets to the user when its users query answers and the deliveries
    to the users before in the batch succeed. *)
Theorem reminder_every_sweep today rs s u t :
  u ∈ users s →
  is_Some (User.discord_webhook_url u) →
  User.annoy_time u = Some t →
  1 ≤ User.push_goal u →
  Forall (fun x => below_goal u today x.1.1 ∧ gets_to x.1.1 u t x.1.2)
         (rounds hmacSha256Hex JSON_parse pgrst_eq today rs s) →
  length (rounds hmacSha256Hex JSON_parse pgrst_eq today rs s) = length rs ∧
  Forall (fun x => EvPost u reminder ∈ trace x.2)
         (rounds hmacSha256Hex JSON_parse pgrst_eq today rs s).
Proof.
  intros Hu Hurl Htime Hgoal. revert s Hu.
  induction rs as [|[ops run] rs IH]; intros s Hu Hall; [by split|].
  cbn [rounds] in *. cbn zeta in *.
  apply Forall_cons in Hall as [[Hbelow Hgets] Hall]. cbn [fst snd] in *.
  assert (Hstart : u ∈ users (ops_run ops s)) by by rewrite apply_ops_users.
  destruct (IH (store_after (checkPushGoals run.1 today run.2 (ops_run ops s))))
    as [Hlen Hrest].
  { by rewrite (proj1 (checkPushGoals_store run.1 today run.2 (ops_run ops s))). }
  { exact Hall. }
  split; [cbn; by rewrite Hlen|].
  constructor; [|exact Hrest]. cbn [snd].
  by apply (reminder_sent_below_goal today (ops_run ops s) u t run).
Qed.

End Reminders.

(** bob, goal 3, [annoy_time] 09:00, has not pushed: the sweep of 09:05
    reminds him; he pushes, and the sweep of 09:10 reminds him; he pushes
    again, and so does the sweep of 09:15. *)
Lemma reminder_every_sweep_witness :
  let push := Webhook Sample.listening Sample.day (Sample.signed "push by bob") in
  let rs := [([], (Sample.calm, "09:05")); ([push], (Sample.calm, "09:10"));
             ([push], (Sample.calm, "09:15"))] in
  map (fun x => push_count 2 Sample.day x.1.1)
      (rounds Sample.digest Sample.parse Sample.id_eq Sample.day rs Sample.morning)
  = [0; 1; 2] ∧
  length (rounds Sample.digest Sample.parse Sample.id_eq Sample.day rs Sample.morning)
  = 3%nat ∧
  Forall (fun x => EvPost Sample.bob reminder ∈ trace x.2)
         (rounds Sample.digest Sample.parse Sample.id_eq Sample.day rs Sample.morning).
Proof.
  intros push rs. split; [reflexivity|].
  apply (reminder_every_sweep Sample.digest Sample.parse Sample.id_eq Sample.day rs
           Sample.morning Sample.bob "09:00").
  - in_list.
  - by eexists.
  - reflexivity.
  - cbn. lia.
  - assert (Hgets : ∀ s now, String.leb "09:00" now = true →
                             gets_to s Sample.bob "09:00" (Sample.calm, now)).
    { intros s now Hnow. split; [reflexivity|]. split; [exact Hnow | reflexivity]. }
    assert (Hbelow : ∀ rows,
              forallb (fun c => negb (bool_decide (counter_key c = (2, Sample.day)))
                                || ((Counter.push_counter c <? 3)
                                    && negb (Counter.is_job_done c))) rows = true →
              ∀ users, below_goal Sample.bob Sample.day (mkStore users rows)).
    { intros rows Hrows users c Hc Hkey. cbn in Hc.
      rewrite forallb_forall in Hrows.
      specialize (Hrows c (proj1 (list_elem_of_In _ _) Hc)).
      rewrite bool_decide_eq_true_2 in Hrows by exact Hkey. cbn in Hrows.
      apply andb_true_iff in Hrows as [Hlt%Z.ltb_lt Hflag%negb_true_iff].
      by split. }
    repeat (apply List.Forall_cons;
            [split; [by apply Hbelow | by apply Hgets]|]).
    apply List.Forall_nil.
Defined.
